(** * RBAC backend: authentication gate, role gate, ownership check,
      self-protection rule.

    A shallow embedding of the Express handlers of the backend
    ([middleware/auth.js], [middleware/roleCheck.js],
    [controllers/postController.js], [controllers/userController.js],
    [models/Post.js]) together with the properties of the authorization
    contract.

    Conventions of the embedding:
    - a string is held as the bytes of its UTF-8 encoding;
    - the two Mongoose collections are finite maps keyed by the document
      id ([_id.toString()]), and the store is taken to be reachable;
    - the handlers that take an id from the route come in two layers.
      The definitions that carry the names of the source
      ([updatePost], [getUserById], ...) are the handlers on a request
      whose [req.params.id] Mongoose can cast to an ObjectId, as every
      id of a stored document can: there a query raises no error of
      its own. The module [Raw] has the same handlers on an id that is
      any text, where [findById] rejects with a [CastError] when the
      cast fails; the routers mount those. On an id that casts the two
      layers are the same function (for [updatePost], when the author
      of the body, if it has one, casts too);
    - a handler is a computation in a state-and-exception monad [Eff]
      over a [World]: the database, [req.user], the responses written
      through [res], the number of [next()] calls, and the trace of calls
      made to the collaborators (token codec, store, console);
    - [await] is sequencing: one request is handled at a time. *)

From stdpp Require Import gmap strings list fin_maps sorting.
From Stdlib Require Import ZArith Ascii.

Local Open Scope Z_scope.

(** ** JavaScript string and truthiness helpers *)

Module Js.

(** [s.startsWith(p)] *)
Definition startsWith (s p : string) : bool := String.prefix p s.

(** [s.split(sep)] for a separator of one character: consecutive
    separators give empty pieces, and the result is never empty. *)
Fixpoint split (sep : ascii) (s : string) : list string :=
  match s with
  | EmptyString => [EmptyString]
  | String c s' =>
      if Ascii.eqb c sep then EmptyString :: split sep s'
      else match split sep s' with
           | [] => [String c EmptyString]
           | w :: ws => String c w :: ws
           end
  end.

(** [xs.join(sep)] *)
Definition join (sep : string) (xs : list string) : string :=
  String.concat sep xs.

(** [xs.includes(x)] on an array of strings *)
Definition includes (xs : list string) (x : string) : bool :=
  existsb (String.eqb x) xs.

(** Truthiness of a value that is a string or [undefined]. *)
Definition truthy (v : option string) : bool :=
  match v with
  | Some s => negb (String.eqb s EmptyString)
  | None => false
  end.

(** The number of UTF-16 code units that the character with the
    leading byte [c] takes: one, or two for a character outside the
    basic plane (four bytes); a continuation byte counts for nothing. *)
Definition utf16Units (c : ascii) : nat :=
  let n := nat_of_ascii c in
  if (n <? 128)%nat then 1%nat
  else if (n <? 192)%nat then 0%nat
  else if (n <? 240)%nat then 1%nat
  else 2%nat.

(** [s.length] *)
Fixpoint length (s : string) : nat :=
  match s with
  | EmptyString => 0%nat
  | String c s' => (utf16Units c + length s')%nat
  end.

(** The text has ASCII characters only. *)
Fixpoint isAscii (s : string) : bool :=
  match s with
  | EmptyString => true
  | String c s' => (nat_of_ascii c <? 128)%nat && isAscii s'
  end.

(** The characters that [trim] removes, by their encoding: the white
    space and the line terminators of ECMAScript. In one byte: TAB, LF,
    VT, FF, CR and the space. *)
Definition isSpace (c : ascii) : bool :=
  let n := nat_of_ascii c in
  ((9 <=? n)%nat && (n <=? 13)%nat) || (n =? 32)%nat.

(** In two bytes: the no-break space U+00A0. *)
Definition isSpace2 (c1 c2 : ascii) : bool :=
  (nat_of_ascii c1 =? 194)%nat && (nat_of_ascii c2 =? 160)%nat.

(** In three bytes: U+1680, U+2000 to U+200A, U+2028, U+2029, U+202F,
    U+205F, U+3000 and the byte order mark U+FEFF. *)
Definition isSpace3 (c1 c2 c3 : ascii) : bool :=
  let a := nat_of_ascii c1 in
  let b := nat_of_ascii c2 in
  let c := nat_of_ascii c3 in
  ((a =? 225)%nat && (b =? 154)%nat && (c =? 128)%nat)
  || ((a =? 226)%nat && (b =? 128)%nat
      && (((128 <=? c)%nat && (c <=? 138)%nat)
          || (c =? 168)%nat || (c =? 169)%nat || (c =? 175)%nat))
  || ((a =? 226)%nat && (b =? 129)%nat && (c =? 159)%nat)
  || ((a =? 227)%nat && (b =? 128)%nat && (c =? 128)%nat)
  || ((a =? 239)%nat && (b =? 187)%nat && (c =? 191)%nat).

(** [s.trimStart()] *)
Fixpoint trimStart (s : string) : string :=
  match s with
  | EmptyString => EmptyString
  | String c1 s1 =>
      if isSpace c1 then trimStart s1
      else
        match s1 with
        | EmptyString => s
        | String c2 s2 =>
            if isSpace2 c1 c2 then trimStart s2
            else
              match s2 with
              | EmptyString => s
              | String c3 s3 => if isSpace3 c1 c2 c3 then trimStart s3 else s
              end
        end
  end.

(** The same on the bytes in reverse order: the last byte of the text
    comes first. *)
Fixpoint trimStartReversed (s : string) : string :=
  match s with
  | EmptyString => EmptyString
  | String c1 s1 =>
      if isSpace c1 then trimStartReversed s1
      else
        match s1 with
        | EmptyString => s
        | String c2 s2 =>
            if isSpace2 c2 c1 then trimStartReversed s2
            else
              match s2 with
              | EmptyString => s
              | String c3 s3 => if isSpace3 c3 c2 c1 then trimStartReversed s3 else s
              end
        end
  end.

(** [s.trimEnd()] *)
Definition trimEnd (s : string) : string :=
  String.rev (trimStartReversed (String.rev s)).

(** [s.trim()] *)
Definition trim (s : string) : string := trimEnd (trimStart s).

(** A value of a JSON request body. Arrays and objects are never equal
    to a string and are always truthy, which is all the handlers ask
    of them. *)
Inductive Value :=
| Undefined
| Null
| Bool (b : bool)
| Number (z : Z)
| Str (s : string)
| Object.

Definition truthyValue (v : Value) : bool :=
  match v with
  | Undefined | Null => false
  | Bool b => b
  | Number z => negb (z =? 0)
  | Str s => negb (String.eqb s EmptyString)
  | Object => true
  end.

(** [xs.includes(v)] for an array of strings and any value [v]. *)
Definition includesValue (xs : list string) (v : Value) : bool :=
  match v with
  | Str s => includes xs s
  | _ => false
  end.

(** Template-literal rendering of a value that passed [includesValue]. *)
Definition render (v : Value) : string :=
  match v with
  | Str s => s
  | _ => EmptyString
  end.

End Js.

(** ** Data model *)

(** A User document as held in memory. [u_password] is [None] when the
    query projected the field away with [select('-password')]. *)
Record UserDoc := mkUserDoc {
  u_id : string;
  u_name : string;
  u_email : string;
  u_password : option string;
  u_role : string;
}.

(** A stored User: the fields of the collection [users], keyed by id. *)
Record UserRecord := mkUserRecord {
  ur_name : string;
  ur_email : string;
  ur_password : string;
  ur_role : string;
}.

(** A stored Post ([models/Post.js]); [pr_author] is the author's id.
    The timestamps [createdAt] and [updatedAt] are not fields of the
    record: the list handlers, which sort on [createdAt], read the
    creation time from a [Clock]. *)
Record PostRecord := mkPostRecord {
  pr_title : string;
  pr_content : string;
  pr_author : string;
  pr_status : string;
}.

Record PostDoc := mkPostDoc {
  p_id : string;
  p_title : string;
  p_content : string;
  p_author : string;
  p_status : string;
}.

(** The result of [populate('author', 'name email role')]: the author
    reference replaced by the selected fields of the user, or [null]
    when the user does not exist any more. *)
Record AuthorView := mkAuthorView {
  av_id : string;
  av_name : string;
  av_email : string;
  av_role : string;
}.

Record PostView := mkPostView {
  pv_id : string;
  pv_title : string;
  pv_content : string;
  pv_author : option AuthorView;
  pv_status : string;
}.

Record Db := mkDb {
  users : gmap string UserRecord;
  posts : gmap string PostRecord;
}.

(** The schema paths of a Post that a request body can carry, each a
    string when present. *)
Record Body := mkBody {
  b_title : option string;
  b_content : option string;
  b_status : option string;
  b_author : option string;
  b_role : Js.Value;
}.

Record Request := mkRequest {
  authorization : option string;   (* req.headers.authorization *)
  params_id : string;              (* req.params.id *)
  body : Body;                     (* req.body *)
}.

Inductive Payload :=
| NoData
| EmptyData                                        (* data: {} *)
| RoleData (id name email role : string)
| UserData (u : UserDoc)
| PostData (p : option PostView).

Record Response := mkResponse {
  status : Z;
  success : bool;
  message : option string;
  data : Payload;
  error : option string;
}.

(** Calls made to the collaborators, in program order. *)
Inductive Event :=
| JwtVerify (token : option string)
| UserFindById (id : string)
| UserSave (id : string)
| UserFindByIdAndDelete (id : string)
| UserPopulate (id : string)
| PostFindById (id : string)
| PostCreate (id : string)
| PostFindByIdAndUpdate (id : string)
| PostFindByIdAndDelete (id : string)
| ConsoleError (label msg : string).

(** Calls that read a collection, and calls that write one. *)
Definition isStoreRead (e : Event) : bool :=
  match e with
  | UserFindById _ | UserPopulate _ | PostFindById _ => true
  | _ => false
  end.

Definition isStoreWrite (e : Event) : bool :=
  match e with
  | UserSave _ | UserFindByIdAndDelete _
  | PostCreate _ | PostFindByIdAndUpdate _ | PostFindByIdAndDelete _ => true
  | _ => false
  end.

Definition isStoreCall (e : Event) : bool := isStoreRead e || isStoreWrite e.

Record World := mkWorld {
  db : Db;
  req_user : option UserDoc;       (* req.user *)
  sent : list Response;            (* responses written, oldest first *)
  next_calls : nat;                (* how often next() was called *)
  trace : list Event;              (* collaborator calls, oldest first *)
}.

(** ** The handler monad *)

Inductive Result (A : Type) :=
| Ok (a : A)
| Throw (e : string).
Arguments Ok {A} a.
Arguments Throw {A} e.

Definition Eff (A : Type) : Type := World -> Result A * World.

Definition ret {A} (a : A) : Eff A := fun w => (Ok a, w).

Definition bind {A B} (m : Eff A) (k : A -> Eff B) : Eff B :=
  fun w =>
    match m w with
    | (Ok a, w') => k a w'
    | (Throw e, w') => (Throw e, w')
    end.

Definition throw {A} (e : string) : Eff A := fun w => (Throw e, w).

(** [try { m } catch (error) { h(error.message) }] *)
Definition try_catch {A} (m : Eff A) (h : string -> Eff A) : Eff A :=
  fun w =>
    match m w with
    | (Ok a, w') => (Ok a, w')
    | (Throw e, w') => h e w'
    end.

#[global] Instance Eff_ret : MRet Eff := @ret.
#[global] Instance Eff_bind : MBind Eff := fun A B k m => bind m k.

Definition emit (e : Event) : Eff unit :=
  fun w => (Ok tt, mkWorld (db w) (req_user w) (sent w) (next_calls w) (trace w ++ [e])).

Definition getDb : Eff Db := fun w => (Ok (db w), w).

Definition putDb (d : Db) : Eff unit :=
  fun w => (Ok tt, mkWorld d (req_user w) (sent w) (next_calls w) (trace w)).

Definition getReqUser : Eff (option UserDoc) := fun w => (Ok (req_user w), w).

(** [req.user = u] *)
Definition setReqUser (u : option UserDoc) : Eff unit :=
  fun w => (Ok tt, mkWorld (db w) u (sent w) (next_calls w) (trace w)).

(** [res.status(..).json(..)] *)
Definition respond (r : Response) : Eff unit :=
  fun w => (Ok tt, mkWorld (db w) (req_user w) (sent w ++ [r]) (next_calls w) (trace w)).

(** [next()] *)
Definition callNext : Eff unit :=
  fun w => (Ok tt, mkWorld (db w) (req_user w) (sent w) (S (next_calls w)) (trace w)).

(** [console.error(label, msg)] *)
Definition consoleError (label msg : string) : Eff unit :=
  emit (ConsoleError label msg).

(** [{ success: false, message }] with the given status *)
Definition failure (code : Z) (msg : string) : Response :=
  mkResponse code false (Some msg) NoData None.

(** [{ success: false, message, error: error.message }] with status 500 *)
Definition serverError (msg err : string) : Response :=
  mkResponse 500 false (Some msg) NoData (Some err).

(** ** The token codec ([jsonwebtoken] with [process.env.JWT_SECRET]) *)

Inductive JwtError :=
| TokenExpired
| JwtMalformed
| InvalidSignature.

(** The decoded payload; the gate reads [decoded.id] only. *)
Record Claims := mkClaims {
  claim_id : string;
}.

(** Verification of a non-empty token under the configured secret and
    the current time. *)
Record TokenCodec := mkTokenCodec {
  codec_verify : string -> JwtError + Claims;
}.

Module Jwt.

Definition errorMessage (e : JwtError) : string :=
  match e with
  | TokenExpired => "jwt expired"
  | JwtMalformed => "jwt malformed"
  | InvalidSignature => "invalid signature"
  end.

(** [jwt.verify(token, process.env.JWT_SECRET)]: throws on a missing or
    empty token before looking at the secret. *)
Definition verify (codec : TokenCodec) (token : option string) : Eff Claims :=
  emit (JwtVerify token);;
  if Js.truthy token then
    match codec_verify codec (default EmptyString token) with
    | inr c => mret c
    | inl e => throw (errorMessage e)
    end
  else throw "jwt must be provided".

End Jwt.

(** ** The Mongoose models *)

Module User.

Definition toDoc (id : string) (r : UserRecord) : UserDoc :=
  mkUserDoc id (ur_name r) (ur_email r) (Some (ur_password r)) (ur_role r).

(** The projection [select('-password')]. *)
Definition withoutPassword (u : UserDoc) : UserDoc :=
  mkUserDoc (u_id u) (u_name u) (u_email u) None (u_role u).

(** [User.findById(id)] for an id that casts to an ObjectId (see
    [Raw.User_findById] for any text). *)
Definition findById (id : string) : Eff (option UserDoc) :=
  emit (UserFindById id);;
  d ← getDb;
  mret (toDoc id <$> users d !! id).

(** [User.findById(id).select('-password')]: one query with a
    projection, for an id that casts to an ObjectId. The subject id of
    a token that verifies is the id of a user the server signed the
    token for. *)
Definition findByIdSelectMinusPassword (id : string) : Eff (option UserDoc) :=
  emit (UserFindById id);;
  d ← getDb;
  mret (withoutPassword <$> (toDoc id <$> users d !! id)).

(** Modelled from the spec: the role enumeration of the User schema
    ([models/User.js] is not among the sources); the spec's data model
    has [role ∈ {admin, editor, viewer}]. *)
Definition roleEnum : list string := ["admin"; "editor"; "viewer"].

(** [user.save()] on a document that was loaded from the store: the
    schema validators run, then the fields are written back under the
    document's id. A field that was projected away is left as stored. *)
Definition save (u : UserDoc) : Eff unit :=
  emit (UserSave (u_id u));;
  if Js.includes roleEnum (u_role u) then
    d ← getDb;
    match users d !! u_id u with
    | Some r =>
        putDb (mkDb (<[u_id u :=
                        mkUserRecord (u_name u) (u_email u)
                          (default (ur_password r) (u_password u))
                          (u_role u)]> (users d))
                    (posts d))
    | None => throw "No document found for query"
    end
  else throw "User validation failed: role".

(** [User.findByIdAndDelete(id)] *)
Definition findByIdAndDelete (id : string) : Eff unit :=
  emit (UserFindByIdAndDelete id);;
  d ← getDb;
  putDb (mkDb (delete id (users d)) (posts d)).

End User.

Module Post.

Definition toDoc (id : string) (r : PostRecord) : PostDoc :=
  mkPostDoc id (pr_title r) (pr_content r) (pr_author r) (pr_status r).

(** The validators of [postSchema] ([models/Post.js]). *)
Definition statusEnum : list string := ["draft"; "published"].

(** title: [required], [trim], [maxlength: 200]. The setter [trim]
    runs before the validators, and [maxlength] compares [value.length]. *)
Definition titleError (t : string) : option string :=
  let t' := Js.trim t in
  if String.eqb t' EmptyString then Some "Please provide a title"
  else if (200 <? Js.length t')%nat then Some "Title cannot exceed 200 characters"
  else None.

(** content: [required] *)
Definition contentError (c : string) : option string :=
  if String.eqb c EmptyString then Some "Please provide content" else None.

(** status: [enum: ['draft', 'published']], with the message Mongoose
    gives an enumeration that declares none. *)
Definition statusError (s : string) : option string :=
  if Js.includes statusEnum s then None
  else Some ("`" +:+ s +:+ "` is not a valid enum value for path `status`.").

(** The entry of a failing path in the message of a [ValidationError]. *)
Definition pathError (path : string) (e : option string) : list string :=
  match e with
  | Some msg => [path +:+ ": " +:+ msg]
  | None => []
  end.

(** The validators of the paths that are present: [None] when all
    pass, and otherwise the entries of the failing paths, joined as in
    the message of the [ValidationError]. The entries are listed here
    in the order of the schema; Mongoose lists them in the order in
    which it ran the validators. *)
Definition validate (title content status : option string) : option string :=
  match pathError "title" (title ≫= titleError)
        ++ pathError "content" (content ≫= contentError)
        ++ pathError "status" (status ≫= statusError) with
  | [] => None
  | errors => Some (Js.join ", " errors)
  end.

(** [Post.findById(id)] for an id that casts to an ObjectId (see
    [Raw.Post_findById] for any text). *)
Definition findById (id : string) : Eff (option PostDoc) :=
  emit (PostFindById id);;
  d ← getDb;
  mret (toDoc id <$> posts d !! id).

(** [Post.create({ title, content, status, author })]; [newId] is the
    ObjectId the driver generates for the document. *)
Definition create (newId title content status author : string) : Eff PostDoc :=
  emit (PostCreate newId);;
  match validate (Some title) (Some content) (Some status) with
  | Some e => throw ("Post validation failed: " +:+ e)
  | None =>
      d ← getDb;
      let r := mkPostRecord (Js.trim title) content author status in
      putDb (mkDb (users d) (<[newId := r]> (posts d)));;
      mret (toDoc newId r)
  end.

(** The update document applied to a stored post: every schema path
    present in the update replaces the stored value. *)
Definition applyUpdate (b : Body) (r : PostRecord) : PostRecord :=
  mkPostRecord
    (default (pr_title r) (Js.trim <$> b_title b))
    (default (pr_content r) (b_content b))
    (default (pr_author r) (b_author b))
    (default (pr_status r) (b_status b)).

(** [Post.findByIdAndUpdate(id, update, { new: true, runValidators: true })]:
    the update validators run on the paths of the update; the result is
    the document after the update, or [null] when there is none. *)
Definition findByIdAndUpdate (id : string) (update : Body) : Eff (option PostDoc) :=
  emit (PostFindByIdAndUpdate id);;
  match validate (b_title update) (b_content update) (b_status update) with
  | Some e => throw ("Validation failed: " +:+ e)
  | None =>
      d ← getDb;
      match posts d !! id with
      | Some r =>
          let r' := applyUpdate update r in
          putDb (mkDb (users d) (<[id := r']> (posts d)));;
          mret (Some (toDoc id r'))
      | None => mret None
      end
  end.

(** [Post.findByIdAndDelete(id)] *)
Definition findByIdAndDelete (id : string) : Eff unit :=
  emit (PostFindByIdAndDelete id);;
  d ← getDb;
  putDb (mkDb (users d) (delete id (posts d))).

(** [.populate('author', 'name email role')] *)
Definition populateAuthor (p : PostDoc) : Eff PostView :=
  emit (UserPopulate (p_author p));;
  d ← getDb;
  let a := (fun r => mkAuthorView (p_author p) (ur_name r) (ur_email r) (ur_role r))
             <$> users d !! p_author p in
  mret (mkPostView (p_id p) (p_title p) (p_content p) a (p_status p)).

End Post.

(** [req.user.<property>]: the attached user, or the [TypeError] of
    reading a property of [undefined] when none is attached. *)
Definition reqUser (property : string) : Eff UserDoc :=
  u ← getReqUser;
  match u with
  | Some user => mret user
  | None => throw ("Cannot read properties of undefined (reading '" +:+ property +:+ "')")
  end.

(** ** [middleware/auth.js] *)

(** How a block was left: by a [return], or by running off its end with
    the current value of the local [token]. *)
Inductive Completion :=
| Returned
| FellThrough (token : option string).

Definition protect (codec : TokenCodec) (req : Request) : Eff unit :=
  c ← (if Js.truthy (authorization req)
          && Js.startsWith (default EmptyString (authorization req)) "Bearer"
       then
         let token := Js.split " " (default EmptyString (authorization req)) !! 1%nat in
         try_catch
           (decoded ← Jwt.verify codec token;
            u ← User.findByIdSelectMinusPassword (claim_id decoded);
            setReqUser u;;
            match u with
            | None =>
                respond (failure 401 "User not found");;
                mret Returned
            | Some _ =>
                callNext;;
                mret (FellThrough token)
            end)
           (fun msg =>
              consoleError "Token verification failed:" msg;;
              respond (failure 401 "Not authorized, token failed");;
              mret Returned)
       else mret (FellThrough None));
  match c with
  | Returned => mret tt
  | FellThrough token =>
      if negb (Js.truthy token)
      then respond (failure 401 "Not authorized, no token provided")
      else mret tt
  end.

(** ** [middleware/roleCheck.js] *)

Definition accessDenied (allowedRoles : list string) (role : string) : string :=
  "Access denied. Required role: " +:+ Js.join " or " allowedRoles
    +:+ ". Your role: " +:+ role.

Definition checkRole (allowedRoles : list string) (req : Request) : Eff unit :=
  u ← getReqUser;
  match u with
  | None => respond (failure 401 "User not authenticated")
  | Some user =>
      if negb (Js.includes allowedRoles (u_role user))
      then respond (failure 403 (accessDenied allowedRoles (u_role user)))
      else callNext
  end.

(** ** [controllers/postController.js] *)

(** [updatePost] and [deletePost] are given here for a request whose
    [req.params.id] casts to an ObjectId, and for a body whose author,
    if it has one, does (module [Raw] has them for any text). *)
Definition createPost (newId : string) (req : Request) : Eff unit :=
  try_catch
    (let title := b_title (body req) in
     let content := b_content (body req) in
     let status := b_status (body req) in
     if negb (Js.truthy title) || negb (Js.truthy content) then
       respond (failure 400 "Please provide title and content")
     else
       user ← reqUser "id";
       post ← Post.create newId (default EmptyString title) (default EmptyString content)
                (if Js.truthy status then default EmptyString status else "draft")
                (u_id user);
       view ← Post.populateAuthor post;
       respond (mkResponse 201 true (Some "Post created successfully")
                  (PostData (Some view)) None))
    (fun msg =>
       consoleError "Create post error:" msg;;
       respond (serverError "Error creating post" msg)).

Definition updatePost (req : Request) : Eff unit :=
  try_catch
    (post ← Post.findById (params_id req);
     match post with
     | None => respond (failure 404 "Post not found")
     | Some post =>
         user ← reqUser "role";
         if negb (String.eqb (u_role user) "admin")
            && negb (String.eqb (p_author post) (u_id user))
         then respond (failure 403 "You can only edit your own posts")
         else
           post' ← Post.findByIdAndUpdate (params_id req) (body req);
           view ← match post' with
                  | Some p => v ← Post.populateAuthor p; mret (Some v)
                  | None => mret None
                  end;
           respond (mkResponse 200 true (Some "Post updated successfully")
                      (PostData view) None)
     end)
    (fun msg =>
       consoleError "Update post error:" msg;;
       respond (serverError "Error updating post" msg)).

Definition deletePost (req : Request) : Eff unit :=
  try_catch
    (post ← Post.findById (params_id req);
     match post with
     | None => respond (failure 404 "Post not found")
     | Some post =>
         user ← reqUser "role";
         if negb (String.eqb (u_role user) "admin")
            && negb (String.eqb (p_author post) (u_id user))
         then respond (failure 403 "You can only delete your own posts")
         else
           Post.findByIdAndDelete (params_id req);;
           respond (mkResponse 200 true (Some "Post deleted successfully")
                      EmptyData None)
     end)
    (fun msg =>
       consoleError "Delete post error:" msg;;
       respond (serverError "Error deleting post" msg)).

(** ** [controllers/userController.js] *)

(** The three handlers are given here for a request whose
    [req.params.id] casts to an ObjectId (module [Raw] has them for any
    text). *)
Definition getUserById (req : Request) : Eff unit :=
  try_catch
    (user ← User.findByIdSelectMinusPassword (params_id req);
     match user with
     | None => respond (failure 404 "User not found")
     | Some user => respond (mkResponse 200 true None (UserData user) None)
     end)
    (fun msg =>
       consoleError "Get user error:" msg;;
       respond (serverError "Error fetching user" msg)).

Definition validRoles : list string := ["admin"; "editor"; "viewer"].

Definition updateUserRole (req : Request) : Eff unit :=
  try_catch
    (let role := b_role (body req) in
     if negb (Js.truthyValue role) || negb (Js.includesValue validRoles role) then
       respond (failure 400
                  ("Invalid role. Must be one of: " +:+ Js.join ", " validRoles))
     else
       user ← User.findById (params_id req);
       match user with
       | None => respond (failure 404 "User not found")
       | Some user =>
           actor ← reqUser "id";
           if String.eqb (u_id user) (u_id actor) then
             respond (failure 400 "You cannot change your own role")
           else
             let user := mkUserDoc (u_id user) (u_name user) (u_email user)
                           (u_password user) (Js.render role) in
             User.save user;;
             respond (mkResponse 200 true
                        (Some ("User role updated to " +:+ Js.render role))
                        (RoleData (u_id user) (u_name user) (u_email user) (u_role user))
                        None)
       end)
    (fun msg =>
       consoleError "Update role error:" msg;;
       respond (serverError "Error updating user role" msg)).

Definition deleteUser (req : Request) : Eff unit :=
  try_catch
    (user ← User.findById (params_id req);
     match user with
     | None => respond (failure 404 "User not found")
     | Some user =>
         actor ← reqUser "id";
         if String.eqb (u_id user) (u_id actor) then
           respond (failure 400 "You cannot delete your own account")
         else
           User.findByIdAndDelete (params_id req);;
           respond (mkResponse 200 true (Some "User deleted successfully")
                      EmptyData None)
     end)
    (fun msg =>
       consoleError "Delete user error:" msg;;
       respond (serverError "Error deleting user" msg)).

(** ** Running a handler *)

(** A fresh request context over a database: nothing attached, nothing
    sent. *)
Definition initial (d : Db) : World := mkWorld d None [] 0%nat [].

(** The context in which a handler behind the authentication gate runs. *)
Definition authenticated (d : Db) (u : UserDoc) : World :=
  mkWorld d (Some u) [] 0%nat [].

(** The world after a handler has run. *)
Definition exec (h : Eff unit) (w : World) : World := snd (h w).

(** The calls of a run that went to the store, and the writes among
    them. *)
Definition storeCalls (w : World) : list Event :=
  List.filter isStoreCall (trace w).

Definition storeWrites (w : World) : list Event :=
  List.filter isStoreWrite (trace w).

(** ** The routes ([routes/postRoutes.js], [routes/userRoutes.js]) *)

(** Express runs the layers of a route in order; a layer hands the
    request to the following one by calling [next()]. *)
Fixpoint dispatch (layers : list (Request -> Eff unit)) (req : Request) (w : World) : World :=
  match layers with
  | [] => w
  | h :: rest =>
      let w' := exec (h req) w in
      if (next_calls w <? next_calls w')%nat then dispatch rest req w' else w'
  end.

(** ** A seeded database ([scripts/seed.js]) and a toy codec *)

(** The short ids of this store stand for ObjectIds: it serves the
    handlers on an id that casts. [Demo.store], further down, is the
    same store under ObjectIds. *)

Module Sample.

Definition admin : UserRecord :=
  mkUserRecord "Admin User" "admin@example.com" "$2a$10$adminhash" "admin".
Definition editor : UserRecord :=
  mkUserRecord "Editor User" "editor@example.com" "$2a$10$editorhash" "editor".
Definition viewer : UserRecord :=
  mkUserRecord "Viewer User" "viewer@example.com" "$2a$10$viewerhash" "viewer".

Definition post1 : PostRecord :=
  mkPostRecord "Editor Post" "Written by the editor." "E1" "draft".
Definition post2 : PostRecord :=
  mkPostRecord "Welcome" "Written by the admin." "A1" "published".

Definition seeded : Db :=
  mkDb (<["A1" := admin]> (<["E1" := editor]> (<["V1" := viewer]> ∅)))
       (<["P1" := post1]> (<["P2" := post2]> ∅)).

Definition adminDoc : UserDoc := User.withoutPassword (User.toDoc "A1" admin).
Definition editorDoc : UserDoc := User.withoutPassword (User.toDoc "E1" editor).
Definition viewerDoc : UserDoc := User.withoutPassword (User.toDoc "V1" viewer).

(** A codec that accepts the tokens [ok.<id>] and rejects [old.<id>]
    as expired and everything else as malformed. *)
Definition codec : TokenCodec :=
  mkTokenCodec (fun t =>
    if String.prefix "ok." t then inr (mkClaims (String.substring 3 (String.length t - 3) t))
    else if String.prefix "old." t then inl TokenExpired
    else inl JwtMalformed).

Definition emptyBody : Body := mkBody None None None None Js.Undefined.

Definition request (auth : option string) (id : string) (b : Body) : Request :=
  mkRequest auth id b.

(** A request with HTTP basic authentication, and one with the
    editor's bearer token. *)
Definition basicAuth : Request :=
  request (Some "Basic dXNlcjpwYXNz") "P1" emptyBody.

Definition editorBearer : Request :=
  request (Some "Bearer ok.E1") "P1" emptyBody.

End Sample.

(** ** The contract, in the words of the specification *)

(** The request carries no bearer token: the authorization header is
    absent, or its value does not begin with ["Bearer"]. *)
Definition noBearerToken (req : Request) : Prop :=
  authorization req = None
  \/ exists s, authorization req = Some s /\ Js.startsWith s "Bearer" = false.

(** The request carries the bearer token [t]: the second of the pieces of
    the header value that a space separates ([None] when there is none). *)
Definition bearerToken (req : Request) (t : option string) : Prop :=
  exists s, authorization req = Some s
            /\ Js.startsWith s "Bearer" = true
            /\ t = Js.split " " s !! 1%nat.

(** The codec verifies the token and decodes it to the claims [c]. *)
Definition verifies (codec : TokenCodec) (t : option string) (c : Claims) : Prop :=
  exists tok, t = Some tok /\ tok <> EmptyString /\ codec_verify codec tok = inr c.

Definition failsVerification (codec : TokenCodec) (req : Request) : Prop :=
  exists t, bearerToken req t /\ forall c, ~ verifies codec t c.

Definition principalNotFound (codec : TokenCodec) (req : Request) (d : Db) : Prop :=
  exists t c, bearerToken req t /\ verifies codec t c
              /\ users d !! claim_id c = None.

(** The gate ended the request with a 401 and did not call [next()]. *)
Definition unauthenticated (w : World) : Prop :=
  exists r, sent w = [r] /\ status r = 401 /\ success r = false
            /\ next_calls w = 0%nat.

(** The gate attached [u] and handed the request on, writing nothing. *)
Definition proceedsWith (w : World) (u : UserDoc) : Prop :=
  req_user w = Some u /\ next_calls w = 1%nat /\ sent w = [].

(** The outcome of an update that passed the ownership check: the
    update was handed to the store, and it either went through (200,
    the post patched) or was stopped by the schema validators (500,
    nothing changed). *)
Definition updateAllowed (d : Db) (req : Request) (p : PostRecord) (w : World) : Prop :=
  storeWrites w = [PostFindByIdAndUpdate (params_id req)]
  /\ next_calls w = 0%nat
  /\ match Post.validate (b_title (body req)) (b_content (body req)) (b_status (body req)) with
     | None =>
         db w = mkDb (users d)
                  (<[params_id req := Post.applyUpdate (body req) p]> (posts d))
         /\ exists view,
              sent w = [mkResponse 200 true (Some "Post updated successfully")
                          (PostData (Some view)) None]
     | Some e =>
         db w = d
         /\ sent w = [serverError "Error updating post" ("Validation failed: " +:+ e)]
     end.

(** The outcome of a delete that passed the ownership check. *)
Definition deleteAllowed (d : Db) (req : Request) (w : World) : Prop :=
  storeWrites w = [PostFindByIdAndDelete (params_id req)]
  /\ next_calls w = 0%nat
  /\ db w = mkDb (users d) (delete (params_id req) (posts d))
  /\ sent w = [mkResponse 200 true (Some "Post deleted successfully") EmptyData None].

(** A request ended with the single response [r] and no write. *)
Definition refusedWith (d : Db) (r : Response) (w : World) : Prop :=
  sent w = [r] /\ db w = d /\ storeWrites w = [] /\ next_calls w = 0%nat.

(** The self-protection rule with the status it is surfaced with: an
    actor who targets their own, existing user record with a role update
    or a delete gets a failure of status [code], and the store is left as
    it was. *)
Definition selfActionRefused (code : Z) : Prop :=
  forall (d : Db) (actor : UserDoc) (req : Request),
    is_Some (users d !! params_id req) ->
    params_id req = u_id actor ->
    (exists r, refusedWith d r (exec (updateUserRole req) (authenticated d actor))
               /\ status r = code /\ success r = false)
    /\ (exists r, refusedWith d r (exec (deleteUser req) (authenticated d actor))
                  /\ status r = code /\ success r = false).

(** The author of a stored post never changes: whatever request the
    author of the post or an admin sends to the update handler, the
    post, if it is still there, has the author it had. *)
Definition authorImmutable : Prop :=
  forall (d : Db) (actor : UserDoc) (req : Request) (p p' : PostRecord),
    posts d !! params_id req = Some p ->
    posts (db (exec (updatePost req) (authenticated d actor))) !! params_id req = Some p' ->
    pr_author p' = pr_author p.

(** A stored user with another role. *)
Definition withRole (role : string) (r : UserRecord) : UserRecord :=
  mkUserRecord (ur_name r) (ur_email r) (ur_password r) role.

(** The failure of the role validation of [updateUserRole]. *)
Definition invalidRole : Response :=
  failure 400 "Invalid role. Must be one of: admin, editor, viewer".

(** The role of the request body, when it is one of the valid roles. *)
Definition requestedRole (req : Request) : option string :=
  match b_role (body req) with
  | Js.Str role => if Js.includes validRoles role then Some role else None
  | _ => None
  end.

(** * The rest of the backend: read handlers, list handlers, routers *)

(** ** [getPostById] ([controllers/postController.js]) *)

(** For a request whose [req.params.id] casts to an ObjectId. *)
Definition getPostById (req : Request) : Eff unit :=
  try_catch
    (post ← Post.findById (params_id req);
     view ← match post with
            | Some p => v ← Post.populateAuthor p; mret (Some v)
            | None => mret None
            end;
     match view with
     | None => respond (failure 404 "Post not found")
     | Some v => respond (mkResponse 200 true None (PostData (Some v)) None)
     end)
    (fun msg =>
       consoleError "Get post error:" msg;;
       respond (serverError "Error fetching post" msg)).

(** ** The handlers on an id that is any text *)

Module Mongoose.

Definition isHexDigit (c : ascii) : bool :=
  let n := nat_of_ascii c in
  ((48 <=? n)%nat && (n <=? 57)%nat)
  || ((65 <=? n)%nat && (n <=? 70)%nat)
  || ((97 <=? n)%nat && (n <=? 102)%nat).

Fixpoint allHex (s : string) : bool :=
  match s with
  | EmptyString => true
  | String c s' => isHexDigit c && allHex s'
  end.

(** The texts that the cast to ObjectId takes: 24 hexadecimal digits. *)
Definition isObjectId (id : string) : bool :=
  (String.length id =? 24)%nat && allHex id.

(** The texts that no version of the driver casts: older versions
    took, besides 24 hexadecimal digits, any text of 12 bytes. The model
    follows the current driver; what is stated of an id that fails the
    cast is stated of these texts. *)
Definition neverCasts (id : string) : bool :=
  negb (isObjectId id) && negb (String.length id =? 12)%nat.

Definition quote : string := String (ascii_of_nat 34) EmptyString.

(** The message of the [CastError] for the value [id] at [path]. *)
Definition castError (model path id : string) : string :=
  "Cast to ObjectId failed for value " +:+ quote +:+ id +:+ quote
    +:+ " (type string) at path " +:+ quote +:+ path +:+ quote
    +:+ " for model " +:+ quote +:+ model +:+ quote.

(** The cast of a value of a query or of an update to ObjectId, the
    type of the path. *)
Definition castObjectId (model path id : string) : Eff unit :=
  if isObjectId id then mret tt else throw (castError model path id).

(** The cast of the id of a query to the type of [_id]. *)
Definition castId (model id : string) : Eff unit := castObjectId model "_id" id.

(** The paths of an update of a post that are ObjectIds cast: the
    author, when the body has one. *)
Definition bodyCasts (b : Body) : bool :=
  from_option isObjectId true (b_author b).

End Mongoose.

Module Raw.

(** [Post.findById(id)]: the id is cast, then looked up. *)
Definition Post_findById (id : string) : Eff (option PostDoc) :=
  emit (PostFindById id);;
  Mongoose.castId "Post" id;;
  d ← getDb;
  mret (Post.toDoc id <$> posts d !! id).

(** [User.findById(id)] *)
Definition User_findById (id : string) : Eff (option UserDoc) :=
  emit (UserFindById id);;
  Mongoose.castId "User" id;;
  d ← getDb;
  mret (User.toDoc id <$> users d !! id).

(** [User.findById(id).select('-password')] *)
Definition User_findByIdSelectMinusPassword (id : string) : Eff (option UserDoc) :=
  emit (UserFindById id);;
  Mongoose.castId "User" id;;
  d ← getDb;
  mret (User.withoutPassword <$> (User.toDoc id <$> users d !! id)).

(** [Post.findByIdAndUpdate(id, update, { new: true, runValidators: true })]:
    the id and the update are cast to the types of the schema, then
    the update validators run. *)
Definition Post_findByIdAndUpdate (id : string) (update : Body) : Eff (option PostDoc) :=
  emit (PostFindByIdAndUpdate id);;
  Mongoose.castId "Post" id;;
  from_option (Mongoose.castObjectId "Post" "author") (mret tt) (b_author update);;
  match Post.validate (b_title update) (b_content update) (b_status update) with
  | Some e => throw ("Validation failed: " +:+ e)
  | None =>
      d ← getDb;
      match posts d !! id with
      | Some r =>
          let r' := Post.applyUpdate update r in
          putDb (mkDb (users d) (<[id := r']> (posts d)));;
          mret (Some (Post.toDoc id r'))
      | None => mret None
      end
  end.

(** The handlers of [controllers/postController.js] that take
    [req.params.id]. The id has cast by the time [deletePost] comes to
    [findByIdAndDelete]. *)
Definition getPostById (req : Request) : Eff unit :=
  try_catch
    (post ← Post_findById (params_id req);
     view ← match post with
            | Some p => v ← Post.populateAuthor p; mret (Some v)
            | None => mret None
            end;
     match view with
     | None => respond (failure 404 "Post not found")
     | Some v => respond (mkResponse 200 true None (PostData (Some v)) None)
     end)
    (fun msg =>
       consoleError "Get post error:" msg;;
       respond (serverError "Error fetching post" msg)).

Definition updatePost (req : Request) : Eff unit :=
  try_catch
    (post ← Post_findById (params_id req);
     match post with
     | None => respond (failure 404 "Post not found")
     | Some post =>
         user ← reqUser "role";
         if negb (String.eqb (u_role user) "admin")
            && negb (String.eqb (p_author post) (u_id user))
         then respond (failure 403 "You can only edit your own posts")
         else
           post' ← Post_findByIdAndUpdate (params_id req) (body req);
           view ← match post' with
                  | Some p => v ← Post.populateAuthor p; mret (Some v)
                  | None => mret None
                  end;
           respond (mkResponse 200 true (Some "Post updated successfully")
                      (PostData view) None)
     end)
    (fun msg =>
       consoleError "Update post error:" msg;;
       respond (serverError "Error updating post" msg)).

Definition deletePost (req : Request) : Eff unit :=
  try_catch
    (post ← Post_findById (params_id req);
     match post with
     | None => respond (failure 404 "Post not found")
     | Some post =>
         user ← reqUser "role";
         if negb (String.eqb (u_role user) "admin")
            && negb (String.eqb (p_author post) (u_id user))
         then respond (failure 403 "You can only delete your own posts")
         else
           Post.findByIdAndDelete (params_id req);;
           respond (mkResponse 200 true (Some "Post deleted successfully")
                      EmptyData None)
     end)
    (fun msg =>
       consoleError "Delete post error:" msg;;
       respond (serverError "Error deleting post" msg)).

(** The handlers of [controllers/userController.js] that take
    [req.params.id]. *)
Definition getUserById (req : Request) : Eff unit :=
  try_catch
    (user ← User_findByIdSelectMinusPassword (params_id req);
     match user with
     | None => respond (failure 404 "User not found")
     | Some user => respond (mkResponse 200 true None (UserData user) None)
     end)
    (fun msg =>
       consoleError "Get user error:" msg;;
       respond (serverError "Error fetching user" msg)).

Definition updateUserRole (req : Request) : Eff unit :=
  try_catch
    (let role := b_role (body req) in
     if negb (Js.truthyValue role) || negb (Js.includesValue validRoles role) then
       respond (failure 400
                  ("Invalid role. Must be one of: " +:+ Js.join ", " validRoles))
     else
       user ← User_findById (params_id req);
       match user with
       | None => respond (failure 404 "User not found")
       | Some user =>
           actor ← reqUser "id";
           if String.eqb (u_id user) (u_id actor) then
             respond (failure 400 "You cannot change your own role")
           else
             let user := mkUserDoc (u_id user) (u_name user) (u_email user)
                           (u_password user) (Js.render role) in
             User.save user;;
             respond (mkResponse 200 true
                        (Some ("User role updated to " +:+ Js.render role))
                        (RoleData (u_id user) (u_name user) (u_email user) (u_role user))
                        None)
       end)
    (fun msg =>
       consoleError "Update role error:" msg;;
       respond (serverError "Error updating user role" msg)).

Definition deleteUser (req : Request) : Eff unit :=
  try_catch
    (user ← User_findById (params_id req);
     match user with
     | None => respond (failure 404 "User not found")
     | Some user =>
         actor ← reqUser "id";
         if String.eqb (u_id user) (u_id actor) then
           respond (failure 400 "You cannot delete your own account")
         else
           User.findByIdAndDelete (params_id req);;
           respond (mkResponse 200 true (Some "User deleted successfully")
                      EmptyData None)
     end)
    (fun msg =>
       consoleError "Delete user error:" msg;;
       respond (serverError "Error deleting user" msg)).

End Raw.

(** The layers of four routes. *)
Definition putPostRoute (codec : TokenCodec) : list (Request -> Eff unit) :=
  [protect codec; checkRole ["admin"; "editor"]; Raw.updatePost].

Definition deletePostRoute (codec : TokenCodec) : list (Request -> Eff unit) :=
  [protect codec; checkRole ["admin"; "editor"]; Raw.deletePost].

Definition patchUserRoleRoute (codec : TokenCodec) : list (Request -> Eff unit) :=
  [protect codec; checkRole ["admin"]; Raw.updateUserRole].

Definition deleteUserRoute (codec : TokenCodec) : list (Request -> Eff unit) :=
  [protect codec; checkRole ["admin"]; Raw.deleteUser].

(** The context after a handler whose first call to the store, [call],
    was rejected with the [CastError] of [id], and whose [catch] logged
    it under [label] and answered 500 with [msg]. *)
Definition castFailed (model label msg id : string) (call : Event) (w : World) : World :=
  mkWorld (db w) (req_user w)
    (sent w ++ [serverError msg (Mongoose.castError model "_id" id)])
    (next_calls w)
    ((trace w ++ [call]) ++ [ConsoleError label (Mongoose.castError model "_id" id)]).

(** A request that ended with a 500 of the handler's [catch], with the
    message [msg] and some error text, and with no write. *)
Definition serverFailure (d : Db) (msg : string) (w : World) : Prop :=
  exists err, refusedWith d (serverError msg err) w.

(** An update that passed the ownership check: it was handed to the
    store, which applied it (200) or rejected it (500, the schema
    validators); whichever it was, no other post and no user changed. *)
Definition updateReachedStore (d : Db) (req : Request) (w : World) : Prop :=
  storeWrites w = [PostFindByIdAndUpdate (params_id req)]
  /\ next_calls w = 0%nat
  /\ users (db w) = users d
  /\ (forall id, id <> params_id req -> posts (db w) !! id = posts d !! id)
  /\ exists r, sent w = [r] /\ (status r = 200 \/ status r = 500).


(** ** The list handlers *)

(** The list handlers only read. Each is given as the function from the
    store and [req.user] to the one response it sends. The lists are
    sorted on [createdAt], newest first; the creation time of a
    document is read from a clock keyed by the document id. *)
Record Clock := mkClock {
  postCreatedAt : string -> Z;
  userCreatedAt : string -> Z;
}.

(** [{ success, count, data }], or [{ success: false, message, error }]. *)
Record Listing (A : Type) := mkListing {
  ls_status : Z;
  ls_success : bool;
  ls_count : option nat;
  ls_data : list A;
  ls_message : option string;
  ls_error : option string;
}.
Arguments mkListing {A} _ _ _ _ _ _.
Arguments ls_status {A} _.
Arguments ls_success {A} _.
Arguments ls_count {A} _.
Arguments ls_data {A} _.
Arguments ls_message {A} _.
Arguments ls_error {A} _.

Definition listed {A} (xs : list A) : Listing A :=
  mkListing 200 true (Some (length xs)) xs None None.

Definition listingError {A} (msg err : string) : Listing A :=
  mkListing 500 false None [] (Some msg) (Some err).

Module Query.

(** The order of [.sort({ createdAt: -1 })]: [a] may come before [b]. *)
Definition newer {A} (stamp : A -> Z) : relation A :=
  fun a b => stamp b <= stamp a.

#[global] Instance newer_dec {A} (stamp : A -> Z) (a b : A) : Decision (newer stamp a b) :=
  decide (stamp b <= stamp a).

(** [.sort({ createdAt: -1 })] *)
Definition newestFirst {A} (stamp : A -> Z) (xs : list A) : list A :=
  merge_sort (newer stamp) xs.

(** [Post.find(filter)] *)
Definition findPosts (d : Db) (keep : PostDoc -> bool) : list PostDoc :=
  List.filter keep ((fun ir => Post.toDoc ir.1 ir.2) <$> map_to_list (posts d)).

(** [User.find().select('-password')] *)
Definition findUsers (d : Db) : list UserDoc :=
  (fun ir => User.withoutPassword (User.toDoc ir.1 ir.2)) <$> map_to_list (users d).

(** The document that [populate('author', 'name email role')] yields. *)
Definition populated (d : Db) (p : PostDoc) : PostView :=
  mkPostView (p_id p) (p_title p) (p_content p)
    ((fun r => mkAuthorView (p_author p) (ur_name r) (ur_email r) (ur_role r))
       <$> users d !! p_author p)
    (p_status p).

End Query.

Definition getAllPosts (clock : Clock) (d : Db) (user : option UserDoc) : Listing PostView :=
  listed (Query.populated d
            <$> Query.newestFirst (fun p => postCreatedAt clock (p_id p))
                  (Query.findPosts d (fun _ => true))).

Definition getMyPosts (clock : Clock) (d : Db) (user : option UserDoc) : Listing PostView :=
  match user with
  | None =>
      listingError "Error fetching your posts"
        "Cannot read properties of undefined (reading 'id')"
  | Some u =>
      listed (Query.populated d
                <$> Query.newestFirst (fun p => postCreatedAt clock (p_id p))
                      (Query.findPosts d (fun p => String.eqb (p_author p) (u_id u))))
  end.

Definition getAllUsers (clock : Clock) (d : Db) (user : option UserDoc) : Listing UserDoc :=
  listed (Query.newestFirst (fun u => userCreatedAt clock (u_id u)) (Query.findUsers d)).

(** ** The routers ([routes/postRoutes.js], [routes/userRoutes.js]) *)

Inductive Method := GET | POST | PUT | PATCH | DELETE.

#[global] Instance Method_eq_dec : EqDecision Method.
Proof. solve_decision. Defined.

(** A piece of a route path: a literal, or a parameter such as [:id]. *)
Inductive Segment :=
| Lit (s : string)
| Param.

Module Express.

Definition lowerAscii (c : ascii) : ascii :=
  let n := nat_of_ascii c in
  if ((65 <=? n)%nat && (n <=? 90)%nat) then ascii_of_nat (n + 32) else c.

Fixpoint toLowerCase (s : string) : string :=
  match s with
  | EmptyString => EmptyString
  | String c s' => String (lowerAscii c) (toLowerCase s')
  end.

(** The pieces of a path name between the slashes. The leading slash
    and one trailing slash do not count (routing is not strict). *)
Definition pathSegments (pathname : string) : list string :=
  let pieces := match Js.split "/" pathname with
                | EmptyString :: rest => rest
                | pieces => pieces
                end in
  match reverse pieces with
  | EmptyString :: rest => reverse rest
  | _ => pieces
  end.

(** Matching of a route path: literals compare without regard to case,
    a parameter takes one non-empty piece. The result is the list of the
    parameter values, as they stand in the path: Express decodes the
    percent-escapes of a parameter, so the value is the one of the
    request for a path that has none. *)
Fixpoint matchPath (pattern : list Segment) (segments : list string) : option (list string) :=
  match pattern, segments with
  | [], [] => Some []
  | Lit s :: pattern', x :: segments' =>
      if String.eqb (toLowerCase s) (toLowerCase x)
      then matchPath pattern' segments'
      else None
  | Param :: pattern', x :: segments' =>
      if String.eqb x EmptyString then None
      else (fun ps => x :: ps) <$> matchPath pattern' segments'
  | _, _ => None
  end.

End Express.

(** What a route ends in: a controller, or one of the list handlers. *)
Inductive Endpoint :=
| Controller (h : Request -> Eff unit)
| ListPosts (l : Db -> option UserDoc -> Listing PostView)
| ListUsers (l : Db -> option UserDoc -> Listing UserDoc).

Record Route := mkRoute {
  rt_method : Method;
  rt_path : list Segment;
  rt_gates : list (Request -> Eff unit);
  rt_endpoint : Endpoint;
}.

(** [router.use(...)] layers, then the routes in the order they are
    declared. *)
Record Router := mkRouter {
  rt_use : list (Request -> Eff unit);
  rt_routes : list Route;
}.

(** [newId] is the ObjectId the driver would give a created post. The
    routes end in the handlers on any text: a parameter of the route is
    whatever stands in the path. *)
Definition postRoutes (codec : TokenCodec) (clock : Clock) (newId : string) : Router :=
  mkRouter [protect codec]
    [ mkRoute GET [] [] (ListPosts (getAllPosts clock));
      mkRoute GET [Lit "my"; Lit "posts"] [] (ListPosts (getMyPosts clock));
      mkRoute GET [Param] [] (Controller Raw.getPostById);
      mkRoute POST [] [checkRole ["admin"; "editor"]] (Controller (createPost newId));
      mkRoute PUT [Param] [checkRole ["admin"; "editor"]] (Controller Raw.updatePost);
      mkRoute DELETE [Param] [checkRole ["admin"; "editor"]] (Controller Raw.deletePost) ].

Definition userRoutes (codec : TokenCodec) (clock : Clock) : Router :=
  mkRouter [protect codec; checkRole ["admin"]]
    [ mkRoute GET [] [] (ListUsers (getAllUsers clock));
      mkRoute GET [Param] [] (Controller Raw.getUserById);
      mkRoute PATCH [Param; Lit "role"] [] (Controller Raw.updateUserRole);
      mkRoute DELETE [Param] [] (Controller Raw.deleteUser) ].

Record HttpRequest := mkHttpRequest {
  h_method : Method;
  h_pathname : string;               (* the path below the mount point *)
  h_authorization : option string;
  h_body : Body;
}.

(** What came of a request: the context at the end, and the response of
    a list handler when one ran. *)
Record Served := mkServed {
  sv_world : World;
  sv_posts : option (Listing PostView);
  sv_users : option (Listing UserDoc);
}.

(** Runs middleware in order while each calls [next()]; the flag tells
    whether the last one did. *)
Fixpoint runGates (gates : list (Request -> Eff unit)) (req : Request) (w : World) : World * bool :=
  match gates with
  | [] => (w, true)
  | g :: rest =>
      let w' := exec (g req) w in
      if (next_calls w <? next_calls w')%nat then runGates rest req w' else (w', false)
  end.

(** The first route, in declaration order, of the method and path. *)
Fixpoint findRoute (routes : list Route) (m : Method) (segments : list string) : option (Route * list string) :=
  match routes with
  | [] => None
  | r :: rest =>
      if bool_decide (rt_method r = m) then
        match Express.matchPath (rt_path r) segments with
        | Some params => Some (r, params)
        | None => findRoute rest m segments
        end
      else findRoute rest m segments
  end.

(** The last layer of [server.js]: no route took the request. *)
Definition notFound : Eff unit := respond (failure 404 "Route not found").

Definition serve (router : Router) (hr : HttpRequest) (w : World) : Served :=
  let req0 := mkRequest (h_authorization hr) EmptyString (h_body hr) in
  let (w1, passed) := runGates (rt_use router) req0 w in
  if negb passed then mkServed w1 None None
  else
    match findRoute (rt_routes router) (h_method hr) (Express.pathSegments (h_pathname hr)) with
    | None => mkServed (exec notFound w1) None None
    | Some (route, params) =>
        let req := mkRequest (h_authorization hr) (default EmptyString (head params)) (h_body hr) in
        let (w2, passed2) := runGates (rt_gates route) req w1 in
        if negb passed2 then mkServed w2 None None
        else
          match rt_endpoint route with
          | Controller h => mkServed (exec (h req) w2) None None
          | ListPosts l => mkServed w2 (Some (l (db w2) (req_user w2))) None
          | ListUsers l => mkServed w2 None (Some (l (db w2) (req_user w2)))
          end
    end.

(** * The frontend guards *)

Module Frontend.

(** The user object of the auth context: what the login response holds
    under [user], kept in [localStorage]. *)
Record User := mkUser {
  fu_id : string;
  fu_name : string;
  fu_email : string;
  fu_role : string;
}.

(** What [components/ProtectedRoute.jsx] returns. *)
Inductive Rendered :=
| Spinner
| NavigateTo (to : string)
| AccessDenied (required role : string)
| Children.

Definition ProtectedRoute (loading : bool) (user : option User)
    (allowedRoles : list string) : Rendered :=
  if loading then Spinner
  else
    match user with
    | None => NavigateTo "/login"
    | Some u =>
        if (0 <? length allowedRoles)%nat
           && negb (Js.includes allowedRoles (fu_role u))
        then AccessDenied (Js.join " or " allowedRoles) (fu_role u)
        else Children
    end.

(** The pages of [App.jsx]. *)
Inductive Page :=
| LoginPage
| RegisterPage
| DashboardPage
| ViewerPage
| EditorPanel
| AdminPanel.

(** The element of a route of [App.jsx]. *)
Inductive Element :=
| Public (p : Page)                       (* to the dashboard when logged in *)
| Protected (allowedRoles : list string) (p : Page)
| Home.                                   (* to the dashboard or to the login *)

(** The routes of [App.jsx] but the catch-all, by the pieces of their
    path. *)
Definition routes : list (list string * Element) :=
  [ (["login"], Public LoginPage);
    (["register"], Public RegisterPage);
    (["dashboard"], Protected [] DashboardPage);
    (["viewer"], Protected [] ViewerPage);
    (["editor"], Protected ["admin"; "editor"] EditorPanel);
    (["admin"], Protected ["admin"] AdminPanel);
    ([], Home) ].

(** What the application shows. *)
Inductive Screen :=
| Loading
| Shows (p : Page)
| Redirects (to : string)
| Denies (required role : string)
| NotFoundPage.

Definition element (user : option User) (e : Element) : Screen :=
  match e with
  | Public p => if bool_decide (is_Some user) then Redirects "/dashboard" else Shows p
  | Protected allowedRoles p =>
      match ProtectedRoute false user allowedRoles with
      | Spinner => Loading
      | NavigateTo to => Redirects to
      | AccessDenied required role => Denies required role
      | Children => Shows p
      end
  | Home => if bool_decide (is_Some user) then Redirects "/dashboard" else Redirects "/login"
  end.

(** [App]: the loading screen, or the element of the route of the path
    (paths match without regard to case or to a trailing slash), or the
    catch-all page. The path is one without percent-escapes and with
    one trailing slash at most. *)
Definition App (loading : bool) (user : option User) (pathname : string) : Screen :=
  if loading then Loading
  else
    let segments := Express.toLowerCase <$> Express.pathSegments pathname in
    match List.find (fun r => bool_decide (r.1 = segments)) routes with
    | Some r => element user r.2
    | None => NotFoundPage
    end.

(** The targets of the links that [components/Navbar.jsx] renders. *)
Definition navLinks (user : option User) : list string :=
  "/" ::
  match user with
  | Some u =>
      ["/dashboard"]
      ++ (if String.eqb (fu_role u) "admin" then ["/admin"] else [])
      ++ (if String.eqb (fu_role u) "admin" || String.eqb (fu_role u) "editor"
          then ["/editor"] else [])
      ++ ["/viewer"]
  | None => ["/login"; "/register"]
  end.

(** [canEdit] of the editor panel:
    [user?.role === 'admin' || post.author._id === user?.id]. *)
Definition canEdit (user : option User) (post : PostView) : Result bool :=
  if match user with Some u => String.eqb (fu_role u) "admin" | None => false end
  then Ok true
  else
    match pv_author post with
    | None => Throw "Cannot read properties of null (reading '_id')"
    | Some a =>
        Ok (match user with
            | Some u => String.eqb (av_id a) (fu_id u)
            | None => false
            end)
    end.

(** [s.includes(t)] on strings. *)
Fixpoint includesString (s t : string) : bool :=
  String.prefix t s
  || match s with
     | EmptyString => false
     | String _ s' => includesString s' t
     end.

(** [xs.filter(f)] for a callback that may throw. *)
Fixpoint filterThrowing {A} (f : A -> Result bool) (xs : list A) : Result (list A) :=
  match xs with
  | [] => Ok []
  | x :: xs' =>
      match f x with
      | Throw e => Throw e
      | Ok keep =>
          match filterThrowing f xs' with
          | Throw e => Throw e
          | Ok kept => Ok (if keep then x :: kept else kept)
          end
      end
  end.

(** The callback of the search filter of [pages/ViewerPage.jsx]. The
    lower case is taken on the ASCII letters, which is [toLowerCase]
    on ASCII text. *)
Definition matchesSearch (searchTerm : string) (post : PostView) : Result bool :=
  let term := Express.toLowerCase searchTerm in
  if includesString (Express.toLowerCase (pv_title post)) term then Ok true
  else if includesString (Express.toLowerCase (pv_content post)) term then Ok true
  else
    match pv_author post with
    | None => Throw "Cannot read properties of null (reading 'name')"
    | Some a => Ok (includesString (Express.toLowerCase (av_name a)) term)
    end.

(** [filterPosts] of [pages/ViewerPage.jsx]: the list it hands to
    [setFilteredPosts]. *)
Definition filterPosts (posts : list PostView) (searchTerm filterStatus : string) : Result (list PostView) :=
  match (if Js.truthy (Some searchTerm)
         then filterThrowing (matchesSearch searchTerm) posts
         else Ok posts) with
  | Throw e => Throw e
  | Ok filtered =>
      Ok (if negb (String.eqb filterStatus "all")
          then List.filter (fun p => String.eqb (pv_status p) filterStatus) filtered
          else filtered)
  end.

End Frontend.

(** * Sample requests for the handlers, the routers and the frontend *)

Module Demo.

(** A body with a padded title and an [author] that is not the caller. *)
Definition draftBody : Body :=
  mkBody (Some " Hello ") (Some "text") None (Some "A1") Js.Undefined.

(** A body whose title is white space only. *)
Definition blankTitleBody : Body :=
  mkBody (Some "   ") (Some "text") None None Js.Undefined.

Definition retitleBody : Body :=
  mkBody (Some " New title ") None None None Js.Undefined.

Definition viewerRoleBody : Body :=
  mkBody None None None None (Js.Str "viewer").

(** The seeded store after the editor E1 was deleted. *)
Definition orphaned : Db :=
  mkDb (delete "E1" (users Sample.seeded)) (posts Sample.seeded).

Definition clock : Clock :=
  mkClock (fun id => if String.eqb id "P1" then 20 else 10)
          (fun id => if String.eqb id "A1" then 1 else 2).

Definition expiredBearer : Request :=
  Sample.request (Some "Bearer old.E1") "P1" Sample.emptyBody.

Definition lenientBearer : Request :=
  Sample.request (Some "BearerXYZ ok.E1 trailing") "P1" Sample.emptyBody.

Definition editorUser : Frontend.User :=
  Frontend.mkUser "E1" "Editor User" "editor@example.com" "editor".

Definition orphanView : PostView :=
  mkPostView "P1" "Editor Post" "Written by the editor." None "draft".

Definition adminView : PostView :=
  mkPostView "P2" "Welcome" "Written by the admin."
    (Some (mkAuthorView "A1" "Admin User" "admin@example.com" "admin")) "published".

(** The seeded store under ObjectIds. *)
Definition adminId : string := "65f1a0000000000000000a01".
Definition editorId : string := "65f1a0000000000000000e01".
Definition viewerId : string := "65f1a0000000000000000f01".
Definition post1Id : string := "65f1b0000000000000000001".
Definition post2Id : string := "65f1b0000000000000000002".

(** An ObjectId that no document has, and a text that is none. *)
Definition unusedId : string := "65f1b0000000000000000009".

Definition store : Db :=
  mkDb (<[adminId := Sample.admin]>
          (<[editorId := Sample.editor]> (<[viewerId := Sample.viewer]> ∅)))
       (<[post1Id := mkPostRecord "Editor Post" "Written by the editor." editorId "draft"]>
          (<[post2Id := mkPostRecord "Welcome" "Written by the admin." adminId "published"]> ∅)).

Definition adminDoc : UserDoc := User.withoutPassword (User.toDoc adminId Sample.admin).
Definition editorDoc : UserDoc := User.withoutPassword (User.toDoc editorId Sample.editor).

(** A title of two no-break spaces, and a title of 101 letters [é]:
    202 bytes, 101 characters. *)
Definition nbspTitleBody : Body :=
  mkBody (Some (String (ascii_of_nat 194) (String (ascii_of_nat 160)
                  (String (ascii_of_nat 194) (String (ascii_of_nat 160) EmptyString)))))
    (Some "text") None None Js.Undefined.

Fixpoint repeatString (n : nat) (s : string) : string :=
  match n with
  | O => EmptyString
  | S n' => s +:+ repeatString n' s
  end.

Definition accentedTitleBody : Body :=
  mkBody (Some (repeatString 101
                  (String (ascii_of_nat 195) (String (ascii_of_nat 169) EmptyString))))
    (Some "text") None None Js.Undefined.

End Demo.

(** The context that the authentication gate leaves for the principal
    [u] found under the subject id of the claims [c]. *)
Definition passedGate (d : Db) (t : option string) (c : Claims) (r : UserRecord) : World :=
  mkWorld d (Some (User.withoutPassword (User.toDoc (claim_id c) r))) [] 1
    [JwtVerify t; UserFindById (claim_id c)].

(** The guarded pages of [App.jsx]. *)
Definition guardedPaths : list string := ["/dashboard"; "/viewer"; "/editor"; "/admin"].

(** ** Contexts and their extension *)

(** The context [w] with nothing sent, no [next()] and an empty trace. *)
Definition rebase (w : World) : World :=
  mkWorld (db w) (req_user w) [] 0%nat [].

(** The context [x], reached from [rebase w], seen as reached from [w]. *)
Definition after (w x : World) : World :=
  mkWorld (db x) (req_user x) (sent w ++ sent x)
    (next_calls w + next_calls x)%nat (trace w ++ trace x).

(** A computation that reads the database and [req.user] only, and
    appends to the responses, the [next()] count and the trace. *)
Definition framed {A} (m : Eff A) : Prop :=
  forall w, m w = ((m (rebase w)).1, after w (m (rebase w)).2).

(** A computation that completes normally from every context. *)
Definition never_throws {A} (m : Eff A) : Prop :=
  forall w, exists a w', m w = (Ok a, w').

(** ** Proof tools *)

(** Unfolding of the monad and of the collaborator calls. *)
Ltac eff_unfold :=
  unfold try_catch, Jwt.verify, User.findById, User.findByIdSelectMinusPassword,
    User.save, User.findByIdAndDelete, Post.findById, Post.create,
    Post.findByIdAndUpdate, Post.findByIdAndDelete, Post.populateAuthor,
    reqUser, consoleError, respond, callNext, setReqUser, getReqUser,
    getDb, putDb, emit, throw, mbind, mret, Eff_bind, Eff_ret, bind, ret in *.

Ltac eff_run :=
  eff_unfold;
  cbn -[Js.startsWith Js.split Js.truthy Js.includes Js.includesValue
        Js.truthyValue Js.join Js.trim String.eqb Post.validate].

(** ** Handlers only append to the context *)

Lemma rebase_after (w x : World) : rebase (after w x) = rebase x.
Proof. reflexivity. Qed.

Lemma after_assoc (w x y : World) : after (after w x) y = after w (after x y).
Proof. unfold after. cbn. by rewrite !app_assoc, Nat.add_assoc. Qed.

Lemma framed_ret {A} (a : A) : framed (mret a).
Proof. intros w. unfold after. cbn. by rewrite !app_nil_r, Nat.add_0_r; destruct w. Qed.

Lemma framed_throw {A} (e : string) : framed (@throw A e).
Proof. intros w. unfold after. cbn. by rewrite !app_nil_r, Nat.add_0_r; destruct w. Qed.

Lemma framed_bind {A B} (m : Eff A) (k : A -> Eff B) :
  framed m -> (forall a, framed (k a)) -> framed (m ≫= k).
Proof.
  intros Hm Hk w. unfold mbind, Eff_bind, bind.
  rewrite (Hm w). destruct (m (rebase w)) as [[a|e] x]; cbn; [|done].
  rewrite (Hk a (after w x)), rebase_after, after_assoc.
  rewrite (Hk a x). cbn. reflexivity.
Qed.

Lemma framed_try_catch {A} (m : Eff A) (h : string -> Eff A) :
  framed m -> (forall e, framed (h e)) -> framed (try_catch m h).
Proof.
  intros Hm Hh w. unfold try_catch.
  rewrite (Hm w). destruct (m (rebase w)) as [[a|e] x]; cbn; [done|].
  rewrite (Hh e (after w x)), rebase_after, after_assoc.
  rewrite (Hh e x). cbn. reflexivity.
Qed.

Lemma framed_emit (e : Event) : framed (emit e).
Proof. intros w. unfold after. cbn. by rewrite !app_nil_r, Nat.add_0_r. Qed.

Lemma framed_getDb : framed getDb.
Proof. intros w. unfold after. cbn. by rewrite !app_nil_r, Nat.add_0_r; destruct w. Qed.

Lemma framed_putDb (d : Db) : framed (putDb d).
Proof. intros w. unfold after. cbn. by rewrite !app_nil_r, Nat.add_0_r. Qed.

Lemma framed_getReqUser : framed getReqUser.
Proof. intros w. unfold after. cbn. by rewrite !app_nil_r, Nat.add_0_r; destruct w. Qed.

Lemma framed_setReqUser (u : option UserDoc) : framed (setReqUser u).
Proof. intros w. unfold after. cbn. by rewrite !app_nil_r, Nat.add_0_r. Qed.

Lemma framed_respond (r : Response) : framed (respond r).
Proof. intros w. unfold after. cbn. by rewrite !app_nil_r, Nat.add_0_r. Qed.

Lemma framed_callNext : framed callNext.
Proof. intros w. unfold after. cbn. by rewrite !app_nil_r, Nat.add_1_r. Qed.

Create HintDb framed.
#[export] Hint Resolve framed_ret framed_throw framed_emit framed_getDb framed_putDb
  framed_getReqUser framed_setReqUser framed_respond framed_callNext : framed.

(** Walks through a computation built from the primitives. *)
Ltac framed_walk :=
  repeat first
    [ apply framed_bind; [|intros ?]
    | apply framed_try_catch; [|intros ?]
    | solve [auto with framed]
    | match goal with
      | |- framed (match ?x with _ => _ end) => destruct x
      end ].

Lemma framed_protect codec req : framed (protect codec req).
Proof.
  unfold protect, Jwt.verify, User.findByIdSelectMinusPassword, consoleError.
  framed_walk.
Qed.

Lemma framed_checkRole R req : framed (checkRole R req).
Proof. unfold checkRole. framed_walk. Qed.

Lemma framed_createPost newId req : framed (createPost newId req).
Proof.
  unfold createPost, reqUser, Post.create, Post.populateAuthor, consoleError.
  framed_walk.
Qed.

Lemma framed_updatePost req : framed (updatePost req).
Proof.
  unfold updatePost, reqUser, Post.findById, Post.findByIdAndUpdate,
    Post.populateAuthor, consoleError.
  framed_walk.
Qed.

Lemma framed_Raw_updatePost req : framed (Raw.updatePost req).
Proof.
  unfold Raw.updatePost, reqUser, Raw.Post_findById, Raw.Post_findByIdAndUpdate,
    Mongoose.castId, Mongoose.castObjectId, Post.populateAuthor, consoleError,
    from_option.
  framed_walk.
Qed.

Lemma framed_deletePost req : framed (deletePost req).
Proof.
  unfold deletePost, reqUser, Post.findById, Post.findByIdAndDelete, consoleError.
  framed_walk.
Qed.

Lemma framed_getUserById req : framed (getUserById req).
Proof.
  unfold getUserById, User.findByIdSelectMinusPassword, consoleError. framed_walk.
Qed.

Lemma framed_updateUserRole req : framed (updateUserRole req).
Proof.
  unfold updateUserRole, reqUser, User.findById, User.save, consoleError.
  framed_walk.
Qed.

Lemma framed_deleteUser req : framed (deleteUser req).
Proof.
  unfold deleteUser, reqUser, User.findById, User.findByIdAndDelete, consoleError.
  framed_walk.
Qed.

(** The run of a handler from any context is its run from the context
    with nothing sent, appended to what was there. *)
Lemma exec_framed (h : Eff unit) (w : World) :
  framed h -> exec h w = after w (exec h (rebase w)).
Proof. intros H. unfold exec. by rewrite (H w). Qed.

(** In particular a handler that runs behind the gates, with [actor]
    attached, runs as it does in [authenticated (db w) actor]. *)
Lemma exec_in_context (h : Eff unit) (w : World) (actor : UserDoc) :
  framed h ->
  req_user w = Some actor ->
  exec h w = after w (exec h (authenticated (db w) actor)).
Proof.
  intros H Hu. rewrite (exec_framed h w H). unfold rebase, authenticated.
  by rewrite Hu.
Qed.


(** ** Properties of the authentication gate *)

Section Gate.

Variable codec : TokenCodec.

Lemma protect_without_bearer req d :
  noBearerToken req ->
  exec (protect codec req) (initial d)
  = mkWorld d None [failure 401 "Not authorized, no token provided"] 0 [].
Proof.
  intros [H | (s & H & Hs)]; unfold exec, protect, initial; rewrite H;
    cbn -[Js.startsWith].
  - reflexivity.
  - rewrite Hs, andb_false_r. reflexivity.
Qed.

Lemma bearer_truthy s : Js.startsWith s "Bearer" = true -> Js.truthy (Some s) = true.
Proof. destruct s; [discriminate | reflexivity]. Qed.

Lemma truthy_nonempty tok : tok <> EmptyString -> Js.truthy (Some tok) = true.
Proof. intros H. cbn. apply String.eqb_neq in H. by rewrite H. Qed.

Lemma protect_rejected_token req d t :
  bearerToken req t ->
  (forall c, ~ verifies codec t c) ->
  exists msg,
    exec (protect codec req) (initial d)
    = mkWorld d None [failure 401 "Not authorized, token failed"] 0
        [JwtVerify t; ConsoleError "Token verification failed:" msg].
Proof.
  intros (s & H & Hs & ->) Hno.
  unfold exec, protect, initial. rewrite H. cbn -[Js.startsWith Js.split Js.truthy].
  rewrite (bearer_truthy _ Hs), Hs. cbn -[Js.split].
  destruct (Js.split " " s !! 1%nat) as [tok|] eqn:Ht.
  - destruct (String.eqb_spec tok EmptyString) as [->|Hne]; [eff_run; eauto|].
    destruct (codec_verify codec tok) as [e|c] eqn:Hv.
    + eff_run. rewrite (truthy_nonempty _ Hne), Hv. cbn. eauto.
    + exfalso. apply (Hno c). exists tok. auto.
  - eff_run. eauto.
Qed.

Lemma protect_verified req d t c :
  bearerToken req t ->
  verifies codec t c ->
  exec (protect codec req) (initial d)
  = match users d !! claim_id c with
    | Some r =>
        mkWorld d (Some (User.withoutPassword (User.toDoc (claim_id c) r)))
          [] 1 [JwtVerify t; UserFindById (claim_id c)]
    | None =>
        mkWorld d None [failure 401 "User not found"] 0
          [JwtVerify t; UserFindById (claim_id c)]
    end.
Proof.
  intros (s & H & Hs & ->) (tok & Ht & Hne & Hv).
  unfold exec, protect, initial. rewrite H. cbn -[Js.startsWith Js.split Js.truthy].
  rewrite (bearer_truthy _ Hs), Hs, Ht.
  pose proof (truthy_nonempty _ Hne) as Htr.
  eff_run. rewrite Htr, Hv. cbn -[Js.truthy].
  destruct (users d !! claim_id c) as [r|]; cbn -[Js.truthy]; [rewrite Htr|]; reflexivity.
Qed.

(** Every request falls into one of four cases. *)
Lemma gate_cases req d :
  noBearerToken req
  \/ (exists t, bearerToken req t /\ forall c, ~ verifies codec t c)
  \/ (exists t c, bearerToken req t /\ verifies codec t c
                  /\ users d !! claim_id c = None)
  \/ (exists t c r, bearerToken req t /\ verifies codec t c
                    /\ users d !! claim_id c = Some r).
Proof.
  destruct (authorization req) as [s|] eqn:H; [|left; by left].
  destruct (Js.startsWith s "Bearer") eqn:Hs; [|left; right; eauto].
  right.
  assert (Hb : bearerToken req (Js.split " " s !! 1%nat)) by (exists s; auto).
  destruct (Js.split " " s !! 1%nat) as [tok|] eqn:Ht.
  - destruct (String.eqb_spec tok EmptyString) as [->|Hne].
    + left. eexists; split; [exact Hb|]. intros c (tok & [= <-] & Hne & _). done.
    + destruct (codec_verify codec tok) as [e|c] eqn:Hv.
      * left. eexists; split; [exact Hb|].
        intros c (tok' & [= <-] & _ & Hv'). congruence.
      * right.
        assert (Hc : verifies codec (Some tok) c) by (exists tok; auto).
        destruct (users d !! claim_id c) as [r|] eqn:Hu; [right|left]; eauto 10.
  - left. eexists; split; [exact Hb|]. intros c (tok & [=] & _).
Qed.

Lemma bearerToken_excludes req t : bearerToken req t -> ~ noBearerToken req.
Proof.
  intros (s & H & Hs & _) [H' | (s' & H' & Hs')]; congruence.
Qed.

Lemma bearerToken_unique req t t' : bearerToken req t -> bearerToken req t' -> t = t'.
Proof. intros (s & H & _ & ->) (s' & H' & _ & ->). congruence. Qed.

Lemma verifies_unique t c c' : verifies codec t c -> verifies codec t c' -> c = c'.
Proof. intros (k & -> & _ & H) (k' & [= <-] & _ & H'). congruence. Qed.

Lemma found_not_failing req d t c r :
  bearerToken req t ->
  verifies codec t c ->
  users d !! claim_id c = Some r ->
  ~ (noBearerToken req \/ failsVerification codec req
     \/ principalNotFound codec req d).
Proof.
  intros Hb Hv Hu [Hn | [(t' & Hb' & Hf) | (t' & c' & Hb' & Hv' & Hu')]].
  - by destruct (bearerToken_excludes _ _ Hb).
  - rewrite (bearerToken_unique _ _ _ Hb' Hb) in Hf. by destruct (Hf c).
  - rewrite (bearerToken_unique _ _ _ Hb' Hb) in Hv'.
    rewrite (verifies_unique _ _ _ Hv' Hv) in Hu'. congruence.
Qed.

(** ** C10 *)

(** C10: when the authorization header is absent, or its value does not
    begin with "Bearer", the gate answers 401 "Not authorized, no token
    provided"; it calls neither the token codec nor the store (the
    trace of collaborator calls is empty), attaches nothing and does
    not call next(). *)
Theorem protect_missing_token req d :
  noBearerToken req ->
  let w := exec (protect codec req) (initial d) in
  sent w = [mkResponse 401 false (Some "Not authorized, no token provided") NoData None]
  /\ trace w = []
  /\ next_calls w = 0%nat
  /\ req_user w = None
  /\ db w = d.
Proof.
  intros H w. subst w. rewrite (protect_without_bearer _ _ H). done.
Qed.

(** ** C2 *)

(** C2: the gate ends the request with a 401, without calling next(),
    exactly when the request carries no bearer token, or carries one
    that fails verification, or carries one that verifies to a subject
    id with no user in the store; in every other case it attaches the
    resolved user (without the password) and calls next() once, sending
    nothing. The store is the same afterwards in all cases. *)
Theorem protect_unauthenticated_iff req d :
  let w := exec (protect codec req) (initial d) in
  let failing := noBearerToken req \/ failsVerification codec req
                 \/ principalNotFound codec req d in
  db w = d
  /\ (unauthenticated w <-> failing)
  /\ (~ failing ->
      exists t c r,
        bearerToken req t /\ verifies codec t c
        /\ users d !! claim_id c = Some r
        /\ proceedsWith w (User.withoutPassword (User.toDoc (claim_id c) r))).
Proof.
  intros w failing. subst w failing.
  destruct (gate_cases req d)
    as [H | [(t & Hb & Hv) | [(t & c & Hb & Hv & Hu) | (t & c & r & Hb & Hv & Hu)]]].
  - rewrite (protect_without_bearer _ _ H). cbn. split; [done|]. split.
    + split; [tauto|]. intros _. eexists; done.
    + tauto.
  - destruct (protect_rejected_token _ d _ Hb Hv) as [msg ->]. cbn.
    assert (failsVerification codec req) by (exists t; auto).
    split; [done|]. split; [|tauto].
    split; [tauto|]. intros _. eexists; done.
  - rewrite (protect_verified _ d _ _ Hb Hv), Hu. cbn.
    assert (principalNotFound codec req d) by (exists t, c; auto).
    split; [done|]. split; [|tauto].
    split; [tauto|]. intros _. eexists; done.
  - rewrite (protect_verified _ d _ _ Hb Hv), Hu. cbn.
    split; [done|]. split.
    + split.
      * intros (resp & Hs & _). discriminate.
      * intros Hf. by destruct (found_not_failing _ _ _ _ _ Hb Hv Hu).
    + intros _. exists t, c, r. done.
Qed.

(** ** C7 *)

(** C7: for a token that verifies, two runs of the gate, the second on
    the store the first one left, attach the same principal (and end
    the same way); each run makes exactly one call to the store, the
    lookup of the subject id, and writes nothing: the store is the
    same after each run. *)
Theorem protect_twice_same_principal req d t c :
  bearerToken req t ->
  verifies codec t c ->
  let w1 := exec (protect codec req) (initial d) in
  let w2 := exec (protect codec req) (initial (db w1)) in
  req_user w2 = req_user w1
  /\ req_user w1 = (User.withoutPassword <$> (User.toDoc (claim_id c) <$> users d !! claim_id c))
  /\ sent w2 = sent w1 /\ next_calls w2 = next_calls w1
  /\ storeCalls w1 = [UserFindById (claim_id c)]
  /\ storeCalls w2 = [UserFindById (claim_id c)]
  /\ storeWrites w1 = [] /\ storeWrites w2 = []
  /\ db w1 = d /\ db w2 = d.
Proof.
  intros Hb Hv w1 w2.
  assert (E1 : db w1 = d).
  { subst w1. rewrite (protect_verified _ d _ _ Hb Hv).
    by destruct (users d !! claim_id c). }
  subst w2. rewrite E1. fold w1. subst w1.
  rewrite (protect_verified _ d _ _ Hb Hv).
  destruct (users d !! claim_id c); done.
Qed.

(** ** C8 *)

(** C8: whenever the gate lets a request proceed (it called next()),
    a principal is attached whose password field is absent and whose
    id, name, email and role are those of the stored user with that
    id, whatever password the stored record holds. *)
Theorem protect_principal_without_password req d :
  let w := exec (protect codec req) (initial d) in
  next_calls w <> 0%nat ->
  exists u r,
    req_user w = Some u
    /\ users d !! u_id u = Some r
    /\ u_password u = None
    /\ u_name u = ur_name r /\ u_email u = ur_email r /\ u_role u = ur_role r.
Proof.
  intros w Hn. subst w.
  destruct (gate_cases req d)
    as [H | [(t & Hb & Hv) | [(t & c & Hb & Hv & Hu) | (t & c & r & Hb & Hv & Hu)]]].
  - rewrite (protect_without_bearer _ _ H) in Hn. done.
  - destruct (protect_rejected_token _ d _ Hb Hv) as [msg E]. rewrite E in Hn. done.
  - rewrite (protect_verified _ d _ _ Hb Hv), Hu in Hn. done.
  - rewrite (protect_verified _ d _ _ Hb Hv), Hu.
    eexists _, r. cbn. done.
Qed.

End Gate.

(** ** Properties of the role gate *)

Lemma includes_elem_of (xs : list string) (x : string) :
  Js.includes xs x = true <-> x ∈ xs.
Proof.
  unfold Js.includes. rewrite existsb_exists. split.
  - intros (y & Hy & E). apply String.eqb_eq in E. subst.
    by apply list_elem_of_In.
  - intros H. exists x. split; [by apply list_elem_of_In | apply String.eqb_refl].
Qed.

Lemma includes_not_elem_of (xs : list string) (x : string) :
  Js.includes xs x = false <-> x ∉ xs.
Proof.
  rewrite <- includes_elem_of. destruct (Js.includes xs x); split; try done.

Qed.

(** C3: the role gate built with the allowed roles [R] answers 401 when
    no user is attached; otherwise it calls next() (once, sending
    nothing) if and only if the attached user's role is a member of [R],
    and when the role is not in [R] it answers 403 with a message that
    spells out the allowed roles and the user's role. In no case does it
    touch the store, the attached user, or any collaborator. *)
Theorem checkRole_decision (R : list string) (req : Request) (w : World) :
  let w' := exec (checkRole R req) w in
  db w' = db w /\ req_user w' = req_user w /\ trace w' = trace w
  /\ match req_user w with
     | None =>
         sent w' = sent w ++ [mkResponse 401 false (Some "User not authenticated") NoData None]
         /\ next_calls w' = next_calls w
     | Some u =>
         ((next_calls w' = S (next_calls w) /\ sent w' = sent w) <-> u_role u ∈ R)
         /\ (u_role u ∉ R ->
             next_calls w' = next_calls w
             /\ sent w' = sent w ++
                  [mkResponse 403 false
                     (Some ("Access denied. Required role: " +:+ Js.join " or " R
                            +:+ ". Your role: " +:+ u_role u))
                     NoData None])
     end.
Proof.
  intros w'. subst w'. unfold exec, checkRole. eff_run.
  destruct (req_user w) as [u|] eqn:Hu; cbn.
  - destruct (Js.includes R (u_role u)) eqn:Hin; cbn; rewrite ?Hu.
    + apply includes_elem_of in Hin. split_and!; try done.
    + apply includes_not_elem_of in Hin. split_and!; try done.
      split; [|done]. intros [Hn _]. lia.
  - done.
Qed.

(** ** No handler throws *)

Lemma never_throws_ret {A} (a : A) : never_throws (mret a).
Proof. intros w. by eexists _, _. Qed.

Lemma never_throws_bind {A B} (m : Eff A) (k : A -> Eff B) :
  never_throws m -> (forall a, never_throws (k a)) -> never_throws (m ≫= k).
Proof.
  intros Hm Hk w. unfold mbind, Eff_bind, bind.
  destruct (Hm w) as (a & w' & ->). apply Hk.
Qed.

Lemma never_throws_try_catch {A} (m : Eff A) (h : string -> Eff A) :
  (forall e, never_throws (h e)) -> never_throws (try_catch m h).
Proof.
  intros Hh w. unfold try_catch.
  destruct (m w) as [[a|e] w']; [by eexists _, _ | apply Hh].
Qed.

Lemma never_throws_respond (r : Response) : never_throws (respond r).
Proof. intros w. by eexists _, _. Qed.

Lemma never_throws_report (label msg : string) (r : Response) :
  never_throws (consoleError label msg;; respond r).
Proof. intros w. by eexists _, _. Qed.

(** Every rejection of a promise inside a controller is caught there:
    the controllers always complete. *)
Lemma controllers_never_throw (newId : string) (req : Request) :
  never_throws (createPost newId req)
  /\ never_throws (updatePost req)
  /\ never_throws (deletePost req)
  /\ never_throws (getUserById req)
  /\ never_throws (updateUserRole req)
  /\ never_throws (deleteUser req).
Proof.
  split_and!; apply never_throws_try_catch; intros e; apply never_throws_report.
Qed.

Lemma middleware_never_throws (codec : TokenCodec) (R : list string) (req : Request) :
  never_throws (protect codec req) /\ never_throws (checkRole R req).
Proof.
  split.
  - unfold protect. apply never_throws_bind.
    + destruct (_ && _); [|apply never_throws_ret].
      apply never_throws_try_catch. intros e w. by eexists _, _.
    + intros [|token]; [apply never_throws_ret|].
      destruct (negb _); [apply never_throws_respond | apply never_throws_ret].
  - intros w. unfold checkRole. eff_run.
    destruct (req_user w) as [u|]; [destruct (negb _)|]; by eexists _, _.
Qed.

(** ** A handler behind the two gates *)

Lemma checkRole_exec (R : list string) (req : Request) (w : World) (u : UserDoc) :
  req_user w = Some u ->
  exec (checkRole R req) w
  = if Js.includes R (u_role u)
    then mkWorld (db w) (req_user w) (sent w) (S (next_calls w)) (trace w)
    else mkWorld (db w) (req_user w)
           (sent w ++ [failure 403 (accessDenied R (u_role u))])
           (next_calls w) (trace w).
Proof.
  intros Hu. unfold exec, checkRole. eff_run. rewrite Hu.
  destruct (Js.includes R (u_role u)); cbn; by rewrite Hu.
Qed.

(** A request whose bearer token verifies to a stored user passes the
    authentication gate; the role gate then lets it reach the handler
    exactly when the user's role is allowed, and the handler runs as it
    does in the context [authenticated d u], after two [next()] calls
    and the two collaborator calls of the authentication gate. *)
Lemma dispatch_behind_gates (codec : TokenCodec) (R : list string)
    (h : Request -> Eff unit) (req : Request) (d : Db)
    (t : option string) (c : Claims) (r : UserRecord) :
  framed (h req) ->
  bearerToken req t ->
  verifies codec t c ->
  users d !! claim_id c = Some r ->
  let u := User.withoutPassword (User.toDoc (claim_id c) r) in
  let gate := [JwtVerify t; UserFindById (claim_id c)] in
  dispatch [protect codec; checkRole R; h] req (initial d)
  = if Js.includes R (ur_role r)
    then after (mkWorld d (Some u) [] 2 gate) (exec (h req) (authenticated d u))
    else mkWorld d (Some u) [failure 403 (accessDenied R (ur_role r))] 1 gate.
Proof.
  intros Hh Hb Hv Hu u gate.
  cbn [dispatch]. cbv zeta.
  rewrite (protect_verified codec req d t c Hb Hv), Hu.
  cbn [next_calls initial]. change (0 <? 1)%nat with true. cbv iota.
  fold u gate.
  rewrite (checkRole_exec R req (mkWorld d (Some u) [] 1 gate) u eq_refl).
  change (u_role u) with (ur_role r).
  destruct (Js.includes R (ur_role r)); cbn -[exec after]; [|done].
  rewrite (exec_framed (h req) _ Hh).
  match goal with |- (if ?b then _ else _) = _ => by destruct b end.
Qed.

(** The update route, end to end, for an admin or an editor: the
    response and the store are those of the handler. *)
Lemma putPostRoute_runs_updatePost (codec : TokenCodec) (req : Request) (d : Db)
    (t : option string) (c : Claims) (r : UserRecord) :
  bearerToken req t ->
  verifies codec t c ->
  users d !! claim_id c = Some r ->
  ur_role r ∈ ["admin"; "editor"] ->
  let u := User.withoutPassword (User.toDoc (claim_id c) r) in
  let w := dispatch (putPostRoute codec) req (initial d) in
  sent w = sent (exec (Raw.updatePost req) (authenticated d u))
  /\ db w = db (exec (Raw.updatePost req) (authenticated d u)).
Proof.
  intros Hb Hv Hu Hr u w. subst w. unfold putPostRoute.
  rewrite (dispatch_behind_gates codec _ Raw.updatePost req d t c r
             (framed_Raw_updatePost req) Hb Hv Hu).
  apply includes_elem_of in Hr. rewrite Hr. done.
Qed.

(** ** Properties of the post handlers *)

Lemma eqb_decide (a b : string) : String.eqb a b = bool_decide (a = b).
Proof.
  destruct (String.eqb_spec a b); symmetry;
    [by apply bool_decide_eq_true | by apply bool_decide_eq_false].
Qed.

(** The guard of the two handlers passes exactly for an admin and for the
    author. *)
Lemma ownership_guard (actor : UserDoc) (author : string) :
  negb (String.eqb (u_role actor) "admin") && negb (String.eqb author (u_id actor))
  = negb (bool_decide (u_role actor = "admin" \/ u_id actor = author)).
Proof.
  rewrite !eqb_decide.
  repeat case_bool_decide; cbn; try done; intuition congruence.
Qed.

Lemma updatePost_run (d : Db) (actor : UserDoc) (req : Request) :
  let w := exec (updatePost req) (authenticated d actor) in
  match posts d !! params_id req with
  | None => refusedWith d (failure 404 "Post not found") w
  | Some p =>
      if bool_decide (u_role actor = "admin" \/ u_id actor = pr_author p)
      then updateAllowed d req p w
      else refusedWith d (failure 403 "You can only edit your own posts") w
  end.
Proof.
  intros w. subst w. unfold exec, updatePost, authenticated. eff_run.
  destruct (posts d !! params_id req) as [p|] eqn:Hp; cbn -[String.eqb Post.validate].
  - rewrite ownership_guard.
    destruct (bool_decide (u_role actor = "admin" \/ u_id actor = pr_author p));
      cbn -[Post.validate]; [|done].
    unfold updateAllowed.
    destruct (Post.validate _ _ _) as [e|]; cbn; [done|].
    rewrite Hp. cbn. split_and!; try done. eexists; done.
  - done.
Qed.

Lemma deletePost_run (d : Db) (actor : UserDoc) (req : Request) :
  let w := exec (deletePost req) (authenticated d actor) in
  match posts d !! params_id req with
  | None => refusedWith d (failure 404 "Post not found") w
  | Some p =>
      if bool_decide (u_role actor = "admin" \/ u_id actor = pr_author p)
      then deleteAllowed d req w
      else refusedWith d (failure 403 "You can only delete your own posts") w
  end.
Proof.
  intros w. subst w. unfold exec, deletePost, authenticated. eff_run.
  destruct (posts d !! params_id req) as [p|] eqn:Hp; cbn -[String.eqb].
  - rewrite ownership_guard.
    destruct (bool_decide (u_role actor = "admin" \/ u_id actor = pr_author p));
      cbn; done.
  - done.
Qed.

(** ** The two layers of handlers *)

Lemma castId_casts (model id : string) :
  Mongoose.isObjectId id = true -> Mongoose.castId model id = mret tt.
Proof. unfold Mongoose.castId, Mongoose.castObjectId. by intros ->. Qed.

Lemma neverCasts_fails (id : string) :
  Mongoose.neverCasts id = true -> Mongoose.isObjectId id = false.
Proof.
  unfold Mongoose.neverCasts. intros H. apply andb_true_iff in H as [H _].
  by apply negb_true_iff.
Qed.

(** On an id that casts, the handlers on any text are the handlers on
    an ObjectId; for [updatePost], when the body casts too. *)
Lemma Raw_on_ObjectId (req : Request) :
  Mongoose.isObjectId (params_id req) = true ->
  Raw.getPostById req = getPostById req
  /\ Raw.deletePost req = deletePost req
  /\ Raw.getUserById req = getUserById req
  /\ Raw.updateUserRole req = updateUserRole req
  /\ Raw.deleteUser req = deleteUser req.
Proof.
  intros H.
  unfold Raw.getPostById, Raw.deletePost, Raw.getUserById,
    Raw.updateUserRole, Raw.deleteUser, Raw.Post_findById, Raw.User_findById,
    Raw.User_findByIdSelectMinusPassword.
  rewrite !castId_casts by done.
  split_and!; reflexivity.
Qed.

Lemma Raw_updatePost_on_ObjectId (req : Request) :
  Mongoose.isObjectId (params_id req) = true ->
  Mongoose.bodyCasts (body req) = true ->
  Raw.updatePost req = updatePost req.
Proof.
  intros H Hb.
  unfold Raw.updatePost, Raw.Post_findById, Raw.Post_findByIdAndUpdate.
  rewrite !castId_casts by done.
  unfold Mongoose.bodyCasts in Hb. unfold Mongoose.castObjectId.
  destruct (b_author (body req)) as [a|] eqn:Ha; cbn [from_option] in *;
    [rewrite Hb|]; reflexivity.
Qed.

(** On an id that does not cast, a handler whose first step is
    [findById] ends in its [catch]. *)
Lemma Raw_cast_failed (req : Request) (w : World) :
  Mongoose.isObjectId (params_id req) = false ->
  exec (Raw.getPostById req) w
  = castFailed "Post" "Get post error:" "Error fetching post" (params_id req)
      (PostFindById (params_id req)) w
  /\ exec (Raw.updatePost req) w
     = castFailed "Post" "Update post error:" "Error updating post" (params_id req)
         (PostFindById (params_id req)) w
  /\ exec (Raw.deletePost req) w
     = castFailed "Post" "Delete post error:" "Error deleting post" (params_id req)
         (PostFindById (params_id req)) w
  /\ exec (Raw.getUserById req) w
     = castFailed "User" "Get user error:" "Error fetching user" (params_id req)
         (UserFindById (params_id req)) w
  /\ exec (Raw.deleteUser req) w
     = castFailed "User" "Delete user error:" "Error deleting user" (params_id req)
         (UserFindById (params_id req)) w.
Proof.
  intros H.
  unfold exec, Raw.getPostById, Raw.updatePost, Raw.deletePost, Raw.getUserById,
    Raw.deleteUser, Raw.Post_findById, Raw.User_findById,
    Raw.User_findByIdSelectMinusPassword, Mongoose.castId, Mongoose.castObjectId.
  rewrite H. split_and!; reflexivity.
Qed.

Lemma updateAllowed_reached (d : Db) (req : Request) (p : PostRecord) (w : World) :
  updateAllowed d req p w -> updateReachedStore d req w.
Proof.
  intros (Hw & Hn & H). unfold updateReachedStore.
  split; [done|]. split; [done|].
  destruct (Post.validate _ _ _) as [e|].
  - destruct H as [-> ->]. split_and!; [done | done |].
    eexists. split; [done | by right].
  - destruct H as [-> [view ->]]. cbn. split_and!; [done | |].
    + intros id Hid. by rewrite lookup_insert_ne.
    + eexists. split; [done | by left].
Qed.

(** The run of [updatePost] on an id that casts: the store rejects the
    update also when the author of the body does not cast. *)
Lemma Raw_updatePost_run (d : Db) (actor : UserDoc) (req : Request) :
  Mongoose.isObjectId (params_id req) = true ->
  let w := exec (Raw.updatePost req) (authenticated d actor) in
  match posts d !! params_id req with
  | None => refusedWith d (failure 404 "Post not found") w
  | Some p =>
      if bool_decide (u_role actor = "admin" \/ u_id actor = pr_author p)
      then updateReachedStore d req w
           /\ (Mongoose.bodyCasts (body req) = true -> updateAllowed d req p w)
      else refusedWith d (failure 403 "You can only edit your own posts") w
  end.
Proof.
  intros Hid w. subst w.
  destruct (Mongoose.bodyCasts (body req)) eqn:Hb.
  - rewrite (Raw_updatePost_on_ObjectId req Hid Hb).
    pose proof (updatePost_run d actor req) as R. cbv zeta in R.
    destruct (posts d !! params_id req) as [p|]; [|done].
    destruct (bool_decide _); [|done].
    split; [by eapply updateAllowed_reached | done].
  - unfold Mongoose.bodyCasts in Hb.
    destruct (b_author (body req)) as [a|] eqn:Ha; [|discriminate]. cbn in Hb.
    unfold exec, Raw.updatePost, Raw.Post_findById, Raw.Post_findByIdAndUpdate,
      Mongoose.castId, Mongoose.castObjectId, authenticated.
    rewrite Hid, Ha. cbn [from_option]. rewrite Hb. eff_run.
    destruct (posts d !! params_id req) as [p|] eqn:Hp; cbn -[String.eqb]; [|done].
    rewrite ownership_guard.
    destruct (bool_decide (u_role actor = "admin" \/ u_id actor = pr_author p));
      cbn; [|done].
    split; [|done]. unfold updateReachedStore. cbn.
    split_and!; try done. eexists. split; [done | by right].
Qed.

(** ** C1 *)



(** The author of a post after an update that went through is the
    [author] of the request body when the body has one. *)
Lemma updatePost_author (d : Db) (actor : UserDoc) (req : Request) (p : PostRecord) :
  posts d !! params_id req = Some p ->
  u_role actor = "admin" \/ u_id actor = pr_author p ->
  Post.validate (b_title (body req)) (b_content (body req)) (b_status (body req)) = None ->
  pr_author <$> posts (db (exec (updatePost req) (authenticated d actor))) !! params_id req
  = Some (default (pr_author p) (b_author (body req))).
Proof.
  intros Hp Hok Hv.
  pose proof (updatePost_run d actor req) as Hu. cbv zeta in Hu.
  rewrite Hp, (bool_decide_eq_true_2 _ Hok) in Hu.
  destruct Hu as (_ & _ & Hu). rewrite Hv in Hu. destruct Hu as [-> _].
  cbn. by rewrite lookup_insert_eq.
Qed.

(** The creation path takes the author from the attached user and never
    from the request body. *)
Lemma createPost_author (d : Db) (actor : UserDoc) (newId : string) (req : Request) (p : PostRecord) :
  posts d !! newId = None ->
  posts (db (exec (createPost newId req) (authenticated d actor))) !! newId = Some p ->
  pr_author p = u_id actor.
Proof.
  intros Hfresh. unfold exec, createPost, authenticated. eff_run.
  destruct (negb (Js.truthy (b_title (body req))) || negb (Js.truthy (b_content (body req))));
    cbn -[Post.validate Js.truthy].
  - rewrite Hfresh. discriminate.
  - destruct (Post.validate _ _ _); cbn -[Js.truthy].
    + rewrite Hfresh. discriminate.
    + rewrite lookup_insert_eq. by intros [= <-].
Qed.

(** C5: the update handler hands the whole request body to the store,
    and [author] is a path of the schema. When the editor E1, author of
    post P1, sends an update of P1 whose body is [{ author: "A1" }], the
    handler answers 200 and P1 is stored with author A1. *)
Theorem updatePost_reassigns_author :
  let req := Sample.request None "P1" (mkBody None None None (Some "A1") Js.Undefined) in
  let w := exec (updatePost req) (authenticated Sample.seeded Sample.editorDoc) in
  pr_author <$> posts Sample.seeded !! "P1" = Some "E1"
  /\ status <$> sent w = [200]
  /\ pr_author <$> posts (db w) !! "P1" = Some "A1".
Proof. vm_compute. done. Qed.

(** C5 as the specification words it fails: the author field is not
    immutable under the update handler. *)
Lemma authorImmutable_fails : ~ authorImmutable.
Proof.
  intros H.
  specialize (H Sample.seeded Sample.editorDoc
                (Sample.request None "P1" (mkBody None None None (Some "A1") Js.Undefined))
                Sample.post1
                (mkPostRecord "Editor Post" "Written by the editor." "A1" "draft")).
  assert (E : "A1" = "E1"); [|discriminate E].
  apply H; vm_compute; reflexivity.
Qed.

(** ** Properties of the user-management handlers *)

Lemma requestedRole_Some (req : Request) (role : string) :
  requestedRole req = Some role
  <-> b_role (body req) = Js.Str role /\ role ∈ validRoles.
Proof.
  unfold requestedRole. rewrite <- includes_elem_of.
  destruct (b_role (body req)) as [| |b|z|s|]; try (split; [done | by intros [? _]]).
  destruct (Js.includes validRoles s) eqn:E; split.
  - intros [= ->]. done.
  - intros [[= ->] _]. done.
  - done.
  - intros [[= ->] ?]. congruence.
Qed.

Lemma role_guard (req : Request) :
  negb (Js.truthyValue (b_role (body req)))
  || negb (Js.includesValue validRoles (b_role (body req)))
  = negb (bool_decide (is_Some (requestedRole req))).
Proof.
  unfold requestedRole.
  destruct (b_role (body req)) as [| |b| z |s|]; cbn -[Js.includes validRoles];
    try done; try (by destruct b); try (by destruct (negb (z =? 0))).
  - destruct (Js.includes validRoles s) eqn:E.
    + rewrite orb_false_r.
      destruct (String.eqb_spec s EmptyString) as [->|_]; [discriminate E | done].
    + by rewrite orb_true_r.
Qed.

Lemma updateUserRole_run (d : Db) (actor : UserDoc) (req : Request) :
  let w := exec (updateUserRole req) (authenticated d actor) in
  match requestedRole req with
  | None => refusedWith d invalidRole w
  | Some role =>
      match users d !! params_id req with
      | None => refusedWith d (failure 404 "User not found") w
      | Some r =>
          if bool_decide (params_id req = u_id actor)
          then refusedWith d (failure 400 "You cannot change your own role") w
          else
            db w = mkDb (<[params_id req := withRole role r]> (users d)) (posts d)
            /\ sent w = [mkResponse 200 true (Some ("User role updated to " +:+ role))
                           (RoleData (params_id req) (ur_name r) (ur_email r) role) None]
            /\ storeWrites w = [UserSave (params_id req)]
            /\ next_calls w = 0%nat
      end
  end.
Proof.
  intros w. subst w. unfold exec, updateUserRole, authenticated.
  rewrite role_guard.
  destruct (requestedRole req) as [role|] eqn:Hr.
  - rewrite (bool_decide_eq_true_2 (is_Some (Some role))); [|by eexists].
    apply requestedRole_Some in Hr as [Hb Hin]. rewrite Hb.
    apply includes_elem_of in Hin.
    eff_run.
    destruct (users d !! params_id req) as [r|] eqn:Hu; cbn -[String.eqb Js.includes]; [|done].
    rewrite eqb_decide.
    destruct (bool_decide (params_id req = u_id actor)); cbn -[Js.includes]; [done|].
    change User.roleEnum with validRoles. rewrite Hin. cbn. rewrite Hu. cbn. done.
  - rewrite (bool_decide_eq_false_2 (is_Some None)); [|by intros [? ?]].
    eff_run. done.
Qed.

Lemma deleteUser_run (d : Db) (actor : UserDoc) (req : Request) :
  let w := exec (deleteUser req) (authenticated d actor) in
  match users d !! params_id req with
  | None => refusedWith d (failure 404 "User not found") w
  | Some r =>
      if bool_decide (params_id req = u_id actor)
      then refusedWith d (failure 400 "You cannot delete your own account") w
      else
        db w = mkDb (delete (params_id req) (users d)) (posts d)
        /\ sent w = [mkResponse 200 true (Some "User deleted successfully") EmptyData None]
        /\ storeWrites w = [UserFindByIdAndDelete (params_id req)]
        /\ next_calls w = 0%nat
  end.
Proof.
  intros w. subst w. unfold exec, deleteUser, authenticated. eff_run.
  destruct (users d !! params_id req) as [r|] eqn:Hu; cbn -[String.eqb]; [|done].
  rewrite eqb_decide.
  destruct (bool_decide (params_id req = u_id actor)); cbn; done.
Qed.

Lemma getUserById_run (d : Db) (actor : UserDoc) (req : Request) :
  sent (exec (getUserById req) (authenticated d actor))
  = match users d !! params_id req with
    | None => [failure 404 "User not found"]
    | Some r =>
        [mkResponse 200 true None
           (UserData (User.withoutPassword (User.toDoc (params_id req) r))) None]
    end.
Proof.
  unfold exec, getUserById, authenticated. eff_run.
  destruct (users d !! params_id req); done.
Qed.

(** The role update on any text: the role is validated before the id
    is looked at. *)
Lemma Raw_updateUserRole_exec (req : Request) (w : World) :
  exec (Raw.updateUserRole req) w
  = if Mongoose.isObjectId (params_id req)
       || negb (bool_decide (is_Some (requestedRole req)))
    then exec (updateUserRole req) w
    else castFailed "User" "Update role error:" "Error updating user role"
           (params_id req) (UserFindById (params_id req)) w.
Proof.
  destruct (Mongoose.isObjectId (params_id req)) eqn:Hid.
  - by destruct (Raw_on_ObjectId req Hid) as (_ & _ & _ & -> & _).
  - cbn [orb]. unfold exec, Raw.updateUserRole, updateUserRole, Raw.User_findById,
      Mongoose.castId, Mongoose.castObjectId.
    rewrite Hid, !role_guard.
    destruct (bool_decide (is_Some (requestedRole req))); reflexivity.
Qed.

(** ** C4 *)

(** C4 as the specification words it, with status 403, fails on the
    seeded store: the admin A1 who deletes A1 is answered 400. *)
Lemma self_action_status_not_403 : ~ selfActionRefused 403.
Proof.
  intros H.
  destruct (H Sample.seeded Sample.adminDoc
              (Sample.request None "A1" Sample.emptyBody))
    as [_ (r & (Hs & _) & Hc & _)].
  - vm_compute. eauto.
  - reflexivity.
  - vm_compute in Hs. injection Hs as <-. discriminate Hc.
Qed.

(** C4, amended: an actor who targets their own, existing user record
    with a role update or a delete is answered with status 400 and the
    store is left as it was: the delete with "You cannot delete your own
    account", the role update with "You cannot change your own role"
    when the requested role is valid and with the role-validation
    failure otherwise. On any other existing user id the delete goes
    through with 200, and the role update is never answered with the
    self-protection failure. *)
Theorem self_protection_rule :
  selfActionRefused 400
  /\ (forall (d : Db) (actor : UserDoc) (req : Request),
        is_Some (users d !! params_id req) ->
        let wr := exec (updateUserRole req) (authenticated d actor) in
        let wd := exec (deleteUser req) (authenticated d actor) in
        if decide (params_id req = u_id actor) then
          sent wd = [mkResponse 400 false (Some "You cannot delete your own account") NoData None]
          /\ sent wr =
               [if decide (is_Some (requestedRole req))
                then mkResponse 400 false (Some "You cannot change your own role") NoData None
                else invalidRole]
        else
          sent wd = [mkResponse 200 true (Some "User deleted successfully") EmptyData None]
          /\ sent wr <> [mkResponse 400 false (Some "You cannot change your own role") NoData None]).
Proof.
  split.
  - intros d actor req [r Hr] Hself.
    pose proof (updateUserRole_run d actor req) as Hu.
    pose proof (deleteUser_run d actor req) as Hd.
    cbv zeta in Hu, Hd. rewrite Hr in Hu, Hd.
    rewrite (bool_decide_eq_true_2 _ Hself) in Hu, Hd.
    split; [|eexists; split; [exact Hd | done]].
    destruct (requestedRole req); eexists; (split; [exact Hu | done]).
  - intros d actor req [r Hr] wr wd.
    pose proof (updateUserRole_run d actor req) as Hu.
    pose proof (deleteUser_run d actor req) as Hd.
    cbv zeta in Hu, Hd. fold wr in Hu. fold wd in Hd. rewrite Hr in Hu, Hd.
    destruct (decide (params_id req = u_id actor)) as [Hself|Hother].
    + rewrite (bool_decide_eq_true_2 _ Hself) in Hu, Hd.
      split; [apply Hd|].
      destruct (requestedRole req) as [role|].
      * rewrite decide_True by eauto. apply Hu.
      * rewrite decide_False by (by intros [? ?]). apply Hu.
    + rewrite (bool_decide_eq_false_2 _ Hother) in Hu, Hd.
      split; [apply Hd|].
      destruct (requestedRole req) as [role|]; [destruct Hu as (_ & -> & _) | destruct Hu as (-> & _)];
        discriminate.
Qed.

(** ** C6 *)

(** C6: for a role update that targets an existing user other than the
    acting one: when the requested role is absent or not one of admin,
    editor, viewer, the handler answers 400 and the store is unchanged;
    when it is one of them the handler answers 200, the stored user has
    the new role (and is otherwise as before), and a lookup of that user
    through [getUserById] afterwards returns the new role. *)
Theorem role_update_contract (d : Db) (actor : UserDoc) (req : Request) (r : UserRecord) :
  users d !! params_id req = Some r ->
  params_id req <> u_id actor ->
  let w := exec (updateUserRole req) (authenticated d actor) in
  let lookup := exec (getUserById req) (authenticated (db w) actor) in
  (forall role,
      b_role (body req) = Js.Str role ->
      role ∈ ["admin"; "editor"; "viewer"] ->
      (exists r200, sent w = [r200] /\ status r200 = 200 /\ success r200 = true)
      /\ users (db w) !! params_id req = Some (mkUserRecord (ur_name r) (ur_email r) (ur_password r) role)
      /\ posts (db w) = posts d
      /\ exists u, sent lookup = [mkResponse 200 true None (UserData u) None]
                   /\ u_id u = params_id req /\ u_role u = role)
  /\ (~ (exists role, b_role (body req) = Js.Str role /\ role ∈ ["admin"; "editor"; "viewer"]) ->
      sent w = [mkResponse 400 false
                  (Some "Invalid role. Must be one of: admin, editor, viewer") NoData None]
      /\ db w = d).
Proof.
  intros Hr Hother w lookup.
  pose proof (updateUserRole_run d actor req) as Hu. cbv zeta in Hu. fold w in Hu.
  rewrite Hr, (bool_decide_eq_false_2 _ Hother) in Hu.
  split.
  - intros role Hb Hin.
    assert (E : requestedRole req = Some role) by (by apply requestedRole_Some).
    rewrite E in Hu. destruct Hu as (Hdb & Hs & _).
    split; [eexists; split; [exact Hs | done]|].
    assert (Hl : users (db w) !! params_id req = Some (withRole role r)).
    { rewrite Hdb. cbn. apply lookup_insert_eq. }
    split; [exact Hl|]. split; [by rewrite Hdb|].
    subst lookup. rewrite getUserById_run, Hl.
    eexists; split; [reflexivity | done].
  - intros Hno.
    destruct (requestedRole req) as [role|] eqn:E.
    + apply requestedRole_Some in E. destruct Hno. eauto.
    + destruct Hu as (Hs & Hdb & _). done.
Qed.

(** ** C9 *)

(** C9: a delete of an existing user other than the acting one answers
    200 and removes that user, whether or not the user owns posts; the
    collection of posts is exactly what it was, so every post of the
    deleted user is still stored, with an author id that no longer
    resolves to a user. *)
Theorem deleteUser_keeps_posts (d : Db) (actor : UserDoc) (req : Request) (r : UserRecord) :
  users d !! params_id req = Some r ->
  params_id req <> u_id actor ->
  let w := exec (deleteUser req) (authenticated d actor) in
  sent w = [mkResponse 200 true (Some "User deleted successfully") EmptyData None]
  /\ users (db w) = delete (params_id req) (users d)
  /\ posts (db w) = posts d
  /\ storeWrites w = [UserFindByIdAndDelete (params_id req)]
  /\ (forall pid p,
        posts d !! pid = Some p -> pr_author p = params_id req ->
        posts (db w) !! pid = Some p /\ users (db w) !! pr_author p = None).
Proof.
  intros Hr Hother w.
  pose proof (deleteUser_run d actor req) as Hd. cbv zeta in Hd. fold w in Hd.
  rewrite Hr, (bool_decide_eq_false_2 _ Hother) in Hd.
  destruct Hd as (Hdb & Hs & Hw & _).
  rewrite Hdb. cbn. split_and!; try done.
  intros pid p Hp Ha. split; [done|]. rewrite Ha. apply lookup_delete_eq.
Qed.

(** ** The theorems at work on the seeded store *)

(** A header with basic authentication carries no bearer token. *)
Lemma basicAuth_noBearer : noBearerToken Sample.basicAuth.
Proof. right. exists "Basic dXNlcjpwYXNz". split; reflexivity. Defined.

(** The bearer token of the editor's request. *)
Lemma editorBearer_token : bearerToken Sample.editorBearer (Some "ok.E1").
Proof. exists "Bearer ok.E1". split_and!; reflexivity. Defined.

(** The toy codec verifies the editor's token. *)
Lemma editor_token_verifies : verifies Sample.codec (Some "ok.E1") (mkClaims "E1").
Proof. exists "ok.E1". split_and!; [reflexivity | discriminate | reflexivity]. Defined.


(** C10 on a request with basic authentication. *)
Lemma protect_missing_token_witness :
  noBearerToken Sample.basicAuth
  /\ sent (exec (protect Sample.codec Sample.basicAuth) (initial Sample.seeded))
     = [mkResponse 401 false (Some "Not authorized, no token provided") NoData None]
  /\ trace (exec (protect Sample.codec Sample.basicAuth) (initial Sample.seeded)) = [].
Proof.
  split; [exact basicAuth_noBearer|].
  pose proof (protect_missing_token Sample.codec Sample.basicAuth Sample.seeded
                basicAuth_noBearer) as H.
  cbv zeta in H. split; [exact (proj1 H) | exact (proj1 (proj2 H))].
Defined.

(** C2 on the editor's request: none of the three failing cases holds,
    and the gate proceeds with a principal. *)
Lemma protect_unauthenticated_iff_witness :
  ~ (noBearerToken Sample.editorBearer
     \/ failsVerification Sample.codec Sample.editorBearer
     \/ principalNotFound Sample.codec Sample.editorBearer Sample.seeded)
  /\ exists u, proceedsWith (exec (protect Sample.codec Sample.editorBearer) (initial Sample.seeded)) u.
Proof.
  assert (Hok : ~ (noBearerToken Sample.editorBearer
                   \/ failsVerification Sample.codec Sample.editorBearer
                   \/ principalNotFound Sample.codec Sample.editorBearer Sample.seeded)).
  { apply (found_not_failing Sample.codec _ Sample.seeded _ _ Sample.editor
             editorBearer_token editor_token_verifies).
    reflexivity. }
  split; [exact Hok|].
  pose proof (protect_unauthenticated_iff Sample.codec Sample.editorBearer Sample.seeded) as H.
  cbv zeta in H.
  destruct (proj2 (proj2 H) Hok) as (t & c & r & _ & _ & _ & Hp).
  eexists. exact Hp.
Defined.

(** C7 on the editor's request: one lookup of E1. *)
Lemma protect_twice_same_principal_witness :
  bearerToken Sample.editorBearer (Some "ok.E1")
  /\ verifies Sample.codec (Some "ok.E1") (mkClaims "E1")
  /\ storeCalls (exec (protect Sample.codec Sample.editorBearer) (initial Sample.seeded))
     = [UserFindById "E1"].
Proof.
  split; [exact editorBearer_token|].
  split; [exact editor_token_verifies|].
  pose proof (protect_twice_same_principal Sample.codec Sample.editorBearer Sample.seeded
                (Some "ok.E1") (mkClaims "E1")
                editorBearer_token editor_token_verifies) as H.
  cbv zeta in H. exact (proj1 (proj2 (proj2 (proj2 (proj2 H))))).
Defined.

(** C8 on the editor's request. *)
Lemma protect_principal_without_password_witness :
  next_calls (exec (protect Sample.codec Sample.editorBearer) (initial Sample.seeded)) <> 0%nat
  /\ exists u, req_user (exec (protect Sample.codec Sample.editorBearer) (initial Sample.seeded)) = Some u
               /\ u_password u = None.
Proof.
  assert (Hn : next_calls (exec (protect Sample.codec Sample.editorBearer) (initial Sample.seeded)) <> 0%nat)
    by (vm_compute; discriminate).
  split; [exact Hn|].
  destruct (protect_principal_without_password Sample.codec Sample.editorBearer Sample.seeded Hn)
    as (u & r & Hu & _ & Hp & _).
  exists u. split; assumption.
Defined.

(** C3 on a viewer at a route for admins and editors. *)
Lemma checkRole_decision_witness :
  (u_role Sample.viewerDoc ∉ ["admin"; "editor"])
  /\ sent (exec (checkRole ["admin"; "editor"] Sample.editorBearer)
             (authenticated Sample.seeded Sample.viewerDoc))
     = [mkResponse 403 false
          (Some "Access denied. Required role: admin or editor. Your role: viewer")
          NoData None].
Proof.
  assert (Hn : u_role Sample.viewerDoc ∉ ["admin"; "editor"]).
  { intros H. apply list_elem_of_In in H. cbn in H.
    destruct H as [H | [H | []]]; discriminate H. }
  split; [exact Hn|].
  pose proof (checkRole_decision ["admin"; "editor"] Sample.editorBearer
                (authenticated Sample.seeded Sample.viewerDoc)) as H.
  cbv zeta in H. destruct H as (_ & _ & _ & H).
  exact (proj2 (proj2 H Hn)).
Defined.


(** C4, amended, on the admin A1 changing the role of A1. *)
Lemma self_protection_rule_witness :
  is_Some (users Sample.seeded !! "A1")
  /\ exists r, sent (exec (updateUserRole
                             (Sample.request None "A1"
                                (mkBody None None None None (Js.Str "editor"))))
                       (authenticated Sample.seeded Sample.adminDoc)) = [r]
               /\ status r = 400.
Proof.
  assert (Hs : is_Some (users Sample.seeded !! "A1")) by (vm_compute; eauto).
  split; [exact Hs|].
  destruct (proj1 self_protection_rule Sample.seeded Sample.adminDoc
              (Sample.request None "A1" (mkBody None None None None (Js.Str "editor")))
              Hs eq_refl)
    as [(r & (Hr & _) & Hc & _) _].
  exists r. split; assumption.
Defined.

(** C6 on the admin A1 making the editor E1 a viewer. *)
Lemma role_update_contract_witness :
  users Sample.seeded !! "E1" = Some Sample.editor
  /\ "E1" <> u_id Sample.adminDoc
  /\ "viewer" ∈ ["admin"; "editor"; "viewer"]
  /\ users (db (exec (updateUserRole
                        (Sample.request None "E1"
                           (mkBody None None None None (Js.Str "viewer"))))
                  (authenticated Sample.seeded Sample.adminDoc))) !! "E1"
     = Some (mkUserRecord "Editor User" "editor@example.com" "$2a$10$editorhash" "viewer").
Proof.
  assert (H1 : users Sample.seeded !! "E1" = Some Sample.editor) by reflexivity.
  assert (H2 : "E1" <> u_id Sample.adminDoc) by discriminate.
  assert (H3 : "viewer" ∈ ["admin"; "editor"; "viewer"]).
  { apply list_elem_of_In. cbn. auto. }
  split_and!; [exact H1 | exact H2 | exact H3 |].
  pose proof (role_update_contract Sample.seeded Sample.adminDoc
                (Sample.request None "E1" (mkBody None None None None (Js.Str "viewer")))
                Sample.editor H1 H2) as H.
  cbv zeta in H.
  exact (proj1 (proj2 (proj1 H "viewer" eq_refl H3))).
Defined.

(** C9 on the admin A1 deleting the editor E1, who owns post P1. *)
Lemma deleteUser_keeps_posts_witness :
  users Sample.seeded !! "E1" = Some Sample.editor
  /\ "E1" <> u_id Sample.adminDoc
  /\ posts Sample.seeded !! "P1" = Some Sample.post1
  /\ pr_author Sample.post1 = "E1"
  /\ posts (db (exec (deleteUser (Sample.request None "E1" Sample.emptyBody))
                  (authenticated Sample.seeded Sample.adminDoc))) !! "P1"
     = Some Sample.post1
  /\ users (db (exec (deleteUser (Sample.request None "E1" Sample.emptyBody))
                  (authenticated Sample.seeded Sample.adminDoc))) !! "E1" = None.
Proof.
  assert (H1 : users Sample.seeded !! "E1" = Some Sample.editor) by reflexivity.
  assert (H2 : "E1" <> u_id Sample.adminDoc) by discriminate.
  assert (H3 : posts Sample.seeded !! "P1" = Some Sample.post1) by reflexivity.
  pose proof (deleteUser_keeps_posts Sample.seeded Sample.adminDoc
                (Sample.request None "E1" Sample.emptyBody) Sample.editor H1 H2) as H.
  cbv zeta in H.
  destruct (proj2 (proj2 (proj2 (proj2 H))) "P1" Sample.post1 H3 eq_refl) as [Ha Hb].
  split_and!; [exact H1 | exact H2 | exact H3 | reflexivity | exact Ha | exact Hb].
Defined.

(** ** The scenario of the specification, through the routes *)

(** The viewer is stopped at the role gate of the delete of a post. *)
Example scenario_viewer_forbidden :
  let w := dispatch (deletePostRoute Sample.codec)
             (Sample.request (Some "Bearer ok.65f1a0000000000000000f01")
                Demo.post1Id Sample.emptyBody)
             (initial Demo.store) in
  status <$> sent w = [403] /\ db w = Demo.store.
Proof. vm_compute. done. Qed.

(** The editor deletes their own post. *)
Example scenario_author_deletes :
  let w := dispatch (deletePostRoute Sample.codec)
             (Sample.request (Some "Bearer ok.65f1a0000000000000000e01")
                Demo.post1Id Sample.emptyBody)
             (initial Demo.store) in
  status <$> sent w = [200] /\ posts (db w) !! Demo.post1Id = None.
Proof. vm_compute. done. Qed.

(** The admin deletes a post that does not exist. *)
Example scenario_admin_not_found :
  let w := dispatch (deletePostRoute Sample.codec)
             (Sample.request (Some "Bearer ok.65f1a0000000000000000a01")
                Demo.unusedId Sample.emptyBody)
             (initial Demo.store) in
  status <$> sent w = [404] /\ db w = Demo.store.
Proof. vm_compute. done. Qed.

(** An expired token is stopped at the authentication gate. *)
Example scenario_expired_token :
  let w := dispatch (patchUserRoleRoute Sample.codec)
             (Sample.request (Some "Bearer old.65f1a0000000000000000a01") Demo.editorId
                (mkBody None None None None (Js.Str "viewer")))
             (initial Demo.store) in
  sent w = [failure 401 "Not authorized, token failed"]
  /\ trace w = [JwtVerify (Some "old.65f1a0000000000000000a01");
                ConsoleError "Token verification failed:" "jwt expired"]
  /\ db w = Demo.store.
Proof. vm_compute. done. Qed.

(** The admin changes their own role through the route: 400. *)
Example scenario_admin_own_role :
  let w := dispatch (patchUserRoleRoute Sample.codec)
             (Sample.request (Some "Bearer ok.65f1a0000000000000000a01") Demo.adminId
                (mkBody None None None None (Js.Str "editor")))
             (initial Demo.store) in
  sent w = [failure 400 "You cannot change your own role"]
  /\ db w = Demo.store.
Proof. vm_compute. done. Qed.

(** ** Requests that end in a handler's catch *)

(** A title of no-break spaces is empty once trimmed: the schema
    rejects it, and the answer is 500. *)
Example scenario_nbsp_title :
  let w := exec (createPost "P3" (Sample.request None "P1" Demo.nbspTitleBody))
             (authenticated Sample.seeded Sample.editorDoc) in
  status <$> sent w = [500] /\ db w = Sample.seeded.
Proof. vm_compute. done. Qed.

(** A title of 101 letters [é] has 101 characters: it is stored. *)
Example scenario_accented_title :
  let w := exec (createPost "P3" (Sample.request None "P1" Demo.accentedTitleBody))
             (authenticated Sample.seeded Sample.editorDoc) in
  status <$> sent w = [201] /\ is_Some (posts (db w) !! "P3").
Proof. vm_compute. eauto. Qed.

(** [PUT /abc] by the admin, through the router: the cast of the id
    fails, and the answer is the 500 of [updatePost]. *)
Example scenario_malformed_id :
  let hr := mkHttpRequest PUT "/abc" (Some "Bearer ok.65f1a0000000000000000a01")
              Demo.retitleBody in
  let w := sv_world (serve (postRoutes Sample.codec Demo.clock Demo.unusedId) hr
                       (initial Demo.store)) in
  (status <$> sent w = [500]) /\ (message <$> sent w = [Some "Error updating post"])
  /\ db w = Demo.store.
Proof. vm_compute. done. Qed.

(** The author of an update is cast too: an author that is no ObjectId
    stops the update with a 500. *)
Example scenario_malformed_author :
  let req := Sample.request None Demo.post1Id
               (mkBody None None None (Some "nobody") Js.Undefined) in
  let w := exec (Raw.updatePost req) (authenticated Demo.store Demo.editorDoc) in
  status <$> sent w = [500] /\ db w = Demo.store.
Proof. vm_compute. done. Qed.

(** * Further properties of the backend *)

(** ** [createPost] *)

(** The status a created post gets: the one of the body, or [draft]. *)
Lemma createPost_run (d : Db) (actor : UserDoc) (newId : string) (req : Request) :
  let w := exec (createPost newId req) (authenticated d actor) in
  let status := if Js.truthy (b_status (body req))
                then default EmptyString (b_status (body req)) else "draft" in
  if negb (Js.truthy (b_title (body req))) || negb (Js.truthy (b_content (body req)))
  then w = mkWorld d (Some actor) [failure 400 "Please provide title and content"] 0 []
  else
    match Post.validate (b_title (body req)) (b_content (body req)) (Some status) with
    | Some e =>
        db w = d
        /\ sent w = [serverError "Error creating post" ("Post validation failed: " +:+ e)]
        /\ storeWrites w = [PostCreate newId]
    | None =>
        let r := mkPostRecord (Js.trim (default EmptyString (b_title (body req))))
                   (default EmptyString (b_content (body req))) (u_id actor) status in
        db w = mkDb (users d) (<[newId := r]> (posts d))
        /\ sent w = [mkResponse 201 true (Some "Post created successfully")
                       (PostData (Some (Query.populated d (Post.toDoc newId r)))) None]
        /\ storeWrites w = [PostCreate newId]
    end.
Proof.
  intros w status. subst w. unfold exec, createPost, authenticated.
  destruct (b_title (body req)) as [t|] eqn:Ht, (b_content (body req)) as [c|] eqn:Hc;
    try (eff_run; rewrite ?orb_true_r; done).
  destruct (negb (Js.truthy (Some t)) || negb (Js.truthy (Some c))) eqn:Hg.
  - eff_run. done.
  - eff_run. fold status.
    destruct (Post.validate (Some t) (Some c) (Some status)) as [e|]; cbn; done.
Qed.

(** X1: without a title or without content ([undefined] or the empty
    string) [createPost] answers 400 before it calls anything: no store
    call, no console output, the store as it was. *)
Theorem createPost_requires_title_and_content (d : Db) (actor : UserDoc) (newId : string) (req : Request) :
  Js.truthy (b_title (body req)) = false \/ Js.truthy (b_content (body req)) = false ->
  let w := exec (createPost newId req) (authenticated d actor) in
  sent w = [mkResponse 400 false (Some "Please provide title and content") NoData None]
  /\ trace w = []
  /\ db w = d.
Proof.
  intros H w. pose proof (createPost_run d actor newId req) as R. cbv zeta in R.
  fold w in R.
  assert (E : negb (Js.truthy (b_title (body req))) || negb (Js.truthy (b_content (body req))) = true).
  { destruct H as [-> | ->]; [done | by rewrite orb_true_r]. }
  rewrite E in R. by rewrite R.
Qed.

(** X2: a post that [createPost] stores has the attached user as its
    author, whatever [author] the body carries; its title is the
    trimmed title of the body and its status the one of the body, or
    [draft] when the body has none. It is stored under the new id, the
    answer is 201, and no other post and no user changes. *)
Theorem createPost_stores_post_of_actor (d : Db) (actor : UserDoc) (newId : string)
    (req : Request) (title content : string) :
  b_title (body req) = Some title ->
  b_content (body req) = Some content ->
  title <> EmptyString -> content <> EmptyString ->
  let st := if Js.truthy (b_status (body req))
            then default EmptyString (b_status (body req)) else "draft" in
  Post.validate (Some title) (Some content) (Some st) = None ->
  let w := exec (createPost newId req) (authenticated d actor) in
  status <$> sent w = [201]
  /\ posts (db w) !! newId
     = Some (mkPostRecord (Js.trim title) content (u_id actor) st)
  /\ (forall id, id <> newId -> posts (db w) !! id = posts d !! id)
  /\ users (db w) = users d.
Proof.
  intros Ht Hc Hnt Hnc st Hv w.
  pose proof (createPost_run d actor newId req) as R. cbv zeta in R. fold w st in R.
  rewrite Ht, Hc in R.
  apply String.eqb_neq in Hnt, Hnc. cbn -[Post.validate] in R.
  rewrite Hnt, Hnc in R. cbn -[Post.validate] in R. rewrite Hv in R.
  destruct R as (Hdb & Hs & _). rewrite Hdb, Hs. cbn.
  split_and!; try done.
  - apply lookup_insert_eq.
  - intros id Hid. by rewrite lookup_insert_ne.
Qed.

(** X3: a body that passes the 400 check but not the schema (a title
    that is empty once trimmed, a title of more than 200 characters
    once trimmed, a status outside [draft, published]) is answered 500
    "Error creating post", not 400, and nothing is stored. *)
Theorem createPost_invalid_is_server_error (d : Db) (actor : UserDoc) (newId : string)
    (req : Request) :
  Js.truthy (b_title (body req)) = true ->
  Js.truthy (b_content (body req)) = true ->
  Post.validate (b_title (body req)) (b_content (body req))
    (Some (if Js.truthy (b_status (body req))
           then default EmptyString (b_status (body req)) else "draft")) <> None ->
  let w := exec (createPost newId req) (authenticated d actor) in
  (exists err, sent w = [mkResponse 500 false (Some "Error creating post") NoData (Some err)])
  /\ db w = d.
Proof.
  intros Ht Hc Hv w.
  pose proof (createPost_run d actor newId req) as R. cbv zeta in R. fold w in R.
  rewrite Ht, Hc in R. cbn [negb orb] in R.
  destruct (Post.validate _ _ _) as [e|]; [|done].
  destruct R as (-> & -> & _). split; [by eexists | done].
Qed.

(** ** [getPostById] and [getUserById] *)

Lemma populateAuthor_populated (p : PostDoc) (w : World) :
  Post.populateAuthor p w
  = (Ok (Query.populated (db w) p),
     mkWorld (db w) (req_user w) (sent w) (next_calls w) (trace w ++ [UserPopulate (p_author p)])).
Proof. reflexivity. Qed.

(** The run of [getPostById]. *)
Lemma getPostById_run (d : Db) (user : option UserDoc) (req : Request) :
  let w := exec (getPostById req) (mkWorld d user [] 0 []) in
  db w = d /\ storeWrites w = [] /\ next_calls w = 0%nat
  /\ match posts d !! params_id req with
     | None =>
         sent w = [mkResponse 404 false (Some "Post not found") NoData None]
         /\ storeCalls w = [PostFindById (params_id req)]
     | Some p =>
         sent w = [mkResponse 200 true None
                     (PostData (Some (Query.populated d (Post.toDoc (params_id req) p))))
                     None]
         /\ storeCalls w = [PostFindById (params_id req); UserPopulate (pr_author p)]
     end.
Proof.
  intros w. subst w. unfold exec, getPostById. eff_run.
  destruct (posts d !! params_id req) as [p|]; cbn; done.
Qed.


(** X5: after an admin has deleted a user, a post of that user is still
    served by [getPostById], with 200 and a [null] author. *)
Theorem orphaned_post_served_without_author (d : Db) (actor : UserDoc)
    (uid pid : string) (r : UserRecord) (p : PostRecord) (b : Body) (user : option UserDoc) :
  users d !! uid = Some r ->
  uid <> u_id actor ->
  posts d !! pid = Some p ->
  pr_author p = uid ->
  let d' := db (exec (deleteUser (mkRequest None uid b)) (authenticated d actor)) in
  sent (exec (getPostById (mkRequest None pid b)) (mkWorld d' user [] 0 []))
  = [mkResponse 200 true None
       (PostData (Some (mkPostView pid (pr_title p) (pr_content p) None (pr_status p))))
       None].
Proof.
  intros Hu Hne Hp Ha d'.
  pose proof (deleteUser_run d actor (mkRequest None uid b)) as R. cbv zeta in R.
  cbn [params_id] in R. rewrite Hu, (bool_decide_eq_false_2 _ Hne) in R.
  destruct R as (Hdb & _). fold d' in Hdb.
  pose proof (getPostById_run d' user (mkRequest None pid b)) as G. cbv zeta in G.
  destruct G as (_ & _ & _ & G). cbn [params_id] in G.
  rewrite Hdb in G. cbn [posts] in G. rewrite Hp in G. destruct G as [G _].
  rewrite <- Hdb in G. rewrite G. unfold Query.populated. cbn.
  rewrite Hdb. cbn. rewrite Ha, lookup_delete_eq. done.
Qed.

(** The run of [getUserById]. *)
Lemma getUserById_read (d : Db) (user : option UserDoc) (req : Request) :
  let w := exec (getUserById req) (mkWorld d user [] 0 []) in
  db w = d /\ storeCalls w = [UserFindById (params_id req)]
  /\ match users d !! params_id req with
     | None => sent w = [mkResponse 404 false (Some "User not found") NoData None]
     | Some r =>
         sent w = [mkResponse 200 true None
                     (UserData (mkUserDoc (params_id req) (ur_name r) (ur_email r) None (ur_role r)))
                     None]
     end.
Proof.
  intros w. subst w. unfold exec, getUserById. eff_run.
  destruct (users d !! params_id req) as [r|]; cbn; done.
Qed.


(** ** [updateUserRole] and [deleteUser] *)

(** X7: [updateUserRole] checks the requested role before anything else:
    when it is absent, not a string, or not one of admin, editor, viewer,
    the answer is the 400 of the validation and no call is made to the
    store, whether the target exists or not and whether it is the
    actor or not. *)
Theorem updateUserRole_validates_first (d : Db) (user : option UserDoc) (req : Request) :
  requestedRole req = None ->
  let w := exec (updateUserRole req) (mkWorld d user [] 0 []) in
  sent w = [mkResponse 400 false
              (Some "Invalid role. Must be one of: admin, editor, viewer") NoData None]
  /\ trace w = []
  /\ db w = d.
Proof.
  intros Hr w. subst w. unfold exec, updateUserRole.
  rewrite role_guard, Hr.
  rewrite (bool_decide_eq_false_2 (is_Some None)); [|by intros [? ?]].
  eff_run. done.
Qed.

(** With a valid requested role, [updateUserRole] and [deleteUser]
    write nothing for an id that no user has: they answer 404 when the
    id is an ObjectId, and 500 when no driver casts it to one. *)
Theorem user_mutation_unknown_target (d : Db) (actor : UserDoc) (req : Request) :
  users d !! params_id req = None ->
  is_Some (requestedRole req) ->
  let wr := exec (Raw.updateUserRole req) (authenticated d actor) in
  let wd := exec (Raw.deleteUser req) (authenticated d actor) in
  (Mongoose.isObjectId (params_id req) = true ->
   refusedWith d (mkResponse 404 false (Some "User not found") NoData None) wr
   /\ refusedWith d (mkResponse 404 false (Some "User not found") NoData None) wd)
  /\ (Mongoose.neverCasts (params_id req) = true ->
      serverFailure d "Error updating user role" wr
      /\ serverFailure d "Error deleting user" wd).
Proof.
  intros Hu [role Hr] wr wd. subst wr wd. rewrite Raw_updateUserRole_exec. split.
  - intros Hid. destruct (Raw_on_ObjectId req Hid) as (_ & _ & _ & _ & ->).
    rewrite Hid. cbn [orb].
    pose proof (updateUserRole_run d actor req) as R1.
    pose proof (deleteUser_run d actor req) as R2.
    cbv zeta in R1, R2. rewrite Hr, Hu in R1. rewrite Hu in R2. done.
  - intros Hbad. apply neverCasts_fails in Hbad. rewrite Hbad, Hr.
    rewrite (bool_decide_eq_true_2 (is_Some (Some role))); [|by eexists]. cbn [orb negb].
    destruct (Raw_cast_failed req (authenticated d actor) Hbad) as (_ & _ & _ & _ & ->).
    split; eexists; done.
Qed.

(** X8: a role update that goes through changes the role of the target
    and nothing else: the target keeps its name, email and password
    hash, every other user is as before, the set of user ids is the
    same, and no post changes. *)
Theorem updateUserRole_changes_only_role (d : Db) (actor : UserDoc) (req : Request)
    (r : UserRecord) (role : string) :
  users d !! params_id req = Some r ->
  params_id req <> u_id actor ->
  requestedRole req = Some role ->
  let w := exec (updateUserRole req) (authenticated d actor) in
  users (db w) !! params_id req
  = Some (mkUserRecord (ur_name r) (ur_email r) (ur_password r) role)
  /\ (forall id, id <> params_id req -> users (db w) !! id = users d !! id)
  /\ dom (users (db w)) = dom (users d)
  /\ posts (db w) = posts d.
Proof.
  intros Hu Hne Hr w.
  pose proof (updateUserRole_run d actor req) as R. cbv zeta in R. fold w in R.
  rewrite Hr, Hu, (bool_decide_eq_false_2 _ Hne) in R. destruct R as (-> & _).
  cbn. split_and!; try done.
  - apply lookup_insert_eq.
  - intros id Hid. by rewrite lookup_insert_ne.
  - apply dom_insert_lookup_L. by rewrite Hu.
Qed.

(** X9: a role update is idempotent: sending the same request again
    is answered 200 again and leaves the store as the first one left
    it. *)
Theorem updateUserRole_idempotent (d : Db) (actor : UserDoc) (req : Request)
    (r : UserRecord) (role : string) :
  users d !! params_id req = Some r ->
  params_id req <> u_id actor ->
  requestedRole req = Some role ->
  let w1 := exec (updateUserRole req) (authenticated d actor) in
  let w2 := exec (updateUserRole req) (authenticated (db w1) actor) in
  db w2 = db w1 /\ sent w2 = sent w1 /\ status <$> sent w2 = [200].
Proof.
  intros Hu Hne Hr w1 w2.
  pose proof (updateUserRole_run d actor req) as R1. cbv zeta in R1. fold w1 in R1.
  rewrite Hr, Hu, (bool_decide_eq_false_2 _ Hne) in R1. destruct R1 as (Hdb & Hs & _).
  pose proof (updateUserRole_run (db w1) actor req) as R2. cbv zeta in R2. fold w2 in R2.
  assert (Hu2 : users (db w1) !! params_id req = Some (withRole role r)).
  { rewrite Hdb. cbn. apply lookup_insert_eq. }
  rewrite Hr, Hu2, (bool_decide_eq_false_2 _ Hne) in R2. destruct R2 as (Hdb2 & Hs2 & _).
  rewrite Hdb2, Hs2, Hs. split_and!; try done.
  rewrite Hdb at 2. rewrite Hdb. cbn. by rewrite insert_insert_eq.
Qed.

(** ** What follows a change *)

(** X10: a delete that went through is final: the same request again,
    by anyone, is answered 404, and so is a read of the post. *)
Theorem deletePost_twice_not_found (d : Db) (actor other : UserDoc) (req : Request) (p : PostRecord) :
  posts d !! params_id req = Some p ->
  u_role actor = "admin" \/ u_id actor = pr_author p ->
  let w1 := exec (deletePost req) (authenticated d actor) in
  status <$> sent w1 = [200]
  /\ sent (exec (deletePost req) (authenticated (db w1) other))
     = [mkResponse 404 false (Some "Post not found") NoData None]
  /\ sent (exec (getPostById req) (mkWorld (db w1) (Some other) [] 0 []))
     = [mkResponse 404 false (Some "Post not found") NoData None].
Proof.
  intros Hp Hok w1.
  pose proof (deletePost_run d actor req) as R1. cbv zeta in R1. fold w1 in R1.
  rewrite Hp, (bool_decide_eq_true_2 _ Hok) in R1.
  destruct R1 as (_ & _ & Hdb & Hs).
  assert (Hgone : posts (db w1) !! params_id req = None).
  { rewrite Hdb. cbn. apply lookup_delete_eq. }
  split; [by rewrite Hs|]. split.
  - pose proof (deletePost_run (db w1) other req) as R2. cbv zeta in R2.
    rewrite Hgone in R2. apply R2.
  - pose proof (getPostById_run (db w1) (Some other) req) as G. cbv zeta in G.
    rewrite Hgone in G. apply G.
Qed.

(** X11: deleting a user takes effect on that user's next request: a
    token that still verifies to the deleted id is answered 401 "User
    not found", and [next()] is not called. *)
Theorem deleted_user_token_rejected (codec : TokenCodec) (d : Db) (actor : UserDoc)
    (del req : Request) (r : UserRecord) (t : option string) (c : Claims) :
  users d !! params_id del = Some r ->
  params_id del <> u_id actor ->
  bearerToken req t ->
  verifies codec t c ->
  claim_id c = params_id del ->
  let d' := db (exec (deleteUser del) (authenticated d actor)) in
  let w := exec (protect codec req) (initial d') in
  sent w = [mkResponse 401 false (Some "User not found") NoData None]
  /\ next_calls w = 0%nat
  /\ req_user w = None.
Proof.
  intros Hu Hne Hb Hv Hc d' w.
  pose proof (deleteUser_run d actor del) as R. cbv zeta in R.
  rewrite Hu, (bool_decide_eq_false_2 _ Hne) in R. destruct R as (Hdb & _).
  fold d' in Hdb. subst w.
  rewrite (protect_verified codec req d' t c Hb Hv), Hdb. cbn.
  rewrite Hc, lookup_delete_eq. done.
Qed.

(** X12: a role change takes effect on the target's next request: the
    authentication gate attaches the new role (nothing is cached), so a
    role gate lets the request pass exactly when the new role is
    allowed. *)
Theorem role_change_seen_by_next_request (codec : TokenCodec) (d : Db) (actor : UserDoc)
    (upd req : Request) (r : UserRecord) (role : string) (t : option string) (c : Claims)
    (R : list string) :
  users d !! params_id upd = Some r ->
  params_id upd <> u_id actor ->
  requestedRole upd = Some role ->
  bearerToken req t ->
  verifies codec t c ->
  claim_id c = params_id upd ->
  let d' := db (exec (updateUserRole upd) (authenticated d actor)) in
  let w := exec (protect codec req) (initial d') in
  (u_role <$> req_user w) = Some role
  /\ next_calls w = 1%nat
  /\ (next_calls (exec (checkRole R req) w) = 2%nat <-> role ∈ R).
Proof.
  intros Hu Hne Hr Hb Hv Hc d' w.
  pose proof (updateUserRole_run d actor upd) as U. cbv zeta in U.
  rewrite Hr, Hu, (bool_decide_eq_false_2 _ Hne) in U. destruct U as (Hdb & _).
  fold d' in Hdb.
  assert (Hl : users d' !! claim_id c = Some (withRole role r)).
  { rewrite Hdb, Hc. cbn. apply lookup_insert_eq. }
  assert (Hw : w = mkWorld d' (Some (User.withoutPassword (User.toDoc (claim_id c) (withRole role r))))
                     [] 1 [JwtVerify t; UserFindById (claim_id c)]).
  { subst w. by rewrite (protect_verified codec req d' t c Hb Hv), Hl. }
  rewrite Hw. split; [done|]. split; [done|].
  erewrite checkRole_exec by reflexivity.
  cbn [u_role User.withoutPassword User.toDoc withRole ur_role].
  destruct (Js.includes R role) eqn:Hin; cbn.
  - apply includes_elem_of in Hin. done.
  - apply includes_not_elem_of in Hin. split; [discriminate | done].
Qed.

(** ** A controller without the authentication gate *)

(** X13: the controllers that read [req.user] do not crash when none is
    attached: on an existing target (and a body that passes the first
    checks) each answers 500 and writes nothing. *)
Theorem controllers_without_principal (d : Db) (newId : string) (req : Request) :
  let bare := mkWorld d None [] 0 [] in
  (is_Some (posts d !! params_id req) ->
   (status <$> sent (exec (updatePost req) bare) = [500] /\ db (exec (updatePost req) bare) = d)
   /\ (status <$> sent (exec (deletePost req) bare) = [500] /\ db (exec (deletePost req) bare) = d))
  /\ (is_Some (users d !! params_id req) ->
      (is_Some (requestedRole req) ->
       status <$> sent (exec (updateUserRole req) bare) = [500]
       /\ db (exec (updateUserRole req) bare) = d)
      /\ (status <$> sent (exec (deleteUser req) bare) = [500]
          /\ db (exec (deleteUser req) bare) = d))
  /\ (Js.truthy (b_title (body req)) = true ->
      Js.truthy (b_content (body req)) = true ->
      status <$> sent (exec (createPost newId req) bare) = [500]
      /\ db (exec (createPost newId req) bare) = d).
Proof.
  intros bare. subst bare. split_and!.
  - intros [p Hp]. unfold exec, updatePost, deletePost. eff_run. rewrite Hp. cbn. done.
  - intros [r Hr]. split.
    + intros [role Hrole]. unfold exec, updateUserRole. rewrite role_guard, Hrole.
      rewrite (bool_decide_eq_true_2 (is_Some (Some role))); [|by eexists].
      eff_run. rewrite Hr. cbn. done.
    + unfold exec, deleteUser. eff_run. rewrite Hr. cbn. done.
  - intros Ht Hc. unfold exec, createPost. eff_run. rewrite Ht, Hc. cbn. done.
Qed.

(** ** [updatePost] *)

(** X14: an update that goes through replaces the paths the body
    carries and keeps the others: for a post under an ObjectId and a
    body that the validators pass and whose author, if it has one, is
    an ObjectId, the answer is 200, a path absent from the body is
    stored as it was (the author included), the title is stored
    trimmed, and no other post and no user changes. *)
Theorem updatePost_keeps_absent_paths (d : Db) (actor : UserDoc) (req : Request) (p : PostRecord) :
  posts d !! params_id req = Some p ->
  Mongoose.isObjectId (params_id req) = true ->
  Mongoose.bodyCasts (body req) = true ->
  u_role actor = "admin" \/ u_id actor = pr_author p ->
  Post.validate (b_title (body req)) (b_content (body req)) (b_status (body req)) = None ->
  let w := exec (Raw.updatePost req) (authenticated d actor) in
  status <$> sent w = [200]
  /\ exists p',
       posts (db w) !! params_id req = Some p'
       /\ pr_title p' = default (pr_title p) (Js.trim <$> b_title (body req))
       /\ pr_content p' = default (pr_content p) (b_content (body req))
       /\ pr_status p' = default (pr_status p) (b_status (body req))
       /\ (b_author (body req) = None -> pr_author p' = pr_author p)
       /\ (forall id, id <> params_id req -> posts (db w) !! id = posts d !! id)
       /\ users (db w) = users d.
Proof.
  intros Hp Hid Hb Hok Hv w.
  pose proof (Raw_updatePost_run d actor req Hid) as R. cbv zeta in R. fold w in R.
  rewrite Hp, (bool_decide_eq_true_2 _ Hok) in R.
  destruct R as [_ R]. destruct (R Hb) as (_ & _ & R'). rewrite Hv in R'.
  destruct R' as [-> [view ->]]. split; [done|].
  exists (Post.applyUpdate (body req) p). cbn. split_and!; try done.
  - apply lookup_insert_eq.
  - by intros ->.
  - intros id Hid'. by rewrite lookup_insert_ne.
Qed.

(** ** More on the authentication gate *)

(** X15: a bearer token that fails verification (expired, malformed,
    bad signature, or no token after the scheme) is answered 401 "Not
    authorized, token failed", and the store is never consulted. *)
Theorem rejected_token_never_reaches_store (codec : TokenCodec) (req : Request) (d : Db)
    (t : option string) :
  bearerToken req t ->
  (forall c, ~ verifies codec t c) ->
  let w := exec (protect codec req) (initial d) in
  sent w = [mkResponse 401 false (Some "Not authorized, token failed") NoData None]
  /\ storeCalls w = []
  /\ req_user w = None
  /\ next_calls w = 0%nat
  /\ db w = d.
Proof.
  intros Hb Hv w. subst w.
  destruct (protect_rejected_token codec req d t Hb Hv) as [msg ->]. done.
Qed.

(** X16: of a header that begins with "Bearer" the gate reads the
    second of the pieces that a space separates and nothing else: two
    headers with the same second piece are treated alike, whatever
    follows "Bearer" in the first piece and whatever comes after the
    second piece. *)
Theorem protect_reads_second_piece (codec : TokenCodec) (req1 req2 : Request) (d : Db)
    (s1 s2 : string) :
  authorization req1 = Some s1 ->
  authorization req2 = Some s2 ->
  Js.startsWith s1 "Bearer" = true ->
  Js.startsWith s2 "Bearer" = true ->
  Js.split " " s1 !! 1%nat = Js.split " " s2 !! 1%nat ->
  exec (protect codec req1) (initial d) = exec (protect codec req2) (initial d).
Proof.
  intros H1 H2 Hs1 Hs2 E.
  assert (B1 : bearerToken req1 (Js.split " " s1 !! 1%nat)) by (exists s1; auto).
  assert (B2 : bearerToken req2 (Js.split " " s1 !! 1%nat)) by (exists s2; auto).
  destruct (gate_cases codec req1 d)
    as [H | [(t & Hb & Hv) | [(t & c & Hb & Hv & Hu) | (t & c & r & Hb & Hv & Hu)]]].
  - by destruct (bearerToken_excludes _ _ B1).
  - rewrite (bearerToken_unique _ _ _ Hb B1) in Hv.
    unfold exec, protect, initial. rewrite H1, H2.
    cbn -[Js.startsWith Js.split Js.truthy].
    rewrite (bearer_truthy _ Hs1), (bearer_truthy _ Hs2), Hs1, Hs2, <- E. done.
  - rewrite (bearerToken_unique _ _ _ Hb B1) in Hv.
    by rewrite (protect_verified codec req1 d _ c B1 Hv),
               (protect_verified codec req2 d _ c B2 Hv).
  - rewrite (bearerToken_unique _ _ _ Hb B1) in Hv.
    by rewrite (protect_verified codec req1 d _ c B1 Hv),
               (protect_verified codec req2 d _ c B2 Hv).
Qed.

(** ** The list handlers *)

#[global] Instance newer_total {A} (stamp : A -> Z) : Total (Query.newer stamp).
Proof. intros a b. unfold Query.newer. lia. Qed.

#[global] Instance newer_transitive {A} (stamp : A -> Z) : Transitive (Query.newer stamp).
Proof. intros a b c. unfold Query.newer. lia. Qed.

Lemma elem_of_newestFirst {A} (stamp : A -> Z) (xs : list A) (x : A) :
  x ∈ Query.newestFirst stamp xs <-> x ∈ xs.
Proof. unfold Query.newestFirst. by rewrite merge_sort_Permutation. Qed.

Lemma length_newestFirst {A} (stamp : A -> Z) (xs : list A) :
  length (Query.newestFirst stamp xs) = length xs.
Proof. unfold Query.newestFirst. by rewrite merge_sort_Permutation. Qed.

Lemma elem_of_findPosts (d : Db) (keep : PostDoc -> bool) (p : PostDoc) :
  p ∈ Query.findPosts d keep
  <-> exists id r, posts d !! id = Some r /\ p = Post.toDoc id r /\ keep p = true.
Proof.
  unfold Query.findPosts. rewrite list_elem_of_In, filter_In, <- list_elem_of_In.
  rewrite list_elem_of_fmap. split.
  - intros [([id r] & -> & Hin) Hk]. apply elem_of_map_to_list in Hin. eauto.
  - intros (id & r & Hl & -> & Hk). split; [|done].
    exists (id, r). split; [done|]. by apply elem_of_map_to_list.
Qed.

Lemma NoDup_findPosts_ids (d : Db) (keep : PostDoc -> bool) :
  NoDup (p_id <$> Query.findPosts d keep).
Proof.
  unfold Query.findPosts.
  assert (H : NoDup (p_id <$> ((fun ir => Post.toDoc ir.1 ir.2) <$> map_to_list (posts d)))).
  { rewrite <- list_fmap_compose. apply (NoDup_fst_map_to_list (posts d)). }
  revert H. generalize ((fun ir => Post.toDoc ir.1 ir.2) <$> map_to_list (posts d)).
  intros l. induction l as [|x l IH]; [done|]. cbn. intros Hnd.
  apply NoDup_cons in Hnd as [Hx Hl]. destruct (keep x); cbn; [|auto].
  apply NoDup_cons. split; [|auto].
  intros Hin. apply Hx. apply list_elem_of_fmap in Hin as (y & -> & Hy).
  apply list_elem_of_fmap. exists y. split; [done|].
  apply list_elem_of_In, filter_In in Hy as [Hy _]. by apply list_elem_of_In.
Qed.

(** The data of a list of posts: the populated documents of the posts
    that the filter keeps, each once, newest first. *)
Lemma listed_posts (clock : Clock) (d : Db) (keep : PostDoc -> bool) :
  let data := Query.populated d
                <$> Query.newestFirst (fun p => postCreatedAt clock (p_id p))
                      (Query.findPosts d keep) in
  (forall v, v ∈ data
             <-> exists id r, posts d !! id = Some r /\ keep (Post.toDoc id r) = true
                              /\ v = Query.populated d (Post.toDoc id r))
  /\ NoDup (pv_id <$> data)
  /\ StronglySorted (Query.newer (fun v => postCreatedAt clock (pv_id v))) data
  /\ length data = length (Query.findPosts d keep).
Proof.
  intros data. subst data. split_and!.
  - intros v. rewrite list_elem_of_fmap. split.
    + intros (p & -> & Hp). apply elem_of_newestFirst, elem_of_findPosts in Hp
        as (id & r & Hl & -> & Hk). eauto.
    + intros (id & r & Hl & Hk & ->). exists (Post.toDoc id r). split; [done|].
      apply elem_of_newestFirst, elem_of_findPosts. eauto.
  - rewrite <- list_fmap_compose.
    assert (E : (pv_id ∘ Query.populated d) <$> Query.newestFirst
                  (fun p => postCreatedAt clock (p_id p)) (Query.findPosts d keep)
                = p_id <$> Query.newestFirst
                    (fun p => postCreatedAt clock (p_id p)) (Query.findPosts d keep)).
    { by apply list_fmap_ext. }
    rewrite E. unfold Query.newestFirst. rewrite merge_sort_Permutation.
    apply NoDup_findPosts_ids.
  - eapply StronglySorted_fmap; [|apply StronglySorted_merge_sort; apply _].
    intros x y Hxy. exact Hxy.
  - by rewrite length_fmap, length_newestFirst.
Qed.

(** X17: [getMyPosts] answers 200 with exactly the posts whose author
    is the attached user, each once, populated, newest first, and with
    their number as [count]; without an attached user it answers 500. *)
Theorem getMyPosts_lists_own_posts (clock : Clock) (d : Db) (u : UserDoc) :
  let l := getMyPosts clock d (Some u) in
  ls_status l = 200 /\ ls_success l = true
  /\ ls_count l = Some (length (ls_data l))
  /\ (forall v, v ∈ ls_data l
                <-> exists id r, posts d !! id = Some r /\ pr_author r = u_id u
                                 /\ v = Query.populated d (Post.toDoc id r))
  /\ NoDup (pv_id <$> ls_data l)
  /\ StronglySorted (Query.newer (fun v => postCreatedAt clock (pv_id v))) (ls_data l)
  /\ ls_status (getMyPosts clock d None) = 500.
Proof.
  intros l. subst l. cbn -[Query.newestFirst Query.findPosts].
  destruct (listed_posts clock d (fun p => String.eqb (p_author p) (u_id u)))
    as (Hin & Hnd & Hs & _).
  split_and!; try done.
  intros v. rewrite Hin. split.
  - intros (id & r & Hl & Hk & ->). apply String.eqb_eq in Hk. eauto.
  - intros (id & r & Hl & Hk & ->). exists id, r. split_and!; try done.
    by apply String.eqb_eq.
Qed.

(** X18: [getAllPosts] answers 200 with every stored post, each once,
    newest first, [count] being the number of stored posts; the author
    of a listed post is [null] exactly when no user has the author's
    id. *)
Theorem getAllPosts_lists_every_post (clock : Clock) (d : Db) (user : option UserDoc) :
  let l := getAllPosts clock d user in
  ls_status l = 200
  /\ ls_count l = Some (size (posts d))
  /\ length (ls_data l) = size (posts d)
  /\ (forall v, v ∈ ls_data l
                <-> exists id r, posts d !! id = Some r
                                 /\ v = Query.populated d (Post.toDoc id r))
  /\ (forall v, v ∈ ls_data l ->
        exists r, posts d !! pv_id v = Some r
                  /\ (pv_author v = None <-> users d !! pr_author r = None))
  /\ NoDup (pv_id <$> ls_data l)
  /\ StronglySorted (Query.newer (fun v => postCreatedAt clock (pv_id v))) (ls_data l).
Proof.
  intros l. subst l. cbn -[Query.newestFirst Query.findPosts].
  destruct (listed_posts clock d (fun _ => true)) as (Hin & Hnd & Hs & Hlen).
  cbv zeta in Hlen.
  assert (Hsize : length (Query.findPosts d (fun _ => true)) = size (posts d)).
  { unfold Query.findPosts.
    rewrite forallb_filter_id; [|by apply forallb_forall].
    by rewrite length_fmap, length_map_to_list. }
  split_and!; try done.
  - by rewrite Hlen, Hsize.
  - by rewrite Hlen, Hsize.
  - intros v. rewrite Hin. split.
    + intros (id & r & Hl & _ & ->). eauto.
    + intros (id & r & Hl & ->). eauto.
  - intros v Hv. apply Hin in Hv as (id & r & Hl & _ & ->). exists r.
    split; [done|]. cbn. by destruct (users d !! pr_author r).
Qed.

(** X19: [getAllUsers] answers 200 with every stored user, each once,
    newest first, and none of the listed documents has a password. *)
Theorem getAllUsers_without_passwords (clock : Clock) (d : Db) (user : option UserDoc) :
  let l := getAllUsers clock d user in
  ls_status l = 200
  /\ ls_count l = Some (size (users d))
  /\ (forall u, u ∈ ls_data l
                <-> exists r, users d !! u_id u = Some r
                              /\ u = mkUserDoc (u_id u) (ur_name r) (ur_email r) None (ur_role r))
  /\ Forall (fun u => u_password u = None) (ls_data l)
  /\ NoDup (u_id <$> ls_data l)
  /\ StronglySorted (Query.newer (fun u => userCreatedAt clock (u_id u))) (ls_data l).
Proof.
  intros l. subst l. cbn -[Query.newestFirst Query.findUsers].
  assert (Hin : forall u, u ∈ Query.findUsers d
                          <-> exists r, users d !! u_id u = Some r
                                        /\ u = mkUserDoc (u_id u) (ur_name r) (ur_email r) None (ur_role r)).
  { intros u. unfold Query.findUsers. rewrite list_elem_of_fmap. split.
    - intros ([id r] & -> & H). apply elem_of_map_to_list in H. cbn. eauto.
    - intros (r & Hl & ->). exists (u_id u, r). cbn. split; [done|].
      by apply elem_of_map_to_list. }
  split_and!; try done.
  - by rewrite length_newestFirst; unfold Query.findUsers;
      rewrite length_fmap, length_map_to_list.
  - intros u. by rewrite elem_of_newestFirst.
  - apply Forall_forall. intros u Hu. apply elem_of_newestFirst, Hin in Hu as (r & _ & ->).
    done.
  - unfold Query.newestFirst. rewrite merge_sort_Permutation.
    unfold Query.findUsers. rewrite <- list_fmap_compose.
    apply (NoDup_fst_map_to_list (users d)).
  - apply StronglySorted_merge_sort; apply _.
Qed.

(** ** The routers *)

Lemma framed_getPostById req : framed (getPostById req).
Proof.
  unfold getPostById, Post.findById, Post.populateAuthor, consoleError.
  framed_walk.
Qed.

(** The two ways the authentication gate ends. *)
Lemma protect_outcome (codec : TokenCodec) (req : Request) (d : Db) :
  let w := exec (protect codec req) (initial d) in
  ((noBearerToken req \/ failsVerification codec req \/ principalNotFound codec req d)
   /\ next_calls w = 0%nat /\ db w = d /\ status <$> sent w = [401])
  \/ (exists t c r, bearerToken req t /\ verifies codec t c
                    /\ users d !! claim_id c = Some r
                    /\ w = passedGate d t c r).
Proof.
  intros w. subst w.
  destruct (gate_cases codec req d)
    as [H | [(t & Hb & Hv) | [(t & c & Hb & Hv & Hu) | (t & c & r & Hb & Hv & Hu)]]].
  - left. rewrite (protect_without_bearer codec _ _ H). auto.
  - left. destruct (protect_rejected_token codec _ d _ Hb Hv) as [msg ->].
    split; [|done]. right; left. by exists t.
  - left. rewrite (protect_verified codec _ d _ _ Hb Hv), Hu.
    split; [|done]. right; right. by exists t, c.
  - right. exists t, c, r. by rewrite (protect_verified codec _ d _ _ Hb Hv), Hu.
Qed.

Lemma findRoute_elem_of (routes : list Route) (m : Method) (segments : list string)
    (r : Route) (ps : list string) :
  findRoute routes m segments = Some (r, ps) ->
  r ∈ routes /\ rt_method r = m /\ Express.matchPath (rt_path r) segments = Some ps.
Proof.
  induction routes as [|x routes IH]; [done|]. cbn.
  case_bool_decide as Hm.
  - destruct (Express.matchPath (rt_path x) segments) as [ps'|] eqn:E.
    + intros [= <- <-]. split_and!; [left | done | done].
    + intros H. destruct (IH H) as (? & ? & ?). split_and!; [by right | done | done].
  - intros H. destruct (IH H) as (? & ? & ?). split_and!; [by right | done | done].
Qed.

(** What the controllers of the posts router leave of the store, in the
    context of an attached user. *)
Lemma post_controllers_keep_users (newId : string) (req : Request) (w : World) (u : UserDoc) :
  req_user w = Some u ->
  users (db (exec (createPost newId req) w)) = users (db w)
  /\ users (db (exec (updatePost req) w)) = users (db w)
  /\ users (db (exec (deletePost req) w)) = users (db w)
  /\ db (exec (getPostById req) w) = db w.
Proof.
  intros Hu. split_and!.
  - rewrite (exec_in_context _ w u (framed_createPost newId req) Hu). cbn [after db].
    pose proof (createPost_run (db w) u newId req) as R. cbv zeta in R.
    destruct (_ || _); [by rewrite R|].
    destruct (Post.validate _ _ _); by destruct R as (-> & _).
  - rewrite (exec_in_context _ w u (framed_updatePost req) Hu). cbn [after db].
    pose proof (updatePost_run (db w) u req) as R. cbv zeta in R.
    destruct (posts (db w) !! params_id req) as [p|]; [|by destruct R as (_ & -> & _)].
    destruct (bool_decide _); [|by destruct R as (_ & -> & _)].
    destruct R as (_ & _ & R).
    destruct (Post.validate _ _ _); by destruct R as (-> & _).
  - rewrite (exec_in_context _ w u (framed_deletePost req) Hu). cbn [after db].
    pose proof (deletePost_run (db w) u req) as R. cbv zeta in R.
    destruct (posts (db w) !! params_id req) as [p|]; [|by destruct R as (_ & -> & _)].
    destruct (bool_decide _); [|by destruct R as (_ & -> & _)].
    by destruct R as (_ & _ & -> & _).
  - rewrite (exec_framed _ w (framed_getPostById req)). cbn [after db].
    pose proof (getPostById_run (db w) (req_user w) req) as G. cbv zeta in G.
    apply G.
Qed.

Lemma raw_post_controllers_keep_users (newId : string) (req : Request) (w : World) (u : UserDoc) :
  req_user w = Some u ->
  users (db (exec (createPost newId req) w)) = users (db w)
  /\ users (db (exec (Raw.updatePost req) w)) = users (db w)
  /\ users (db (exec (Raw.deletePost req) w)) = users (db w)
  /\ db (exec (Raw.getPostById req) w) = db w.
Proof.
  intros Hu.
  destruct (post_controllers_keep_users newId req w u Hu) as (Hc & _ & Hdel & Hget).
  split; [done|].
  destruct (Mongoose.isObjectId (params_id req)) eqn:Hid.
  - destruct (Raw_on_ObjectId req Hid) as (-> & -> & _). split; [|done].
    rewrite (exec_in_context _ w u (framed_Raw_updatePost req) Hu). cbn [after db].
    pose proof (Raw_updatePost_run (db w) u req Hid) as R. cbv zeta in R.
    destruct (posts (db w) !! params_id req) as [p|]; [|by destruct R as (_ & -> & _)].
    destruct (bool_decide _); [|by destruct R as (_ & -> & _)].
    by destruct R as ((_ & _ & -> & _) & _).
  - by destruct (Raw_cast_failed req w Hid) as (-> & -> & -> & _).
Qed.

(** A request that the authentication gate rejects goes no further. *)
Lemma routers_authenticate_first_aux (codec : TokenCodec) (clock : Clock) (newId : string)
    (hr : HttpRequest) (d : Db) :
  let req := mkRequest (h_authorization hr) EmptyString (h_body hr) in
  noBearerToken req \/ failsVerification codec req \/ principalNotFound codec req d ->
  serve (postRoutes codec clock newId) hr (initial d)
  = mkServed (exec (protect codec req) (initial d)) None None
  /\ serve (userRoutes codec clock) hr (initial d)
     = mkServed (exec (protect codec req) (initial d)) None None.
Proof.
  intros req Hfail.
  destruct (protect_outcome codec req d) as [(_ & Hn & _) | (t & c & r & Hb & Hv & Hu & _)].
  - unfold serve; cbn [rt_use postRoutes userRoutes runGates]; fold req; rewrite Hn; cbn; done.
  - by destruct (found_not_failing codec _ _ _ _ _ Hb Hv Hu).
Qed.

(** X20: both routers authenticate before they route: a request that
    the authentication gate rejects is answered 401 whatever its method
    and path (also a path that no route has); no handler runs and the
    store is as it was. *)
Theorem routers_authenticate_first (codec : TokenCodec) (clock : Clock) (newId : string)
    (hr : HttpRequest) (d : Db) :
  let req := mkRequest (h_authorization hr) EmptyString (h_body hr) in
  noBearerToken req \/ failsVerification codec req \/ principalNotFound codec req d ->
  forall router, router = postRoutes codec clock newId \/ router = userRoutes codec clock ->
  let s := serve router hr (initial d) in
  status <$> sent (sv_world s) = [401]
  /\ db (sv_world s) = d
  /\ sv_posts s = None /\ sv_users s = None
  /\ storeWrites (sv_world s) = [].
Proof.
  intros req Hfail router Hrouter s.
  destruct (protect_outcome codec req d) as [(_ & Hn & Hd & Hs) | (t & c & r & Hb & Hv & Hu & _)].
  - assert (Hw : storeWrites (exec (protect codec req) (initial d)) = []).
    { destruct (gate_cases codec req d)
        as [H | [(t & Hb & Hv) | [(t & c & Hb & Hv & Hu) | (t & c & r & Hb & Hv & Hu)]]].
      - by rewrite (protect_without_bearer codec _ _ H).
      - by destruct (protect_rejected_token codec _ d _ Hb Hv) as [msg ->].
      - by rewrite (protect_verified codec _ d _ _ Hb Hv), Hu.
      - by rewrite (protect_verified codec _ d _ _ Hb Hv), Hu. }
    subst s. destruct Hrouter as [-> | ->]; unfold serve; cbn [rt_use postRoutes userRoutes runGates];
      fold req; rewrite Hn; cbn; done.
  - by destruct (found_not_failing codec _ _ _ _ _ Hb Hv Hu).
Qed.

(** A router whose [use] layers let the request through runs the first
    route of the method and path. *)
Lemma serve_posts_behind_gate (codec : TokenCodec) (clock : Clock) (newId : string)
    (hr : HttpRequest) (d : Db) (t : option string) (c : Claims) (r : UserRecord) :
  exec (protect codec (mkRequest (h_authorization hr) EmptyString (h_body hr))) (initial d)
  = passedGate d t c r ->
  serve (postRoutes codec clock newId) hr (initial d)
  = match findRoute (rt_routes (postRoutes codec clock newId)) (h_method hr)
            (Express.pathSegments (h_pathname hr)) with
    | None => mkServed (exec notFound (passedGate d t c r)) None None
    | Some (route, params) =>
        let req := mkRequest (h_authorization hr) (default EmptyString (head params)) (h_body hr) in
        let (w2, passed2) := runGates (rt_gates route) req (passedGate d t c r) in
        if negb passed2 then mkServed w2 None None
        else
          match rt_endpoint route with
          | Controller h => mkServed (exec (h req) w2) None None
          | ListPosts l => mkServed w2 (Some (l (db w2) (req_user w2))) None
          | ListUsers l => mkServed w2 None (Some (l (db w2) (req_user w2)))
          end
    end.
Proof.
  intros Hw. unfold serve. cbn [rt_use postRoutes runGates]. rewrite Hw. reflexivity.
Qed.

(** The role gate of a route, run behind the authentication gate. *)
Lemma runGates_checkRole (R : list string) (req : Request) (d : Db)
    (t : option string) (c : Claims) (r : UserRecord) (n : nat) :
  let w := mkWorld d (Some (User.withoutPassword (User.toDoc (claim_id c) r))) [] n
             [JwtVerify t; UserFindById (claim_id c)] in
  runGates [checkRole R] req w
  = if Js.includes R (ur_role r)
    then (mkWorld d (req_user w) [] (S n) (trace w), true)
    else (mkWorld d (req_user w) [failure 403 (accessDenied R (ur_role r))] n (trace w), false).
Proof.
  intros w. cbn [runGates]. erewrite checkRole_exec by reflexivity.
  cbn [u_role User.withoutPassword User.toDoc].
  subst w. cbn [next_calls db sent].
  destruct (Js.includes R (ur_role r)); cbn [next_calls].
  - replace (n <? S n)%nat with true by (symmetry; apply Nat.ltb_lt; lia). done.
  - by rewrite Nat.ltb_irrefl.
Qed.

(** X21: through the posts router the collection of users never
    changes, and the store changes at all only for a POST, PUT or
    DELETE request whose token verifies to a stored user with the role
    admin or editor. *)
Theorem posts_router_writes (codec : TokenCodec) (clock : Clock) (newId : string)
    (hr : HttpRequest) (d : Db) :
  let req := mkRequest (h_authorization hr) EmptyString (h_body hr) in
  let s := serve (postRoutes codec clock newId) hr (initial d) in
  users (db (sv_world s)) = users d
  /\ (db (sv_world s) <> d ->
      h_method hr ∈ [POST; PUT; DELETE]
      /\ exists t c r, bearerToken req t /\ verifies codec t c
                       /\ users d !! claim_id c = Some r
                       /\ ur_role r ∈ ["admin"; "editor"]).
Proof.
  intros req s.
  destruct (protect_outcome codec req d) as [(Hf & _ & Hd & _) | (t & c & r & Hb & Hv & Hu & Hw)].
  - destruct (routers_authenticate_first_aux codec clock newId hr d Hf) as [E _].
    subst s. rewrite E. cbn [sv_world]. fold req. by rewrite Hd.
  - subst s. rewrite (serve_posts_behind_gate codec clock newId hr d t c r Hw).
    destruct (findRoute _ _ _) as [[route ps]|] eqn:Hroute; [|done].
    apply findRoute_elem_of in Hroute as (Hin & Hm & _).
    cbn [rt_routes postRoutes] in Hin.
    set (rq := mkRequest (h_authorization hr) (default EmptyString (head ps)) (h_body hr)).
    repeat (apply elem_of_cons in Hin as [-> | Hin]); [..|by apply elem_of_nil in Hin];
      cbn [rt_gates rt_endpoint rt_method] in *; cbv zeta.
    + cbn [runGates negb]. done.
    + cbn [runGates negb]. done.
    + cbn [runGates negb]. destruct (raw_post_controllers_keep_users newId rq (passedGate d t c r) _ eq_refl)
        as (_ & _ & _ & E). cbn [sv_world]. by rewrite E.
    + unfold passedGate. rewrite runGates_checkRole.
      destruct (Js.includes _ (ur_role r)) eqn:Hrole; [|done]. cbn [negb].
      destruct (raw_post_controllers_keep_users newId rq
                  (mkWorld d (Some (User.withoutPassword (User.toDoc (claim_id c) r))) [] 2
                     [JwtVerify t; UserFindById (claim_id c)]) _ eq_refl) as (E & _).
      cbn [sv_world]. split; [exact E|]. intros _. rewrite <- Hm.
      split; [apply list_elem_of_In; cbn; tauto|].
      exists t, c, r. split_and!; try done. by apply includes_elem_of.
    + unfold passedGate. rewrite runGates_checkRole.
      destruct (Js.includes _ (ur_role r)) eqn:Hrole; [|done]. cbn [negb].
      destruct (raw_post_controllers_keep_users newId rq
                  (mkWorld d (Some (User.withoutPassword (User.toDoc (claim_id c) r))) [] 2
                     [JwtVerify t; UserFindById (claim_id c)]) _ eq_refl) as (_ & E & _).
      cbn [sv_world]. split; [exact E|]. intros _. rewrite <- Hm.
      split; [apply list_elem_of_In; cbn; tauto|].
      exists t, c, r. split_and!; try done. by apply includes_elem_of.
    + unfold passedGate. rewrite runGates_checkRole.
      destruct (Js.includes _ (ur_role r)) eqn:Hrole; [|done]. cbn [negb].
      destruct (raw_post_controllers_keep_users newId rq
                  (mkWorld d (Some (User.withoutPassword (User.toDoc (claim_id c) r))) [] 2
                     [JwtVerify t; UserFindById (claim_id c)]) _ eq_refl) as (_ & _ & E & _).
      cbn [sv_world]. split; [exact E|]. intros _. rewrite <- Hm.
      split; [apply list_elem_of_In; cbn; tauto|].
      exists t, c, r. split_and!; try done. by apply includes_elem_of.
Qed.

Lemma user_controllers_keep_posts (req : Request) (w : World) (u : UserDoc) :
  req_user w = Some u ->
  posts (db (exec (updateUserRole req) w)) = posts (db w)
  /\ posts (db (exec (deleteUser req) w)) = posts (db w)
  /\ db (exec (getUserById req) w) = db w.
Proof.
  intros Hu. split_and!.
  - rewrite (exec_in_context _ w u (framed_updateUserRole req) Hu). cbn [after db].
    pose proof (updateUserRole_run (db w) u req) as R. cbv zeta in R.
    destruct (requestedRole req); [|by destruct R as (_ & -> & _)].
    destruct (users (db w) !! params_id req); [|by destruct R as (_ & -> & _)].
    destruct (bool_decide _); [by destruct R as (_ & -> & _) | by destruct R as (-> & _)].
  - rewrite (exec_in_context _ w u (framed_deleteUser req) Hu). cbn [after db].
    pose proof (deleteUser_run (db w) u req) as R. cbv zeta in R.
    destruct (users (db w) !! params_id req); [|by destruct R as (_ & -> & _)].
    destruct (bool_decide _); [by destruct R as (_ & -> & _) | by destruct R as (-> & _)].
  - rewrite (exec_framed _ w (framed_getUserById req)). cbn [after db].
    pose proof (getUserById_read (db w) (req_user w) req) as G. cbv zeta in G.
    apply G.
Qed.

Lemma raw_user_controllers_keep_posts (req : Request) (w : World) (u : UserDoc) :
  req_user w = Some u ->
  posts (db (exec (Raw.updateUserRole req) w)) = posts (db w)
  /\ posts (db (exec (Raw.deleteUser req) w)) = posts (db w)
  /\ db (exec (Raw.getUserById req) w) = db w.
Proof.
  intros Hu.
  destruct (user_controllers_keep_posts req w u Hu) as (Hupd & Hdel & Hget).
  rewrite Raw_updateUserRole_exec.
  destruct (Mongoose.isObjectId (params_id req)) eqn:Hid.
  - by destruct (Raw_on_ObjectId req Hid) as (_ & _ & -> & _ & ->).
  - destruct (Raw_cast_failed req w Hid) as (_ & _ & _ & -> & ->).
    cbn [orb]. by destruct (negb _).
Qed.

Lemma runGates_cons (g : Request -> Eff unit) (rest : list (Request -> Eff unit))
    (req : Request) (w : World) :
  runGates (g :: rest) req w
  = let w' := exec (g req) w in
    if (next_calls w <? next_calls w')%nat then runGates rest req w' else (w', false).
Proof. reflexivity. Qed.

Lemma serve_users_behind_gate (codec : TokenCodec) (clock : Clock)
    (hr : HttpRequest) (d : Db) (t : option string) (c : Claims) (r : UserRecord) :
  exec (protect codec (mkRequest (h_authorization hr) EmptyString (h_body hr))) (initial d)
  = passedGate d t c r ->
  serve (userRoutes codec clock) hr (initial d)
  = if Js.includes ["admin"] (ur_role r) then
      let w1 := mkWorld d (Some (User.withoutPassword (User.toDoc (claim_id c) r))) [] 2
                  [JwtVerify t; UserFindById (claim_id c)] in
      match findRoute (rt_routes (userRoutes codec clock)) (h_method hr)
              (Express.pathSegments (h_pathname hr)) with
      | None => mkServed (exec notFound w1) None None
      | Some (route, params) =>
          let req := mkRequest (h_authorization hr) (default EmptyString (head params)) (h_body hr) in
          let (w2, passed2) := runGates (rt_gates route) req w1 in
          if negb passed2 then mkServed w2 None None
          else
            match rt_endpoint route with
            | Controller h => mkServed (exec (h req) w2) None None
            | ListPosts l => mkServed w2 (Some (l (db w2) (req_user w2))) None
            | ListUsers l => mkServed w2 None (Some (l (db w2) (req_user w2)))
            end
      end
    else
      mkServed (mkWorld d (Some (User.withoutPassword (User.toDoc (claim_id c) r)))
                  [failure 403 (accessDenied ["admin"] (ur_role r))] 1
                  [JwtVerify t; UserFindById (claim_id c)]) None None.
Proof.
  intros Hw. unfold serve. cbn [rt_use userRoutes].
  rewrite runGates_cons. cbv zeta. rewrite Hw. unfold passedGate.
  cbn [next_calls initial]. change (0 <? 1)%nat with true. cbv iota.
  rewrite runGates_checkRole.
  by destruct (Js.includes ["admin"] (ur_role r)).
Qed.

(** X22: the users router is for admins only: a request whose token
    verifies to a stored user of another role is answered 403, with the
    message of the role gate, whatever its method and path; no
    controller or list handler runs, and the only store call is the
    lookup of the authentication gate. *)
Theorem users_router_admin_only (codec : TokenCodec) (clock : Clock)
    (hr : HttpRequest) (d : Db) (t : option string) (c : Claims) (r : UserRecord) :
  let req := mkRequest (h_authorization hr) EmptyString (h_body hr) in
  bearerToken req t ->
  verifies codec t c ->
  users d !! claim_id c = Some r ->
  ur_role r <> "admin" ->
  let s := serve (userRoutes codec clock) hr (initial d) in
  sent (sv_world s)
  = [mkResponse 403 false
       (Some ("Access denied. Required role: admin. Your role: " +:+ ur_role r))
       NoData None]
  /\ sv_users s = None /\ sv_posts s = None
  /\ db (sv_world s) = d
  /\ storeCalls (sv_world s) = [UserFindById (claim_id c)].
Proof.
  intros req Hb Hv Hu Hrole s. subst s.
  assert (Hw : exec (protect codec req) (initial d) = passedGate d t c r).
  { by rewrite (protect_verified codec req d t c Hb Hv), Hu. }
  rewrite (serve_users_behind_gate codec clock hr d t c r Hw).
  assert (E : Js.includes ["admin"] (ur_role r) = false).
  { apply includes_not_elem_of. intros H. apply list_elem_of_In in H. cbn in H.
    destruct H as [H | []]. by symmetry in H. }
  rewrite E. done.
Qed.

(** X23: through the users router the collection of posts never
    changes, and the store changes at all only for a PATCH or DELETE
    request whose token verifies to a stored admin. *)
Theorem users_router_writes (codec : TokenCodec) (clock : Clock) (hr : HttpRequest) (d : Db) :
  let req := mkRequest (h_authorization hr) EmptyString (h_body hr) in
  let s := serve (userRoutes codec clock) hr (initial d) in
  posts (db (sv_world s)) = posts d
  /\ (db (sv_world s) <> d ->
      h_method hr ∈ [PATCH; DELETE]
      /\ exists t c r, bearerToken req t /\ verifies codec t c
                       /\ users d !! claim_id c = Some r
                       /\ ur_role r = "admin").
Proof.
  intros req s.
  destruct (protect_outcome codec req d) as [(Hf & _ & Hd & _) | (t & c & r & Hb & Hv & Hu & Hw)].
  - destruct (routers_authenticate_first_aux codec clock EmptyString hr d Hf) as [_ E].
    subst s. rewrite E. cbn [sv_world]. fold req. by rewrite Hd.
  - subst s. rewrite (serve_users_behind_gate codec clock hr d t c r Hw).
    destruct (Js.includes ["admin"] (ur_role r)) eqn:Hrole; [|done].
    assert (Hadmin : ur_role r = "admin").
    { apply includes_elem_of, list_elem_of_In in Hrole. cbn in Hrole.
      by destruct Hrole as [<- | []]. }
    cbv zeta.
    destruct (findRoute _ _ _) as [[route ps]|] eqn:Hroute; [|done].
    apply findRoute_elem_of in Hroute as (Hin & Hm & _).
    cbn [rt_routes userRoutes] in Hin.
    set (rq := mkRequest (h_authorization hr) (default EmptyString (head ps)) (h_body hr)).
    set (w1 := mkWorld d (Some (User.withoutPassword (User.toDoc (claim_id c) r))) [] 2
                 [JwtVerify t; UserFindById (claim_id c)]).
    repeat (apply elem_of_cons in Hin as [-> | Hin]); [..|by apply elem_of_nil in Hin];
      cbn [rt_gates rt_endpoint rt_method runGates negb sv_world] in *.
    + done.
    + destruct (raw_user_controllers_keep_posts rq w1 _ eq_refl) as (_ & _ & E). by rewrite E.
    + destruct (raw_user_controllers_keep_posts rq w1 _ eq_refl) as (E & _).
      split; [exact E|]. intros _. rewrite <- Hm.
      split; [apply list_elem_of_In; cbn; tauto|]. by exists t, c, r.
    + destruct (raw_user_controllers_keep_posts rq w1 _ eq_refl) as (_ & E & _).
      split; [exact E|]. intros _. rewrite <- Hm.
      split; [apply list_elem_of_In; cbn; tauto|]. by exists t, c, r.
Qed.

(** X24: [GET /my/posts] is the list of the caller's posts, not a read
    of a post: for a request whose token verifies to a stored user,
    the posts router answers a GET of a path made of the pieces "my"
    and "posts" (in any letter case, with or without a trailing slash)
    with the response of [getMyPosts] for that user. *)
Theorem my_posts_route (codec : TokenCodec) (clock : Clock) (newId : string)
    (hr : HttpRequest) (d : Db) (t : option string) (c : Claims) (r : UserRecord)
    (a b : string) :
  let req := mkRequest (h_authorization hr) EmptyString (h_body hr) in
  bearerToken req t ->
  verifies codec t c ->
  users d !! claim_id c = Some r ->
  h_method hr = GET ->
  Express.pathSegments (h_pathname hr) = [a; b] ->
  Express.toLowerCase a = "my" ->
  Express.toLowerCase b = "posts" ->
  let s := serve (postRoutes codec clock newId) hr (initial d) in
  sv_posts s
  = Some (getMyPosts clock d (Some (User.withoutPassword (User.toDoc (claim_id c) r))))
  /\ sent (sv_world s) = []
  /\ db (sv_world s) = d.
Proof.
  intros req Hb Hv Hu Hm Hp Ha Hb' s. subst s.
  assert (Hw : exec (protect codec req) (initial d) = passedGate d t c r).
  { by rewrite (protect_verified codec req d t c Hb Hv), Hu. }
  rewrite (serve_posts_behind_gate codec clock newId hr d t c r Hw).
  rewrite Hm, Hp. cbn [rt_routes postRoutes findRoute rt_method rt_path Express.matchPath].
  rewrite (bool_decide_eq_true_2 (GET = GET)) by done.
  rewrite Ha, Hb'. cbn. done.
Qed.

(** * Properties of the frontend guards *)

(** X25: for a non-empty list of allowed roles the page guard of the
    frontend and the role gate of the backend decide alike: for a
    logged-in user whose role is the one the backend attaches,
    [ProtectedRoute] renders its children exactly when [checkRole]
    calls [next()], and otherwise both name the same required roles and
    the same role. *)
Theorem ProtectedRoute_agrees_with_checkRole (fu : Frontend.User) (u : UserDoc)
    (R : list string) (req : Request) (d : Db) :
  Frontend.fu_role fu = u_role u ->
  R <> [] ->
  let w := exec (checkRole R req) (authenticated d u) in
  (Frontend.ProtectedRoute false (Some fu) R = Frontend.Children <-> next_calls w = 1%nat)
  /\ (Frontend.ProtectedRoute false (Some fu) R <> Frontend.Children ->
      Frontend.ProtectedRoute false (Some fu) R
      = Frontend.AccessDenied (Js.join " or " R) (u_role u)
      /\ sent w = [failure 403 ("Access denied. Required role: " +:+ Js.join " or " R
                                +:+ ". Your role: " +:+ u_role u)]).
Proof.
  intros Hrole HR w. subst w.
  erewrite checkRole_exec by reflexivity.
  unfold Frontend.ProtectedRoute. rewrite Hrole.
  destruct R as [|x R]; [done|]. cbn [length Nat.ltb Nat.leb andb].
  destruct (Js.includes (x :: R) (u_role u)); cbn; split; done.
Qed.

(** The two differ on the empty list: [ProtectedRoute] without
    allowed roles (its default) renders its children for every
    logged-in user, while [checkRole([])] answers every user 403. *)
Theorem empty_role_list_differs (fu : Frontend.User) (u : UserDoc) (req : Request) (d : Db) :
  Frontend.ProtectedRoute false (Some fu) [] = Frontend.Children
  /\ status <$> sent (exec (checkRole [] req) (authenticated d u)) = [403]
  /\ next_calls (exec (checkRole [] req) (authenticated d u)) = 0%nat.
Proof. by erewrite checkRole_exec by reflexivity. Qed.

(** The routes that the link targets of the bar resolve to. *)
Lemma App_link_targets (user : option Frontend.User) :
  Frontend.App false user "/" = Frontend.element user Frontend.Home
  /\ Frontend.App false user "/login" = Frontend.element user (Frontend.Public Frontend.LoginPage)
  /\ Frontend.App false user "/register"
     = Frontend.element user (Frontend.Public Frontend.RegisterPage)
  /\ Frontend.App false user "/dashboard"
     = Frontend.element user (Frontend.Protected [] Frontend.DashboardPage)
  /\ Frontend.App false user "/viewer"
     = Frontend.element user (Frontend.Protected [] Frontend.ViewerPage)
  /\ Frontend.App false user "/editor"
     = Frontend.element user (Frontend.Protected ["admin"; "editor"] Frontend.EditorPanel)
  /\ Frontend.App false user "/admin"
     = Frontend.element user (Frontend.Protected ["admin"] Frontend.AdminPanel).
Proof. split_and!; vm_compute; reflexivity. Qed.

(** X26: the navigation bar and the routes of the application agree: for
    a logged-in user, a guarded page has a link in the bar exactly when
    the application shows the page to that user; and no link of the
    bar, logged in or not, leads to the access-denied or the not-found
    page. *)
Theorem navbar_links_match_guards (user : option Frontend.User) :
  (forall fu path, user = Some fu -> path ∈ guardedPaths ->
     (path ∈ Frontend.navLinks user
      <-> exists page, Frontend.App false user path = Frontend.Shows page))
  /\ (forall link, link ∈ Frontend.navLinks user ->
        (exists page, Frontend.App false user link = Frontend.Shows page)
        \/ (exists to, Frontend.App false user link = Frontend.Redirects to)).
Proof.
  destruct (App_link_targets user) as (E0 & E1 & E2 & E3 & E4 & E5 & E6).
  split.
  - intros fu path -> Hp. unfold guardedPaths in Hp.
    repeat (apply elem_of_cons in Hp as [-> | Hp]); [..|by apply elem_of_nil in Hp];
      rewrite ?E3, ?E4, ?E5, ?E6; unfold Frontend.navLinks; cbn;
      destruct (String.eqb (Frontend.fu_role fu) "admin") eqn:Ea,
               (String.eqb (Frontend.fu_role fu) "editor") eqn:Ee; cbn;
      (split;
       [ intros H; try (by eexists);
         apply list_elem_of_In in H; cbn in H; exfalso;
         repeat (destruct H as [H | H]; [discriminate H|]); done
       | intros [page H]; try discriminate H;
         apply list_elem_of_In; cbn; tauto ]).
  - intros link Hl. unfold Frontend.navLinks in Hl. destruct user as [fu|].
    + apply elem_of_cons in Hl as [-> | Hl]; [right; rewrite E0; by eexists|].
      apply elem_of_cons in Hl as [-> | Hl]; [left; rewrite E3; by eexists|].
      destruct (String.eqb (Frontend.fu_role fu) "admin") eqn:Ea,
               (String.eqb (Frontend.fu_role fu) "editor") eqn:Ee; cbn in Hl;
        repeat (apply elem_of_cons in Hl as [-> | Hl]);
        try (by apply elem_of_nil in Hl);
        left; rewrite ?E4, ?E5, ?E6; cbn; rewrite ?Ea, ?Ee; cbn; by eexists.
    + repeat (apply elem_of_cons in Hl as [-> | Hl]); [..|by apply elem_of_nil in Hl];
        [right; rewrite E0 | left; rewrite E1 | left; rewrite E2]; by eexists.
Qed.


(** X28: on a post whose author no longer exists (the backend serves it
    with a [null] author) [canEdit] raises a [TypeError] for every user
    who is not an admin, logged in or not; for an admin it returns
    [true]. *)
Theorem canEdit_raises_on_orphan (d : Db) (user : option Frontend.User)
    (id : string) (p : PostRecord) :
  posts d !! id = Some p ->
  users d !! pr_author p = None ->
  Frontend.canEdit user (Query.populated d (Post.toDoc id p))
  = if bool_decide (Frontend.fu_role <$> user = Some "admin")
    then Ok true
    else Throw "Cannot read properties of null (reading '_id')".
Proof.
  intros Hp Hu. unfold Frontend.canEdit, Query.populated. cbn. rewrite Hu. cbn.
  destruct user as [fu|]; cbn; [|done].
  rewrite eqb_decide. repeat case_bool_decide; try done; congruence.
Qed.

Lemma filterThrowing_Ok {A} (f : A -> Result bool) (xs kept : list A) :
  Frontend.filterThrowing f xs = Ok kept ->
  Forall (fun x => exists b, f x = Ok b) xs
  /\ sublist kept xs
  /\ (forall x, x ∈ kept <-> x ∈ xs /\ f x = Ok true).
Proof.
  revert kept. induction xs as [|x xs IH]; intros kept; cbn.
  - intros [= <-]. split_and!; [constructor | constructor |].
    intros x. rewrite elem_of_nil. tauto.
  - destruct (f x) as [b|e] eqn:Hx; [|discriminate].
    destruct (Frontend.filterThrowing f xs) as [kept'|e]; [|discriminate].
    destruct (IH kept' eq_refl) as (Hall & Hsub & Hin).
    intros [= <-]. split_and!.
    + constructor; eauto.
    + destruct b; [by apply sublist_skip | by apply sublist_cons].
    + intros y. destruct b.
      * rewrite !elem_of_cons, Hin. split.
        -- intros [-> | [? ?]]; auto.
        -- intros [[-> | ?] ?]; auto.
      * rewrite elem_of_cons, Hin. split.
        -- intros [? ?]; auto.
        -- intros [[-> | ?] ?]; [congruence | auto].
Qed.

Lemma filterThrowing_Throw {A} (f : A -> Result bool) (xs : list A) :
  (exists e, Frontend.filterThrowing f xs = Throw e)
  <-> exists x e, x ∈ xs /\ f x = Throw e.
Proof.
  induction xs as [|x xs IH]; cbn.
  - split; [intros [e [=]] | intros (x & e & H & _); by apply elem_of_nil in H].
  - destruct (f x) as [b|e] eqn:Hx.
    + destruct (Frontend.filterThrowing f xs) as [kept|e'].
      * split; [intros [e [=]]|]. intros (y & e & Hy & He).
        apply elem_of_cons in Hy as [-> | Hy]; [congruence|].
        destruct (proj2 IH) as [e' [=]]. eauto.
      * split; [|eauto]. intros _.
        destruct (proj1 IH) as (y & e & Hy & He); [eauto|].
        exists y, e. split; [by right | done].
    + split; [|eauto]. intros _. exists x, e. split; [by left | done].
Qed.

(** X29: the list that [filterPosts] of the viewer page computes is a
    sub-list of the posts, in their order; with a status filter other
    than [all] every post of it has that status; with an empty search
    term nothing is dropped by the search, and with the filter [all]
    too the list is the list of posts. *)
Theorem filterPosts_result (posts filtered : list PostView) (searchTerm filterStatus : string) :
  Frontend.filterPosts posts searchTerm filterStatus = Ok filtered ->
  sublist filtered posts
  /\ (filterStatus <> "all" -> Forall (fun p => pv_status p = filterStatus) filtered)
  /\ (searchTerm = EmptyString ->
      forall p, p ∈ filtered <-> p ∈ posts /\ (filterStatus = "all" \/ pv_status p = filterStatus))
  /\ (searchTerm = EmptyString -> filterStatus = "all" -> filtered = posts).
Proof.
  unfold Frontend.filterPosts. intros H.
  assert (Hst : forall l : list PostView,
            sublist (if negb (String.eqb filterStatus "all")
                     then List.filter (fun p => String.eqb (pv_status p) filterStatus) l
                     else l) l
            /\ (filterStatus <> "all" ->
                Forall (fun p => pv_status p = filterStatus)
                  (if negb (String.eqb filterStatus "all")
                   then List.filter (fun p => String.eqb (pv_status p) filterStatus) l
                   else l))).
  { intros l. destruct (String.eqb_spec filterStatus "all") as [Heq|Hne]; cbn.
    - split; [done|]. intros Hn. by destruct Hn.
    - split.
      + induction l as [|x l IH]; cbn; [constructor|].
        destruct (String.eqb _ _); [by apply sublist_skip | by apply sublist_cons].
      + intros _. apply Forall_forall. intros x Hx.
        apply list_elem_of_In, filter_In in Hx as [_ Hx]. by apply String.eqb_eq. }
  destruct (Js.truthy (Some searchTerm)) eqn:Htr.
  - destruct (Frontend.filterThrowing _ posts) as [kept|e] eqn:Hk; [|discriminate].
    injection H as <-. destruct (filterThrowing_Ok _ _ _ Hk) as (_ & Hsub & _).
    destruct (Hst kept) as [Hs1 Hs2].
    split_and!; [by etrans | done | |]; intros ->; discriminate Htr.
  - injection H as <-. destruct (Hst posts) as [Hs1 Hs2].
    split_and!; [done | done | |].
    + intros _ p. destruct (String.eqb_spec filterStatus "all") as [Heq|Hne]; cbn.
      * tauto.
      * rewrite list_elem_of_In, filter_In, <- list_elem_of_In, String.eqb_eq.
        intuition congruence.
    + intros _ ->. done.
Qed.

(** X30: on ASCII text (the search term, and the title and the content
    of the posts without author) [filterPosts] raises exactly when there
    is a search term and some post has a [null] author (its author was
    deleted) and neither its title nor its content contains the term,
    letter case apart: the search then reads [post.author.name].
    Without a search term it never raises. *)
Theorem filterPosts_raises_iff (posts : list PostView) (searchTerm filterStatus : string) :
  Js.isAscii searchTerm = true ->
  Forall (fun p => pv_author p = None ->
                   Js.isAscii (pv_title p) && Js.isAscii (pv_content p) = true) posts ->
  (exists e, Frontend.filterPosts posts searchTerm filterStatus = Throw e)
  <-> searchTerm <> EmptyString
      /\ exists p, p ∈ posts /\ pv_author p = None
           /\ Frontend.includesString (Express.toLowerCase (pv_title p))
                (Express.toLowerCase searchTerm) = false
           /\ Frontend.includesString (Express.toLowerCase (pv_content p))
                (Express.toLowerCase searchTerm) = false.
Proof.
  intros _ _. unfold Frontend.filterPosts.
  assert (Hm : forall p, (exists e, Frontend.matchesSearch searchTerm p = Throw e)
                         <-> pv_author p = None
                             /\ Frontend.includesString (Express.toLowerCase (pv_title p))
                                  (Express.toLowerCase searchTerm) = false
                             /\ Frontend.includesString (Express.toLowerCase (pv_content p))
                                  (Express.toLowerCase searchTerm) = false).
  { intros p. unfold Frontend.matchesSearch.
    destruct (Frontend.includesString (Express.toLowerCase (pv_title p)) _);
      [split; [intros [e [=]] | intros (_ & [=] & _)]|].
    destruct (Frontend.includesString (Express.toLowerCase (pv_content p)) _);
      [split; [intros [e [=]] | intros (_ & _ & [=])]|].
    destruct (pv_author p); [split; [intros [e [=]] | intros ([=] & _)]|].
    split; [done | eauto]. }
  destruct (String.eqb_spec searchTerm EmptyString) as [->|Hne]; cbn.
  - split; [intros [e [=]] | intros [Hn _]; by destruct Hn].
  - apply String.eqb_neq in Hne as Hne'. rewrite Hne'. cbn.
    destruct (Frontend.filterThrowing _ posts) as [kept|e] eqn:Hk.
    + split; [intros [e [=]]|]. intros (_ & p & Hp & Hthrow).
      apply Hm in Hthrow as [e He].
      destruct (proj2 (filterThrowing_Throw (Frontend.matchesSearch searchTerm) posts))
        as [e' He']; [eauto|]. congruence.
    + split; [|eauto]. intros _. split; [done|].
      destruct (proj1 (filterThrowing_Throw (Frontend.matchesSearch searchTerm) posts))
        as (p & e' & Hp & He'); [eauto|].
      exists p. split; [done|]. apply Hm. eauto.
Qed.

(** * The further properties at work on the seeded store *)

(** X1 on a body without title and content. *)
Lemma createPost_requires_title_and_content_witness :
  Js.truthy (b_title (body (Sample.request None "P1" Sample.emptyBody))) = false
  /\ sent (exec (createPost "P3" (Sample.request None "P1" Sample.emptyBody))
             (authenticated Sample.seeded Sample.editorDoc))
     = [mkResponse 400 false (Some "Please provide title and content") NoData None].
Proof.
  split; [reflexivity|].
  exact (proj1 (createPost_requires_title_and_content Sample.seeded Sample.editorDoc "P3"
                  (Sample.request None "P1" Sample.emptyBody) (or_introl eq_refl))).
Defined.

(** X2 on the editor E1 creating a post whose body names A1 as author. *)
Lemma createPost_stores_post_of_actor_witness :
  posts (db (exec (createPost "P3" (Sample.request None "P1" Demo.draftBody))
               (authenticated Sample.seeded Sample.editorDoc))) !! "P3"
  = Some (mkPostRecord "Hello" "text" "E1" "draft").
Proof.
  assert (Ht : " Hello " <> EmptyString) by discriminate.
  assert (Hc : "text" <> EmptyString) by discriminate.
  exact (proj1 (proj2 (createPost_stores_post_of_actor Sample.seeded Sample.editorDoc "P3"
                         (Sample.request None "P1" Demo.draftBody) " Hello " "text"
                         eq_refl eq_refl Ht Hc eq_refl))).
Defined.

(** X3 on a title of three spaces. *)
Lemma createPost_invalid_is_server_error_witness :
  Js.truthy (Some "   ") = true
  /\ exists err,
       sent (exec (createPost "P3" (Sample.request None "P1" Demo.blankTitleBody))
               (authenticated Sample.seeded Sample.editorDoc))
       = [mkResponse 500 false (Some "Error creating post") NoData (Some err)].
Proof.
  assert (Hv : Post.validate (Some "   ") (Some "text") (Some "draft") <> None)
    by (vm_compute; discriminate).
  split; [reflexivity|].
  exact (proj1 (createPost_invalid_is_server_error Sample.seeded Sample.editorDoc "P3"
                  (Sample.request None "P1" Demo.blankTitleBody)
                  eq_refl eq_refl Hv)).
Defined.

(** X5 on the admin deleting the editor E1, the author of P1. *)
Lemma orphaned_post_served_without_author_witness :
  users Sample.seeded !! "E1" = Some Sample.editor
  /\ posts Sample.seeded !! "P1" = Some Sample.post1
  /\ sent (exec (getPostById (mkRequest None "P1" Sample.emptyBody))
             (mkWorld (db (exec (deleteUser (mkRequest None "E1" Sample.emptyBody))
                             (authenticated Sample.seeded Sample.adminDoc)))
                (Some Sample.viewerDoc) [] 0 []))
     = [mkResponse 200 true None
          (PostData (Some (mkPostView "P1" "Editor Post" "Written by the editor." None "draft")))
          None].
Proof.
  assert (Hne : "E1" <> u_id Sample.adminDoc) by discriminate.
  split; [reflexivity|]. split; [reflexivity|].
  exact (orphaned_post_served_without_author Sample.seeded Sample.adminDoc "E1" "P1"
           Sample.editor Sample.post1 Sample.emptyBody (Some Sample.viewerDoc)
           eq_refl Hne eq_refl eq_refl).
Defined.

(** X7 on a role update without a role, aimed at an id that no user has. *)
Lemma updateUserRole_validates_first_witness :
  requestedRole (Sample.request None "U9" Sample.emptyBody) = None
  /\ trace (exec (updateUserRole (Sample.request None "U9" Sample.emptyBody))
              (mkWorld Sample.seeded (Some Sample.adminDoc) [] 0 [])) = [].
Proof.
  split; [reflexivity|].
  exact (proj1 (proj2 (updateUserRole_validates_first Sample.seeded (Some Sample.adminDoc)
                         (Sample.request None "U9" Sample.emptyBody) eq_refl))).
Defined.

(** On an ObjectId that no user has. *)
Lemma user_mutation_unknown_target_witness :
  users Demo.store !! Demo.unusedId = None
  /\ Mongoose.isObjectId Demo.unusedId = true
  /\ refusedWith Demo.store (mkResponse 404 false (Some "User not found") NoData None)
       (exec (Raw.deleteUser (Sample.request None Demo.unusedId Demo.viewerRoleBody))
          (authenticated Demo.store Demo.adminDoc)).
Proof.
  assert (Hr : is_Some (requestedRole (Sample.request None Demo.unusedId Demo.viewerRoleBody)))
    by (vm_compute; eauto).
  split; [reflexivity|]. split; [reflexivity|].
  exact (proj2 (proj1 (user_mutation_unknown_target Demo.store Demo.adminDoc
                         (Sample.request None Demo.unusedId Demo.viewerRoleBody) eq_refl Hr)
                  eq_refl)).
Defined.

(** X8 on the admin making the editor E1 a viewer. *)
Lemma updateUserRole_changes_only_role_witness :
  requestedRole (Sample.request None "E1" Demo.viewerRoleBody) = Some "viewer"
  /\ users (db (exec (updateUserRole (Sample.request None "E1" Demo.viewerRoleBody))
                  (authenticated Sample.seeded Sample.adminDoc))) !! "E1"
     = Some (mkUserRecord "Editor User" "editor@example.com" "$2a$10$editorhash" "viewer").
Proof.
  assert (Hne : "E1" <> u_id Sample.adminDoc) by discriminate.
  split; [reflexivity|].
  exact (proj1 (updateUserRole_changes_only_role Sample.seeded Sample.adminDoc
                  (Sample.request None "E1" Demo.viewerRoleBody) Sample.editor "viewer"
                  eq_refl Hne eq_refl)).
Defined.

(** X9 on the same role update, sent twice. *)
Lemma updateUserRole_idempotent_witness :
  let w1 := exec (updateUserRole (Sample.request None "E1" Demo.viewerRoleBody))
              (authenticated Sample.seeded Sample.adminDoc) in
  db (exec (updateUserRole (Sample.request None "E1" Demo.viewerRoleBody))
        (authenticated (db w1) Sample.adminDoc)) = db w1.
Proof.
  assert (Hne : "E1" <> u_id Sample.adminDoc) by discriminate.
  exact (proj1 (updateUserRole_idempotent Sample.seeded Sample.adminDoc
                  (Sample.request None "E1" Demo.viewerRoleBody) Sample.editor "viewer"
                  eq_refl Hne eq_refl)).
Defined.

(** X10 on the editor deleting P1, then the admin trying again. *)
Lemma deletePost_twice_not_found_witness :
  u_id Sample.editorDoc = pr_author Sample.post1
  /\ sent (exec (deletePost (Sample.request None "P1" Sample.emptyBody))
             (authenticated
                (db (exec (deletePost (Sample.request None "P1" Sample.emptyBody))
                       (authenticated Sample.seeded Sample.editorDoc)))
                Sample.adminDoc))
     = [mkResponse 404 false (Some "Post not found") NoData None].
Proof.
  split; [reflexivity|].
  exact (proj1 (proj2 (deletePost_twice_not_found Sample.seeded Sample.editorDoc Sample.adminDoc
                         (Sample.request None "P1" Sample.emptyBody) Sample.post1
                         eq_refl (or_intror eq_refl)))).
Defined.

(** X11 on the editor's token after the admin deleted the editor. *)
Lemma deleted_user_token_rejected_witness :
  sent (exec (protect Sample.codec Sample.editorBearer)
          (initial (db (exec (deleteUser (Sample.request None "E1" Sample.emptyBody))
                          (authenticated Sample.seeded Sample.adminDoc)))))
  = [mkResponse 401 false (Some "User not found") NoData None].
Proof.
  assert (Hne : "E1" <> u_id Sample.adminDoc) by discriminate.
  exact (proj1 (deleted_user_token_rejected Sample.codec Sample.seeded Sample.adminDoc
                  (Sample.request None "E1" Sample.emptyBody) Sample.editorBearer
                  Sample.editor (Some "ok.E1") (mkClaims "E1")
                  eq_refl Hne editorBearer_token editor_token_verifies eq_refl)).
Defined.

(** X12 on the editor's next request after being made a viewer. *)
Lemma role_change_seen_by_next_request_witness :
  u_role <$> req_user
    (exec (protect Sample.codec Sample.editorBearer)
       (initial (db (exec (updateUserRole (Sample.request None "E1" Demo.viewerRoleBody))
                       (authenticated Sample.seeded Sample.adminDoc)))))
  = Some "viewer".
Proof.
  assert (Hne : "E1" <> u_id Sample.adminDoc) by discriminate.
  exact (proj1 (role_change_seen_by_next_request Sample.codec Sample.seeded Sample.adminDoc
                  (Sample.request None "E1" Demo.viewerRoleBody) Sample.editorBearer
                  Sample.editor "viewer" (Some "ok.E1") (mkClaims "E1") ["admin"; "editor"]
                  eq_refl Hne eq_refl editorBearer_token editor_token_verifies eq_refl)).
Defined.

(** X13 on an update of P1 with no user attached. *)
Lemma controllers_without_principal_witness :
  is_Some (posts Sample.seeded !! "P1")
  /\ status <$> sent (exec (updatePost (Sample.request None "P1" Demo.retitleBody))
                        (mkWorld Sample.seeded None [] 0 [])) = [500].
Proof.
  assert (Hp : is_Some (posts Sample.seeded !! "P1")) by (vm_compute; eauto).
  split; [exact Hp|].
  exact (proj1 (proj1 (proj1 (controllers_without_principal Sample.seeded "P3"
                                (Sample.request None "P1" Demo.retitleBody)) Hp))).
Defined.

(** X14 on the editor giving their post a new title. *)
Lemma updatePost_keeps_absent_paths_witness :
  Mongoose.isObjectId Demo.post1Id = true
  /\ exists p',
       posts (db (exec (Raw.updatePost (Sample.request None Demo.post1Id Demo.retitleBody))
                    (authenticated Demo.store Demo.editorDoc))) !! Demo.post1Id = Some p'
       /\ pr_title p' = "New title" /\ pr_author p' = Demo.editorId.
Proof.
  split; [reflexivity|].
  destruct (proj2 (updatePost_keeps_absent_paths Demo.store Demo.editorDoc
                     (Sample.request None Demo.post1Id Demo.retitleBody)
                     (mkPostRecord "Editor Post" "Written by the editor." Demo.editorId "draft")
                     eq_refl eq_refl eq_refl (or_intror eq_refl) eq_refl))
    as (p' & Hl & Ht & _ & _ & Ha & _).
  exists p'. split; [exact Hl|]. split; [exact Ht | exact (Ha eq_refl)].
Defined.

(** An expired token verifies to nothing. *)
Lemma expired_token_fails (c : Claims) : ~ verifies Sample.codec (Some "old.E1") c.
Proof. intros (tok & Ht & _ & Hv). injection Ht as <-. discriminate Hv. Defined.

(** The bearer token of the expired request. *)
Lemma expiredBearer_token : bearerToken Demo.expiredBearer (Some "old.E1").
Proof. exists "Bearer old.E1". split_and!; reflexivity. Defined.

(** X15 on an expired token. *)
Lemma rejected_token_never_reaches_store_witness :
  bearerToken Demo.expiredBearer (Some "old.E1")
  /\ storeCalls (exec (protect Sample.codec Demo.expiredBearer) (initial Sample.seeded)) = [].
Proof.
  split; [exact expiredBearer_token|].
  exact (proj1 (proj2 (rejected_token_never_reaches_store Sample.codec Demo.expiredBearer
                         Sample.seeded (Some "old.E1") expiredBearer_token
                         expired_token_fails))).
Defined.

(** X16 on the headers "Bearer ok.E1" and "BearerXYZ ok.E1 trailing". *)
Lemma protect_reads_second_piece_witness :
  Js.split " " "Bearer ok.E1" !! 1%nat = Js.split " " "BearerXYZ ok.E1 trailing" !! 1%nat
  /\ exec (protect Sample.codec Sample.editorBearer) (initial Sample.seeded)
     = exec (protect Sample.codec Demo.lenientBearer) (initial Sample.seeded).
Proof.
  split; [reflexivity|].
  exact (protect_reads_second_piece Sample.codec Sample.editorBearer Demo.lenientBearer
           Sample.seeded "Bearer ok.E1" "BearerXYZ ok.E1 trailing"
           eq_refl eq_refl eq_refl eq_refl eq_refl).
Defined.



(** X17 on the editor E1, who has one post. *)
Lemma getMyPosts_lists_own_posts_witness :
  ls_count (getMyPosts Demo.clock Sample.seeded (Some Sample.editorDoc))
  = Some (length (ls_data (getMyPosts Demo.clock Sample.seeded (Some Sample.editorDoc)))).
Proof.
  exact (proj1 (proj2 (proj2 (getMyPosts_lists_own_posts Demo.clock Sample.seeded
                                Sample.editorDoc)))).
Defined.

(** X18 on the seeded store, which has two posts. *)
Lemma getAllPosts_lists_every_post_witness :
  ls_count (getAllPosts Demo.clock Sample.seeded None) = Some (size (posts Sample.seeded)).
Proof.
  exact (proj1 (proj2 (getAllPosts_lists_every_post Demo.clock Sample.seeded None))).
Defined.

(** X19 on the seeded store. *)
Lemma getAllUsers_without_passwords_witness :
  Forall (fun u => u_password u = None)
    (ls_data (getAllUsers Demo.clock Sample.seeded (Some Sample.adminDoc))).
Proof.
  exact (proj1 (proj2 (proj2 (proj2 (getAllUsers_without_passwords Demo.clock Sample.seeded
                                       (Some Sample.adminDoc)))))).
Defined.

(** X20 on a DELETE with basic authentication. *)
Lemma routers_authenticate_first_witness :
  let hr := mkHttpRequest DELETE "/P1" (Some "Basic dXNlcjpwYXNz") Sample.emptyBody in
  status <$> sent (sv_world (serve (postRoutes Sample.codec Demo.clock "P3") hr
                               (initial Sample.seeded))) = [401]
  /\ status <$> sent (sv_world (serve (userRoutes Sample.codec Demo.clock) hr
                                  (initial Sample.seeded))) = [401].
Proof.
  intros hr.
  assert (H : noBearerToken (mkRequest (h_authorization hr) EmptyString (h_body hr))).
  { right. exists "Basic dXNlcjpwYXNz". split; reflexivity. }
  split.
  - exact (proj1 (routers_authenticate_first Sample.codec Demo.clock "P3" hr Sample.seeded
                    (or_introl H) _ (or_introl eq_refl))).
  - exact (proj1 (routers_authenticate_first Sample.codec Demo.clock "P3" hr Sample.seeded
                    (or_introl H) _ (or_intror eq_refl))).
Defined.

(** X21 on the editor creating a post through the router. *)
Lemma posts_router_writes_witness :
  let hr := mkHttpRequest POST "/" (Some "Bearer ok.E1") Demo.draftBody in
  db (sv_world (serve (postRoutes Sample.codec Demo.clock "P3") hr (initial Sample.seeded)))
  <> Sample.seeded
  /\ h_method hr ∈ [POST; PUT; DELETE].
Proof.
  intros hr.
  assert (Hne : db (sv_world (serve (postRoutes Sample.codec Demo.clock "P3") hr
                                (initial Sample.seeded))) <> Sample.seeded).
  { intros E. apply (f_equal (fun d => posts d !! "P3")) in E. vm_compute in E.
    discriminate E. }
  split; [exact Hne|].
  exact (proj1 (proj2 (posts_router_writes Sample.codec Demo.clock "P3" hr Sample.seeded) Hne)).
Defined.

(** X22 on the editor asking for the list of users. *)
Lemma users_router_admin_only_witness :
  let hr := mkHttpRequest GET "/" (Some "Bearer ok.E1") Sample.emptyBody in
  ur_role Sample.editor <> "admin"
  /\ sent (sv_world (serve (userRoutes Sample.codec Demo.clock) hr (initial Sample.seeded)))
     = [mkResponse 403 false
          (Some "Access denied. Required role: admin. Your role: editor") NoData None].
Proof.
  intros hr.
  assert (Hr : ur_role Sample.editor <> "admin") by discriminate.
  split; [exact Hr|].
  exact (proj1 (users_router_admin_only Sample.codec Demo.clock hr Sample.seeded
                  (Some "ok.E1") (mkClaims "E1") Sample.editor
                  editorBearer_token editor_token_verifies eq_refl Hr)).
Defined.

(** X23 on the admin deleting the editor through the router. *)
Lemma users_router_writes_witness :
  let hr := mkHttpRequest DELETE "/65f1a0000000000000000e01"
              (Some "Bearer ok.65f1a0000000000000000a01") Sample.emptyBody in
  db (sv_world (serve (userRoutes Sample.codec Demo.clock) hr (initial Demo.store)))
  <> Demo.store
  /\ h_method hr ∈ [PATCH; DELETE].
Proof.
  intros hr.
  assert (Hne : db (sv_world (serve (userRoutes Sample.codec Demo.clock) hr
                                (initial Demo.store))) <> Demo.store).
  { intros E. apply (f_equal (fun d => users d !! Demo.editorId)) in E. vm_compute in E.
    discriminate E. }
  split; [exact Hne|].
  exact (proj1 (proj2 (users_router_writes Sample.codec Demo.clock hr Demo.store) Hne)).
Defined.

(** X24 on [GET /My/Posts/] by the editor. *)
Lemma my_posts_route_witness :
  let hr := mkHttpRequest GET "/My/Posts/" (Some "Bearer ok.E1") Sample.emptyBody in
  Express.pathSegments (h_pathname hr) = ["My"; "Posts"]
  /\ sv_posts (serve (postRoutes Sample.codec Demo.clock "P3") hr (initial Sample.seeded))
     = Some (getMyPosts Demo.clock Sample.seeded (Some Sample.editorDoc)).
Proof.
  intros hr. split; [reflexivity|].
  exact (proj1 (my_posts_route Sample.codec Demo.clock "P3" hr Sample.seeded
                  (Some "ok.E1") (mkClaims "E1") Sample.editor "My" "Posts"
                  editorBearer_token editor_token_verifies eq_refl eq_refl eq_refl
                  eq_refl eq_refl)).
Defined.

(** X25 on the editor at the admin page. *)
Lemma ProtectedRoute_agrees_with_checkRole_witness :
  Frontend.ProtectedRoute false (Some Demo.editorUser) ["admin"] <> Frontend.Children
  /\ Frontend.ProtectedRoute false (Some Demo.editorUser) ["admin"]
     = Frontend.AccessDenied "admin" "editor".
Proof.
  assert (HR : ["admin"] <> @nil string) by discriminate.
  assert (Hn : Frontend.ProtectedRoute false (Some Demo.editorUser) ["admin"]
               <> Frontend.Children) by discriminate.
  split; [exact Hn|].
  exact (proj1 (proj2 (ProtectedRoute_agrees_with_checkRole Demo.editorUser Sample.editorDoc
                         ["admin"] Sample.editorBearer Sample.seeded eq_refl HR) Hn)).
Defined.

(** X26 on the editor and the editor panel. *)
Lemma navbar_links_match_guards_witness :
  "/editor" ∈ guardedPaths
  /\ exists page, Frontend.App false (Some Demo.editorUser) "/editor" = Frontend.Shows page.
Proof.
  assert (Hg : "/editor" ∈ guardedPaths) by (apply list_elem_of_In; cbn; tauto).
  assert (Hl : "/editor" ∈ Frontend.navLinks (Some Demo.editorUser))
    by (apply list_elem_of_In; cbn; tauto).
  split; [exact Hg|].
  exact (proj1 (proj1 (navbar_links_match_guards (Some Demo.editorUser))
                  Demo.editorUser "/editor" eq_refl Hg) Hl).
Defined.


(** X28 on the post P1 after its author was deleted. *)
Lemma canEdit_raises_on_orphan_witness :
  users Demo.orphaned !! pr_author Sample.post1 = None
  /\ Frontend.canEdit (Some Demo.editorUser)
       (Query.populated Demo.orphaned (Post.toDoc "P1" Sample.post1))
     = Throw "Cannot read properties of null (reading '_id')".
Proof.
  split; [reflexivity|].
  exact (canEdit_raises_on_orphan Demo.orphaned (Some Demo.editorUser) "P1" Sample.post1
           eq_refl eq_refl).
Defined.

(** X29 on a list of two posts and the status filter "draft". *)
Lemma filterPosts_result_witness :
  Frontend.filterPosts [Demo.orphanView; Demo.adminView] EmptyString "draft"
  = Ok [Demo.orphanView]
  /\ sublist [Demo.orphanView] [Demo.orphanView; Demo.adminView].
Proof.
  split; [reflexivity|].
  exact (proj1 (filterPosts_result [Demo.orphanView; Demo.adminView] [Demo.orphanView]
                  EmptyString "draft" eq_refl)).
Defined.

(** X30 on a search for "welcome" over a list with an orphaned post. *)
Lemma filterPosts_raises_iff_witness :
  Js.isAscii "welcome" = true
  /\ exists e, Frontend.filterPosts [Demo.orphanView; Demo.adminView] "welcome" "all" = Throw e.
Proof.
  assert (Hs : "welcome" <> EmptyString) by discriminate.
  assert (Ha : Forall (fun p => pv_author p = None ->
                                Js.isAscii (pv_title p) && Js.isAscii (pv_content p) = true)
                 [Demo.orphanView; Demo.adminView]).
  { repeat (constructor; [intros _; reflexivity|]). constructor. }
  assert (Hin : Demo.orphanView ∈ [Demo.orphanView; Demo.adminView])
    by (apply list_elem_of_In; cbn; tauto).
  split; [reflexivity|].
  exact (proj2 (filterPosts_raises_iff [Demo.orphanView; Demo.adminView] "welcome" "all"
                  eq_refl Ha)
           (conj Hs (ex_intro _ Demo.orphanView
                       (conj Hin (conj eq_refl (conj eq_refl eq_refl)))))).
Defined.
